(** * Verification of the bonbj/converters "to-SQL" helpers

    Shallow embedding of the Name Sanitizer ([sanitize_name]), the Type
    Inferencer ([infer_postgres_type]), the Value Escaper
    ([escape_sql_value], pandas and DBF variants), the CSV table emitter
    ([csv_to_sql]) and the catalog fetchers ([obter_colunas],
    [obter_constraints], [obter_indices]) of the Python sources, and the
    properties of the specification stated over them.

    Conventions.
    - A Python [str] is a [string]; each [ascii] is the Unicode code point
      of the same number, so the development covers the strings over the
      code points 0..255 (Latin-1).  The character tables below ([\s],
      [str.lower], [str.isdigit], ...) are the CPython ones restricted to
      that range.
    - A Python exception is a value of [exn]; code that can raise returns
      a [result]. *)

From Stdlib Require Import String Ascii List ZArith NArith Bool Lia.
From Stdlib Require Import DecimalString DecimalPos.
From Stdlib Require Import Permutation.
Import ListNotations.

Local Open Scope string_scope.
Local Open Scope bool_scope.

(* ------------------------------------------------------------------ *)
(** ** Characters and the string library *)

Module PyStr.

Definition code (c : ascii) : N := N_of_ascii c.

Definition between (lo hi : N) (c : ascii) : bool :=
  (lo <=? code c)%N && (code c <=? hi)%N.

(** [a-z], [A-Z], [0-9] and [_] of the regular expressions. *)
Definition is_az (c : ascii) : bool := between 97 122 c.
Definition is_AZ (c : ascii) : bool := between 65 90 c.
Definition is_09 (c : ascii) : bool := between 48 57 c.
Definition is_us (c : ascii) : bool := (code c =? 95)%N.

(** [\s] of a [str] pattern, which is also what [str.isspace] and the
    default [str.strip] use: TAB..CR, FS..US, SPACE, NEL and NBSP. *)
Definition is_space (c : ascii) : bool :=
  between 9 13 c || between 28 32 c
  || (code c =? 133)%N || (code c =? 160)%N.

(** [str.isdigit] of a single character: the decimal digits and the
    superscripts 2, 3 and 1. *)
Definition isdigit (c : ascii) : bool :=
  is_09 c || (code c =? 178)%N || (code c =? 179)%N || (code c =? 185)%N.

(** [str.lower] on one character: A-Z and the Latin-1 capitals
    (all of 192..222 but the multiplication sign 215) move up by 32. *)
Definition lower_char (c : ascii) : ascii :=
  if is_AZ c || (between 192 222 c && negb (code c =? 215)%N)
  then ascii_of_N (code c + 32) else c.

Fixpoint lower (s : string) : string :=
  match s with
  | EmptyString => EmptyString
  | String c s' => String (lower_char c) (lower s')
  end.

(** [str.upper].  The sharp s becomes "SS"; the upper-case forms of
    the micro sign and of y-diaeresis lie outside Latin-1, these two
    characters are left as they are (they are no ASCII letter either
    way, which is all the callers compare against). *)
Definition upper_char (c : ascii) : string :=
  if is_az c || (between 224 254 c && negb (code c =? 247)%N)
  then String (ascii_of_N (code c - 32)) EmptyString
  else if (code c =? 223)%N then "SS"
  else String c EmptyString.

Fixpoint upper (s : string) : string :=
  match s with
  | EmptyString => EmptyString
  | String c s' => upper_char c ++ upper s'
  end.

(** [re.sub(r'[^...]', '', s)]: every character outside the class is
    deleted; [keep] is the class. *)
Fixpoint re_sub_delete (keep : ascii -> bool) (s : string) : string :=
  match s with
  | EmptyString => EmptyString
  | String c s' =>
      if keep c then String c (re_sub_delete keep s')
      else re_sub_delete keep s'
  end.

(** [re.sub(r'[...]+', r, s)] for a one-character replacement [r]:
    every maximal run of characters of the class is replaced by [r].
    [in_run] tells that the previous character belonged to a run. *)
Fixpoint re_sub_runs (cls : ascii -> bool) (r : ascii) (in_run : bool)
         (s : string) : string :=
  match s with
  | EmptyString => EmptyString
  | String c s' =>
      if cls c then
        if in_run then re_sub_runs cls r true s'
        else String r (re_sub_runs cls r true s')
      else String c (re_sub_runs cls r false s')
  end.

(** [s.lstrip(ch)], [s.rstrip(ch)] and [s.strip(ch)] for a
    one-character argument. *)
Fixpoint lstrip (ch : ascii) (s : string) : string :=
  match s with
  | EmptyString => EmptyString
  | String c s' => if Ascii.eqb c ch then lstrip ch s' else s
  end.

Fixpoint rstrip (ch : ascii) (s : string) : string :=
  match s with
  | EmptyString => EmptyString
  | String c s' =>
      match rstrip ch s' with
      | EmptyString => if Ascii.eqb c ch then EmptyString
                       else String c EmptyString
      | r => String c r
      end
  end.

Definition strip (ch : ascii) (s : string) : string :=
  rstrip ch (lstrip ch s).

(** [s.replace(a, b)] for a one-character [a]. *)
Fixpoint replace_char (a : ascii) (b : string) (s : string) : string :=
  match s with
  | EmptyString => EmptyString
  | String c s' =>
      if Ascii.eqb c a then b ++ replace_char a b s'
      else String c (replace_char a b s')
  end.

(** [sep.join(parts)]. *)
Fixpoint join (sep : string) (parts : list string) : string :=
  match parts with
  | [] => EmptyString
  | [p] => p
  | p :: ps => p ++ sep ++ join sep ps
  end.

(** [x in s]: substring test. *)
Fixpoint contains (x s : string) : bool :=
  prefix x s
  || match s with
     | EmptyString => false
     | String _ s' => contains x s'
     end.

(** [str(n)] of an [int]. *)
Definition str_of_Z (n : Z) : string :=
  NilZero.string_of_int (Z.to_int n).

Fixpoint forall_chars (p : ascii -> bool) (s : string) : bool :=
  match s with
  | EmptyString => true
  | String c s' => p c && forall_chars p s'
  end.

End PyStr.

(* ------------------------------------------------------------------ *)
(** ** Python exceptions and results *)

(** The exception classes the modelled code can meet; all of them derive
    from [Exception].  [DbError] stands for [psycopg2.Error] and its
    subclasses. *)
Inductive exn : Type :=
| ValueError
| TypeError
| OverflowError
| IndexError
| DbError.

Inductive result (A : Type) : Type :=
| Ok (a : A)
| Raise (e : exn).

Arguments Ok {A} a.
Arguments Raise {A} e.

Definition rbind {A B : Type} (r : result A) (k : A -> result B) : result B :=
  match r with
  | Ok a => k a
  | Raise e => Raise e
  end.

(** [try: body / except: handler], the bare [except] that catches
    everything. *)
Definition try_except {A : Type} (body : result A) (handler : result A)
  : result A :=
  match body with
  | Ok a => Ok a
  | Raise _ => handler
  end.

(* ------------------------------------------------------------------ *)
(** ** Python floats (IEEE 754 binary64)

    [float(x)] and [str(float)] are what the escapers apply to numeric
    cells.  A float is modelled by its exact value; [round64] is
    round-to-nearest-even into binary64 and [repr] is CPython's shortest
    round-tripping [repr] (which is also [str]). *)

Module PyFloat.
Import PyStr.
Local Open Scope Z_scope.

(** [Ffin neg m e] is the number (-1)^neg * m * 2^e.  The binary64
    values are those with 0 <= m < 2^53 and -1074 <= e <= 971, and
    m >= 2^52 unless e = -1074. *)
Inductive pyfloat : Type :=
| Fnan
| Finf (neg : bool)
| Ffin (neg : bool) (m : Z) (e : Z).

Definition is_nan (x : pyfloat) : bool :=
  match x with Fnan => true | _ => false end.

Definition eqb (x y : pyfloat) : bool :=
  match x, y with
  | Fnan, Fnan => true
  | Finf a, Finf b => Bool.eqb a b
  | Ffin a m e, Ffin b m' e' => Bool.eqb a b && (m =? m') && (e =? e')
  | _, _ => false
  end.

(** The integer nearest to a/b, ties to even (a >= 0, b > 0). *)
Definition div_rne (a b : Z) : Z :=
  let q := a / b in
  let r := a mod b in
  match 2 * r ?= b with
  | Lt => q
  | Gt => q + 1
  | Eq => if Z.even q then q else q + 1
  end.

(** 2^d <= a/b, for a, b > 0. *)
Definition ge_pow2 (a b d : Z) : bool :=
  if 0 <=? d then b * 2 ^ d <=? a else b <=? a * 2 ^ (- d).

(** floor (log2 (a/b)), for a, b > 0. *)
Definition log2_ratio (a b : Z) : Z :=
  let d := Z.log2 a - Z.log2 b in
  if ge_pow2 a b d then d else d - 1.

(** The binary64 number nearest to (-1)^neg * a/b (a >= 0, b > 0);
    [Finf] on overflow. *)
Definition round64 (neg : bool) (a b : Z) : pyfloat :=
  if a =? 0 then Ffin neg 0 (-1074)
  else
    let e := Z.max (log2_ratio a b - 52) (-1074) in
    let m := if 0 <=? e then div_rne a (b * 2 ^ e)
             else div_rne (a * 2 ^ (- e)) b in
    let e' := if m =? 2 ^ 53 then e + 1 else e in
    let m' := if m =? 2 ^ 53 then 2 ^ 52 else m in
    if 971 <? e' then Finf neg else Ffin neg m' e'.

(** m * 10^x as a fraction. *)
Definition dec_num (m x : Z) : Z := if 0 <=? x then m * 10 ^ x else m.
Definition dec_den (x : Z) : Z := if 0 <=? x then 1 else 10 ^ (- x).

Definition round64_dec (neg : bool) (m x : Z) : pyfloat :=
  round64 neg (dec_num m x) (dec_den x).

(** *** [float(int)] : [OverflowError] when the integer rounds to an
    infinity. *)
Definition float_of_int (n : Z) : result pyfloat :=
  match round64 (n <? 0) (Z.abs n) 1 with
  | Finf _ => Raise OverflowError
  | x => Ok x
  end.

(** *** [float(str)] *)

(** The white space [float] strips from both ends. *)
Definition is_float_space (c : ascii) : bool :=
  between 9 13 c || (code c =? 32)%N || (code c =? 133)%N
  || (code c =? 160)%N.

Fixpoint lstrip_space (s : string) : string :=
  match s with
  | EmptyString => EmptyString
  | String c s' => if is_float_space c then lstrip_space s' else s
  end.

Fixpoint rstrip_space (s : string) : string :=
  match s with
  | EmptyString => EmptyString
  | String c s' =>
      match rstrip_space s' with
      | EmptyString => if is_float_space c then EmptyString
                       else String c EmptyString
      | r => String c r
      end
  end.

Definition digit_val (c : ascii) : Z := Z.of_N (code c) - 48.

(** The rest of a digit group [d(_?d)*] after its first digit: [acc]
    collects the digits read, [n] counts them; the unread suffix is
    returned. *)
Fixpoint group_tail (s : string) (acc n : Z) : Z * Z * string :=
  match s with
  | EmptyString => (acc, n, s)
  | String c s' =>
      if is_09 c then group_tail s' (10 * acc + digit_val c) (n + 1)
      else if is_us c then
        match s' with
        | String c2 s'' =>
            if is_09 c2
            then group_tail s'' (10 * acc + digit_val c2) (n + 1)
            else (acc, n, s)
        | EmptyString => (acc, n, s)
        end
      else (acc, n, s)
  end.

(** A digit group; when [s] does not start with a digit nothing is
    read. *)
Definition group (s : string) (acc : Z) : Z * Z * string :=
  match s with
  | String c s' =>
      if is_09 c then group_tail s' (10 * acc + digit_val c) 1
      else (acc, 0, s)
  | EmptyString => (acc, 0, s)
  end.

Definition is_e (c : ascii) : bool :=
  (code c =? 101)%N || (code c =? 69)%N.

(** The optional exponent part and the end of the text. *)
Definition parse_exponent (s : string) : option Z :=
  match s with
  | EmptyString => Some 0
  | String c s' =>
      if is_e c then
        let '(sg, s1) :=
          match s' with
          | String "+" t => (false, t)
          | String "-" t => (true, t)
          | _ => (false, s')
          end in
        match group s1 0 with
        | (x, n, EmptyString) =>
            if n =? 0 then None else Some (if sg then - x else x)
        | _ => None
        end
      else None
  end.

(** An unsigned decimal numeral: the digits read as one integer and
    the power of ten it is scaled by. *)
Definition parse_decimal (s : string) : option (Z * Z) :=
  let '(m1, n1, s1) := group s 0 in
  let '(m2, n2, s2) :=
    match s1 with
    | String "." t => group t m1
    | _ => (m1, 0, s1)
    end in
  if n1 + n2 =? 0 then None
  else
    match parse_exponent s2 with
    | Some x => Some (m2, x - n2)
    | None => None
    end.

Definition parse_unsigned (neg : bool) (s : string) : result pyfloat :=
  let l := lower s in
  if (l =? "inf")%string || (l =? "infinity")%string then Ok (Finf neg)
  else if (l =? "nan")%string then Ok Fnan
  else
    match parse_decimal s with
    | Some (m, x) => Ok (round64_dec neg m x)
    | None => Raise ValueError
    end.

Definition float_of_str (s : string) : result pyfloat :=
  match rstrip_space (lstrip_space s) with
  | String "+" t => parse_unsigned false t
  | String "-" t => parse_unsigned true t
  | t => parse_unsigned false t
  end.

(** *** [repr(float)] *)

(** value < 10^p for the value a/b. *)
Definition lt_pow10 (a b p : Z) : bool :=
  if 0 <=? p then a <? b * 10 ^ p else a * 10 ^ (- p) <? b.

(** The least p at or above [p] with a/b < 10^p. *)
Fixpoint decpt_from (fuel : nat) (a b p : Z) : Z :=
  match fuel with
  | O => p
  | S fuel' => if lt_pow10 a b p then p else decpt_from fuel' a b (p + 1)
  end.

Definition decpt (a b : Z) : Z := decpt_from 640 a b (-324).

(** Does the decimal d * 10^x read back as the float [Ffin false m e]? *)
Definition reads_back (m e d x : Z) : bool :=
  eqb (round64_dec false d x) (Ffin false m e).

(** The [n]-digit decimal for a/b = 0.ddd * 10^p that reads back as
    the float, if there is one: of the two [n]-digit neighbours of a/b
    the nearer one that reads back (the even one on a tie). *)
Definition candidate (m e a b p n : Z) : option Z :=
  let x := p - n in
  let num := if 0 <=? x then a else a * 10 ^ (- x) in
  let den := if 0 <=? x then b * 10 ^ x else b in
  let lo := num / den in
  let r := num mod den in
  let hi := lo + 1 in
  let lo_ok := reads_back m e lo x in
  let hi_ok := reads_back m e hi x in
  let lo_nearer :=
    match 2 * r ?= den with
    | Lt => true
    | Gt => false
    | Eq => Z.even lo
    end in
  if lo_ok && hi_ok then Some (if lo_nearer then lo else hi)
  else if lo_ok then Some lo
  else if hi_ok then Some hi
  else None.

(** The shortest digits: the first length 1, 2, ... with a candidate. *)
Fixpoint shortest_from (fuel : nat) (m e a b p n : Z) : Z * Z :=
  match fuel with
  | O => (m, n)
  | S fuel' =>
      match candidate m e a b p n with
      | Some d => (d, n)
      | None => shortest_from fuel' m e a b p (n + 1)
      end
  end.

(** Trailing zeros of a digit string are dropped. *)
Fixpoint strip_zeros (fuel : nat) (d : Z) : Z :=
  match fuel with
  | O => d
  | S fuel' => if (d mod 10 =? 0) && (0 <? d)
               then strip_zeros fuel' (d / 10) else d
  end.

(** The digits (as text) and the position of the decimal point of the
    shortest decimal that reads back as m * 2^e (m > 0): the value is
    0.digits * 10^point. *)
Definition shortest (m e : Z) : string * Z :=
  let a := if 0 <=? e then m * 2 ^ e else m in
  let b := if 0 <=? e then 1 else 2 ^ (- e) in
  let p := decpt a b in
  let '(d, n) := shortest_from 17 m e a b p 1 in
  let ds := str_of_Z d in
  (* d has n digits, or is 10^n when the upper neighbour was taken *)
  let point := p + (Z.of_nat (String.length ds) - n) in
  (str_of_Z (strip_zeros 20 d), point).

Fixpoint zeros (n : nat) : string :=
  match n with
  | O => EmptyString
  | S n' => String "0" (zeros n')
  end.

Definition two_digits (x : Z) : string :=
  if x <? 10 then String "0" (str_of_Z x) else str_of_Z x.

(** [format_float_short] in its [repr] mode. *)
Definition format_short (ds : string) (point : Z) : string :=
  let n := Z.of_nat (String.length ds) in
  if (point <=? -4) || (16 <? point) then
    let x := point - 1 in
    let mant :=
      match ds with
      | String c EmptyString => ds
      | String c rest => String c (String "." rest)
      | EmptyString => ds
      end in
    let sign := if x <? 0 then "-" else "+" in
    (mant ++ "e" ++ sign ++ two_digits (Z.abs x))%string
  else if point <=? 0 then
    let pad := zeros (Z.to_nat (- point)) in
    ("0." ++ pad ++ ds)%string
  else if point <? n then
    let k := Z.to_nat point in
    let l := Z.to_nat (n - point) in
    (substring 0 k ds ++ "." ++ substring k l ds)%string
  else
    let pad := zeros (Z.to_nat (point - n)) in
    (ds ++ pad ++ ".0")%string.

Definition repr (x : pyfloat) : string :=
  match x with
  | Fnan => "nan"
  | Finf neg => if neg then "-inf" else "inf"
  | Ffin neg m e =>
      let body :=
        if m <=? 0 then "0.0"
        else let '(ds, point) := shortest m e in format_short ds point in
      if neg then String "-" body else body
  end.

End PyFloat.

(* ------------------------------------------------------------------ *)
(** ** Python values

    The cell values that reach the escapers: what pandas hands out for
    the cells of a CSV or Excel sheet and what dbfread hands out for the
    fields of a DBF record. *)

Module PyVal.
Import PyStr PyFloat.

(** [datetime.datetime] (and [pd.Timestamp], its subclass), naive, and
    [datetime.date]. *)
Record datetime : Type := mk_datetime {
  year : Z; month : Z; day : Z;
  hour : Z; minute : Z; second : Z; microsecond : Z
}.

Record date : Type := mk_date {
  d_year : Z; d_month : Z; d_day : Z
}.

Inductive pyval : Type :=
| VNone                      (* None *)
| VNaT                       (* pd.NaT / pd.NA *)
| VBool (b : bool)           (* bool *)
| VNpBool (b : bool)         (* numpy.bool_ *)
| VInt (n : Z)               (* int, numpy.int64 *)
| VFloat (x : pyfloat)       (* float, numpy.float64 *)
| VStr (s : string)          (* str *)
| VDatetime (d : datetime)   (* datetime.datetime, pd.Timestamp *)
| VDate (d : date).          (* datetime.date *)

(** Decimal text of [n], zero-filled on the left up to [width]. *)
Definition zfill (width : nat) (n : Z) : string :=
  let t := str_of_Z n in
  zeros (width - String.length t) ++ t.

(** [d.strftime('%Y-%m-%d')] and [d.strftime('%Y-%m-%d %H:%M:%S')];
    the year is written with four digits. *)
Definition strftime_ymd (d : datetime) : string :=
  zfill 4 (year d) ++ "-" ++ zfill 2 (month d) ++ "-" ++ zfill 2 (day d).

Definition strftime_ymd_hms (d : datetime) : string :=
  strftime_ymd d ++ " " ++ zfill 2 (hour d) ++ ":" ++ zfill 2 (minute d)
  ++ ":" ++ zfill 2 (second d).

Definition str_datetime (d : datetime) : string :=
  strftime_ymd_hms d
  ++ (if (microsecond d =? 0)%Z then EmptyString
      else "." ++ zfill 6 (microsecond d)).

Definition str_date (d : date) : string :=
  zfill 4 (d_year d) ++ "-" ++ zfill 2 (d_month d) ++ "-"
  ++ zfill 2 (d_day d).

Definition str_bool (b : bool) : string := if b then "True" else "False".

(** [str(value)]. *)
Definition str (v : pyval) : string :=
  match v with
  | VNone => "None"
  | VNaT => "NaT"
  | VBool b => str_bool b
  | VNpBool b => str_bool b
  | VInt n => str_of_Z n
  | VFloat x => repr x
  | VStr s => s
  | VDatetime d => str_datetime d
  | VDate d => str_date d
  end.

(** [float(value)]: [ValueError] for text that is no number,
    [OverflowError] for an [int] beyond the floats, [TypeError] for
    the classes without a conversion. *)
Definition float (v : pyval) : result pyfloat :=
  match v with
  | VStr s => float_of_str s
  | VInt n => float_of_int n
  | VBool b | VNpBool b => Ok (round64 false (if b then 1 else 0) 1)
  | VFloat x => Ok x
  | VNone | VNaT | VDatetime _ | VDate _ => Raise TypeError
  end.

Definition is_None (v : pyval) : bool :=
  match v with VNone => true | _ => false end.

(** [pd.isna(value)] of a scalar. *)
Definition isna (v : pyval) : bool :=
  match v with
  | VNone | VNaT => true
  | VFloat x => is_nan x
  | _ => false
  end.

(** [isinstance(value, bool)]: a [numpy.bool_] is no [bool]. *)
Definition isinstance_bool (v : pyval) : option bool :=
  match v with VBool b => Some b | _ => None end.

(** [isinstance(value, (datetime, pd.Timestamp))]: a [datetime.date]
    is no [datetime]. *)
Definition isinstance_datetime (v : pyval) : option datetime :=
  match v with VDatetime d => Some d | _ => None end.

Definition isinstance_str (v : pyval) : option string :=
  match v with VStr s => Some s | _ => None end.

(** [pd.api.types.is_numeric_dtype(type(value))]: the classes whose
    NumPy scalar type is a number or [numpy.bool_]. *)
Definition is_numeric_dtype_type (v : pyval) : bool :=
  match v with
  | VBool _ | VNpBool _ | VInt _ | VFloat _ => true
  | _ => false
  end.

(** [x in (a, b, ...)] for strings. *)
Definition in_tuple (x : string) (t : list string) : bool :=
  existsb (String.eqb x) t.

End PyVal.

(* ------------------------------------------------------------------ *)
(** ** Value Escaper, pandas variant

    [escape_sql_value] of csv_to_psql_with_data.py; the functions of
    xlsx_to_psql_with_data.py and xlsx_to_psql_inserts_only.py have the
    same text. *)

Module Escaper.
Import PyStr PyFloat PyVal.

Definition affirmative : list string := ["true"; "1"; "yes"; "sim"].

Definition is_numeric_type (col_type : string) : bool :=
  contains "INTEGER" col_type || contains "BIGINT" col_type
  || (col_type =? "NUMERIC").

(** [f"'{text}'"]. *)
Definition quoted (text : string) : string := "'" ++ text ++ "'".

Definition escape_sql_value (value : pyval) (col_type : string)
  : result string :=
  if isna value || is_None value then Ok "NULL"
  else if col_type =? "BOOLEAN" then
    match isinstance_bool value with
    | Some b => Ok (if b then "TRUE" else "FALSE")
    | None =>
        if in_tuple (lower (str value)) affirmative then Ok "TRUE"
        else Ok "FALSE"
    end
  else if is_numeric_type col_type then
    if is_numeric_dtype_type value then Ok (str value)
    else try_except (rbind (float value) (fun x => Ok (repr x)))
                    (Ok "NULL")
  else if col_type =? "TIMESTAMP" then
    match isinstance_datetime value with
    | Some d => Ok (quoted (strftime_ymd_hms d))
    | None =>
        match isinstance_str value with
        | Some s => Ok (quoted s)
        | None => Ok "NULL"
        end
    end
  else
    let value_str := str value in
    let value_str := replace_char "'" "''" value_str in
    Ok (quoted value_str).

End Escaper.

(* ------------------------------------------------------------------ *)
(** ** Value Escaper, DBF variant

    [escape_sql_value] of dbc_to_psql_with_data.py (and, with the same
    statements, of dbc_to_psql_inserts_only.py); the second argument is
    the DBF field type code. *)

Module DbcEscaper.
Import PyStr PyFloat PyVal.

Definition affirmative : list string :=
  ["T"; "TRUE"; "1"; "Y"; "YES"; "S"; "SIM"].

Definition quoted (text : string) : string := "'" ++ text ++ "'".

Definition is_empty_str (v : pyval) : bool :=
  match v with VStr EmptyString => true | _ => false end.

Definition escape_sql_value (value : pyval) (field_type : string)
  : result string :=
  if is_None value then Ok "NULL"
  else
    let field_type := upper field_type in
    if field_type =? "L" then
      match isinstance_bool value with
      | Some b => Ok (if b then "TRUE" else "FALSE")
      | None =>
          if in_tuple (upper (str value)) affirmative then Ok "TRUE"
          else Ok "FALSE"
      end
    else if field_type =? "D" then
      match isinstance_datetime value with
      | Some d => Ok (quoted (strftime_ymd d))
      | None =>
          match isinstance_str value with
          | Some s => Ok (quoted s)
          | None => Ok "NULL"
          end
      end
    else if field_type =? "T" then
      match isinstance_datetime value with
      | Some d => Ok (quoted (strftime_ymd_hms d))
      | None =>
          match isinstance_str value with
          | Some s => Ok (quoted s)
          | None => Ok "NULL"
          end
      end
    else if in_tuple field_type ["N"; "F"] then
      if is_empty_str value || is_None value then Ok "NULL"
      else try_except (rbind (float value) (fun x => Ok (repr x)))
                      (Ok "NULL")
    else
      let value_str := str value in
      let value_str := replace_char "'" "''" value_str in
      Ok (quoted value_str).

End DbcEscaper.

(* ------------------------------------------------------------------ *)
(** ** pandas Series and DataFrame

    The columns [pd.read_csv] and [pd.read_excel] build, by their NumPy
    dtype.  An [int64] or [bool] column cannot hold a missing value; the
    missing value of a [float64] column is NaN, of a [datetime64] column
    NaT, and an [object] column holds Python objects, [None] and NaN
    among them. *)

Module Pandas.
Import PyStr PyFloat PyVal.

Inductive Series : Type :=
| Int64 (xs : list Z)
| Float64 (xs : list pyfloat)
| Bool (xs : list bool)
| Datetime64 (xs : list (option datetime))
| Object (xs : list pyval).

Definition is_some {A : Type} (o : option A) : bool :=
  match o with Some _ => true | None => false end.

(** [len(series)]. *)
Definition len (s : Series) : nat :=
  match s with
  | Int64 xs => length xs
  | Float64 xs => length xs
  | Bool xs => length xs
  | Datetime64 xs => length xs
  | Object xs => length xs
  end.

(** [series.dropna()]. *)
Definition dropna (s : Series) : Series :=
  match s with
  | Int64 xs => Int64 xs
  | Float64 xs => Float64 (filter (fun x => negb (is_nan x)) xs)
  | Bool xs => Bool xs
  | Datetime64 xs => Datetime64 (filter is_some xs)
  | Object xs => Object (filter (fun v => negb (isna v)) xs)
  end.

(** [series.isna().any()]. *)
Definition isna_any (s : Series) : bool :=
  match s with
  | Int64 _ => false
  | Float64 xs => existsb is_nan xs
  | Bool _ => false
  | Datetime64 xs => existsb (fun o => negb (is_some o)) xs
  | Object xs => existsb isna xs
  end.

(** The dtype predicates of [pd.api.types] on a Series. *)
Definition is_integer_dtype (s : Series) : bool :=
  match s with Int64 _ => true | _ => false end.
Definition is_float_dtype (s : Series) : bool :=
  match s with Float64 _ => true | _ => false end.
Definition is_bool_dtype (s : Series) : bool :=
  match s with Bool _ => true | _ => false end.
Definition is_datetime64_any_dtype (s : Series) : bool :=
  match s with Datetime64 _ => true | _ => false end.

(** [is_string_dtype] of an [object] column depends on the pandas
    release.  Up to pandas 1.5 every [object] column is a string
    column ([ByDtype]); since pandas 2.0 "if an array is passed with
    an object dtype, the elements must be inferred as strings"
    ([ByElements]): a column holding NaN, [None] or any other
    non-[str] object is then no string column.  (A column of the
    dedicated string dtype, which pandas 3 gives to text by default, is
    a string column whatever it holds, as under [ByDtype].)  The
    scripts do not pin a release, so the rule is a parameter. *)
Inductive string_rule : Type := ByDtype | ByElements.

Definition is_string_dtype (rule : string_rule) (s : Series) : bool :=
  match s with
  | Object xs =>
      match rule with
      | ByDtype => true
      | ByElements => forallb (fun v => is_some (isinstance_str v)) xs
      end
  | _ => false
  end.

(** [max] and [min] of a list of integers ([x] when it is empty). *)
Definition list_max (x : Z) (xs : list Z) : Z := fold_left Z.max xs x.
Definition list_min (x : Z) (xs : list Z) : Z := fold_left Z.min xs x.

(** [series.max()] and [series.min()] of an integer column.  On an
    empty column pandas answers NaN, which fails every comparison:
    the model answers a value that fails the range check too. *)
Definition series_max (s : Series) : Z :=
  match s with
  | Int64 (x :: r) => list_max x r
  | _ => 2147483648
  end.
Definition series_min (s : Series) : Z :=
  match s with
  | Int64 (x :: r) => list_min x r
  | _ => -2147483649
  end.

(** The elements as Python objects. *)
Definition to_objects (s : Series) : list pyval :=
  match s with
  | Int64 xs => map VInt xs
  | Float64 xs => map VFloat xs
  | Bool xs => map VBool xs
  | Datetime64 xs =>
      map (fun o => match o with Some d => VDatetime d | None => VNaT end)
          xs
  | Object xs => xs
  end.

(** [series.astype(str).str.len().max()]. *)
Definition str_len_max (s : Series) : Z :=
  list_max 0 (map (fun v => Z.of_nat (String.length (str v)))
                  (to_objects s)).

(** A DataFrame: the columns in order, each with its label; all
    columns have the length of the index. *)
Definition DataFrame : Type := list (string * Series).

(** [len(df)], the number of rows. *)
Definition df_len (df : DataFrame) : nat :=
  match df with
  | [] => 0
  | (_, s) :: _ => len s
  end.

(** [df.empty]: an axis of length 0. *)
Definition df_empty (df : DataFrame) : bool :=
  (length df =? 0)%nat || (df_len df =? 0)%nat.

(** The dtype of the rows [df.iterrows()] yields: the common dtype of
    the columns. *)
Inductive row_dtype : Type :=
| RowInt | RowFloat | RowBool | RowDatetime | RowObject.

Definition series_row_dtype (s : Series) : row_dtype :=
  match s with
  | Int64 _ => RowInt
  | Float64 _ => RowFloat
  | Bool _ => RowBool
  | Datetime64 _ => RowDatetime
  | Object _ => RowObject
  end.

Definition common_dtype (a b : row_dtype) : row_dtype :=
  match a, b with
  | RowInt, RowInt => RowInt
  | RowInt, RowFloat | RowFloat, RowInt | RowFloat, RowFloat => RowFloat
  | RowBool, RowBool => RowBool
  | RowDatetime, RowDatetime => RowDatetime
  | _, _ => RowObject
  end.

Definition df_row_dtype (df : DataFrame) : row_dtype :=
  match df with
  | [] => RowObject
  | (_, s) :: rest =>
      fold_left (fun acc c => common_dtype acc (series_row_dtype (snd c)))
                rest (series_row_dtype s)
  end.

(** [row[col]] for row number [i] of [df.iterrows()]: the cell, cast
    to the dtype of the row.  An integer of a row of floats is
    converted; a [bool] is a [numpy.bool_] in a row of booleans and a
    Python [bool] in a row of objects.  [None] past the end. *)
Definition cell (rd : row_dtype) (s : Series) (i : nat) : option pyval :=
  match s with
  | Int64 xs =>
      option_map
        (fun n => match rd with
                  | RowFloat => VFloat (round64 (n <? 0)%Z (Z.abs n) 1)
                  | _ => VInt n
                  end) (nth_error xs i)
  | Float64 xs => option_map VFloat (nth_error xs i)
  | Bool xs =>
      option_map
        (fun b => match rd with
                  | RowBool => VNpBool b
                  | _ => VBool b
                  end) (nth_error xs i)
  | Datetime64 xs =>
      option_map
        (fun o => match o with Some d => VDatetime d | None => VNaT end)
        (nth_error xs i)
  | Object xs => nth_error xs i
  end.

End Pandas.

(* ------------------------------------------------------------------ *)
(** ** Type Inferencer

    [infer_postgres_type] of csv_to_psql_with_data.py; the functions of
    the three xlsx_to_psql scripts have the same text. *)

Module Inferencer.
Import PyStr PyVal Pandas.

Section WithPandas.
Variable rule : string_rule.

Definition infer_postgres_type (series : Series) : string :=
  let non_null := dropna series in
  if (len non_null =? 0)%nat then "TEXT"
  else if is_integer_dtype series then
    let max_val := series_max non_null in
    let min_val := series_min non_null in
    if (-2147483648 <=? min_val)%Z && (max_val <=? 2147483647)%Z
    then "INTEGER"
    else "BIGINT"
  else if is_float_dtype series then "NUMERIC"
  else if is_bool_dtype series then "BOOLEAN"
  else if is_datetime64_any_dtype series then "TIMESTAMP"
  else if is_string_dtype rule series then
    let max_length := str_len_max non_null in
    if (max_length <=? 255)%Z
    then "VARCHAR(" ++ str_of_Z (Z.max 255 max_length) ++ ")"
    else "TEXT"
  else "TEXT".

(** The nullability [csv_to_sql] and [excel_to_sql] write next to
    the type: ["NULL" if df[col].isna().any() else "NOT NULL"]. *)
Definition nullable (series : Series) : string :=
  if isna_any series then "NULL" else "NOT NULL".

End WithPandas.

End Inferencer.

(* ------------------------------------------------------------------ *)
(** ** Name Sanitizer

    [sanitize_name] is the same text in every script that has it
    (csv_to_psql, xlsx_to_psql and dbc_to_psql). *)

Module Sanitizer.
Import PyStr.

(** The class [a-zA-Z0-9\s_] whose complement the first [re.sub]
    deletes, and the class [\s_] of the second one. *)
Definition keep_class (c : ascii) : bool :=
  is_az c || is_AZ c || is_09 c || is_space c || is_us c.

Definition sep_class (c : ascii) : bool := is_space c || is_us c.

Definition starts_with_digit (name : string) : bool :=
  match name with
  | EmptyString => false
  | String c _ => isdigit c
  end.

(** The first four statements of [sanitize_name]: the name after
    [name.strip('_')]. *)
Definition stripped (name : string) : string :=
  let name := re_sub_delete keep_class name in
  let name := re_sub_runs sep_class "_" false name in
  let name := lower name in
  strip "_" name.

Definition sanitize_name (name : string) : string :=
  let name := stripped name in
  let name := if starts_with_digit name then "t_" ++ name else name in
  match name with
  | EmptyString => "unnamed"
  | _ => name
  end.

End Sanitizer.

(* ------------------------------------------------------------------ *)
(** ** CSV to SQL

    [csv_to_sql] of csv_to_psql_with_data.py, from the DataFrame
    [pd.read_csv] returned on.  The file name ([csv_path.name]), its
    stem and the clock are inputs.  The result is the list [sql_lines]
    that is joined and written to the SQL file when the function
    returns [True], and [None] when it returns [False]. *)

Module CsvToSql.
Import PyStr PyVal Pandas Sanitizer.

Definition nl : string := String "010" EmptyString.
Definition a_acute : string := String "225" EmptyString.
Definition e_acute : string := String "233" EmptyString.
Definition c_cedilla : string := String "231" EmptyString.

(** One entry of [columns_info]. *)
Record col_info : Type := mk_col_info {
  ci_name : string;
  ci_type : string;
  ci_original : string
}.

Fixpoint mapM {A B : Type} (f : A -> result B) (l : list A)
  : result (list B) :=
  match l with
  | [] => Ok []
  | a :: r =>
      rbind (f a) (fun b => rbind (mapM f r) (fun bs => Ok (b :: bs)))
  end.

Definition to_option {A : Type} (r : result A) : option A :=
  match r with Ok a => Some a | Raise _ => None end.

Section WithPandas.
Variable rule : string_rule.

(** The body of the loop over [df.columns]: the entry of
    [columns_info] and the line of the CREATE TABLE statement. *)
Definition column_entry (df : DataFrame) (col : string * Series)
  : col_info * string :=
  let col_name := sanitize_name (fst col) in
  let col_type :=
    if df_empty df then "TEXT"
    else Inferencer.infer_postgres_type rule (snd col) in
  let nullable :=
    if df_empty df then "NULL" else Inferencer.nullable (snd col) in
  (mk_col_info col_name col_type (fst col),
   "    " ++ col_name ++ " " ++ col_type ++ " " ++ nullable).

Definition comment_line (table_name : string) (ci : col_info) : string :=
  let original_name := replace_char "'" "''" (ci_original ci) in
  "COMMENT ON COLUMN " ++ table_name ++ "." ++ ci_name ci ++ " IS '"
  ++ original_name ++ "';" ++ nl.

(** The INSERT statement of row [i]. *)
Definition insert_line (table_name : string) (df : DataFrame)
           (columns_info : list col_info) (i : nat) : result string :=
  let col_names := map ci_name columns_info in
  rbind
    (mapM (fun cc : (string * Series) * col_info =>
             match cell (df_row_dtype df) (snd (fst cc)) i with
             | Some v => Escaper.escape_sql_value v (ci_type (snd cc))
             | None => Raise IndexError
             end)
          (combine df columns_info))
    (fun values =>
       let col_names_str := join ", " col_names in
       let values_str := join ", " values in
       Ok ("INSERT INTO " ++ table_name ++ " (" ++ col_names_str
           ++ ") VALUES (" ++ values_str ++ ");" ++ nl)).

Definition csv_to_sql (csv_name csv_stem : string) (now : datetime)
           (df : DataFrame) (table_name_prefix : string)
  : option (list string) :=
  if (length df =? 0)%nat then None
  else
    let table_name := sanitize_name csv_stem in
    let table_name :=
      match table_name_prefix with
      | EmptyString => table_name
      | _ => sanitize_name table_name_prefix ++ "_" ++ table_name
      end in
    let empty_note :=
      if df_empty df
      then [ "-- Arquivo cont" ++ e_acute ++ "m apenas cabe" ++ c_cedilla
             ++ "alho (sem dados)" ++ nl ]
      else [] in
    let header :=
      app [ "-- Tabela gerada a partir de: " ++ csv_name ++ nl;
            "-- Gerado em: " ++ strftime_ymd_hms now ++ nl ]
          (app empty_note
               [ nl;
                 "CREATE TABLE IF NOT EXISTS " ++ table_name ++ " ("
                 ++ nl ]) in
    let entries := map (column_entry df) df in
    let columns_info := map fst entries in
    let column_lines := map snd entries in
    let comments :=
      app [ nl ++ ");" ++ nl ++ nl;
            "-- Coment" ++ a_acute ++ "rios sobre as colunas:" ++ nl ]
          (app (map (comment_line table_name) columns_info) [ nl ]) in
    let inserts :=
      if (0 <? df_len df)%nat then
        rbind (mapM (insert_line table_name df columns_info)
                    (seq 0 (df_len df)))
              (fun lines => Ok (("-- Dados da tabela:" ++ nl) :: lines))
      else Ok [] in
    to_option
      (rbind inserts
             (fun ins =>
                Ok (app header (app column_lines (app comments ins))))).

End WithPandas.

End CsvToSql.

(* ------------------------------------------------------------------ *)
(** ** Schema Extractor: the catalog fetchers

    [obter_colunas], [obter_constraints] and [obter_indices] of
    host-schema-psql_to_psql.py.  The database driver is a parameter:
    [world] is the state of the connection and of the server behind it,
    every driver call is a transition of it that may raise. *)

Module SchemaExtractor.
Import PyVal.

(** The catalog queries, by the text the script sends. *)
Inductive query : Type :=
| query_columns       (* information_schema.columns of the table *)
| query_pk            (* key columns of the PRIMARY KEY constraint *)
| query_fk            (* FOREIGN KEY constraints and referenced tables *)
| query_key_cols      (* query_local_cols, query_fk_cols: the columns of
                         a constraint in a table, by ordinal position *)
| query_unique        (* columns of the UNIQUE constraints *)
| query_indexes.      (* pg_indexes of the table, but the _pkey ones *)

(** A fetched row: a tuple of Python values. *)
Definition row : Type := list pyval.

(** One entry of [foreign_keys]: (constraint_name, local_cols,
    fk_schema, fk_table, fk_cols). *)
Definition fk_entry : Type :=
  (pyval * list pyval * pyval * pyval * list pyval)%type.

(** The dict [obter_constraints] returns. *)
Record constraints : Type := mk_constraints {
  primary_keys : list pyval;
  foreign_keys : list fk_entry;
  unique : list row
}.

Definition no_constraints : constraints := mk_constraints [] [] [].

Section WithDriver.
Variable world : Type.

(** [conn.closed], [conn.cursor()], [cur.execute(query, params)],
    [cur.fetchall()], [cur.closed] and [cur.close()].  Closing a
    client-side cursor only marks it closed: it does not raise. *)
Variable conn_closed : world -> bool.
Variable conn_cursor : world -> world * result unit.
Variable cur_execute : query -> list pyval -> world -> world * result unit.
Variable cur_fetchall : world -> world * result (list row).
Variable cur_closed : world -> bool.
Variable cur_close : world -> world.

(** Computations on the connection that may raise. *)
Definition M (A : Type) : Type := world -> world * result A.

Definition ret {A : Type} (a : A) : M A := fun w => (w, Ok a).

Definition raise {A : Type} (e : exn) : M A := fun w => (w, Raise e).

Definition bind {A B : Type} (m : M A) (k : A -> M B) : M B :=
  fun w =>
    match m w with
    | (w', Ok a) => k a w'
    | (w', Raise e) => (w', Raise e)
    end.

(** [try: body / except (psycopg2.Error, Exception): handler]; every
    class of [exn] derives from [Exception]. *)
Definition try_catch {A : Type} (body : M A) (handler : M A) : M A :=
  fun w =>
    match body w with
    | (w', Ok a) => (w', Ok a)
    | (w', Raise _) => handler w'
    end.

Local Notation "x <- m ;; k" := (bind m (fun x => k))
  (at level 61, m at next level, right associativity).
Local Notation "m ;;; k" := (bind m (fun _ => k))
  (at level 61, right associativity).

Definition close : M unit := fun w => (cur_close w, Ok tt).

Fixpoint for_each {A B : Type} (f : A -> M B) (l : list A) : M (list B) :=
  match l with
  | [] => ret []
  | a :: r => b <- f a ;; bs <- for_each f r ;; ret (b :: bs)
  end.

(** [row[0]]. *)
Definition first (r : row) : M pyval :=
  match r with
  | v :: _ => ret v
  | [] => raise IndexError
  end.

(** [[row[0] for row in cur.fetchall()]]. *)
Definition fetch_first_column : M (list pyval) :=
  rows <- cur_fetchall ;; for_each first rows.

(** The [try] block of [obter_colunas]. *)
Definition colunas_try (schema tabela : string) : M (list row) :=
  fun w =>
    if conn_closed w then ret [] w
    else
      (conn_cursor ;;;
       cur_execute query_columns [VStr schema; VStr tabela] ;;;
       colunas <- cur_fetchall ;;
       close ;;;
       ret colunas) w.

Definition obter_colunas (schema tabela : string) : M (list row) :=
  try_catch (colunas_try schema tabela) (ret []).

(** The body of the loop over [fk_constraints]; unpacking a row that
    is no triple raises [ValueError]. *)
Definition fk_of_row (schema tabela : string) (r : row) : M fk_entry :=
  match r with
  | [constraint_name; fk_schema; fk_table] =>
      cur_execute query_key_cols
                  [constraint_name; VStr schema; VStr tabela] ;;;
      local_cols <- fetch_first_column ;;
      cur_execute query_key_cols [constraint_name; fk_schema; fk_table] ;;;
      fk_cols <- fetch_first_column ;;
      ret (constraint_name, local_cols, fk_schema, fk_table, fk_cols)
  | _ => raise ValueError
  end.

(** The [try] block of [obter_constraints]. *)
Definition constraints_try (schema tabela : string) : M constraints :=
  fun w =>
    if conn_closed w then ret no_constraints w
    else
      (conn_cursor ;;;
       cur_execute query_pk [VStr schema; VStr tabela] ;;;
       pks <- fetch_first_column ;;
       cur_execute query_fk [VStr schema; VStr tabela] ;;;
       fk_constraints <- cur_fetchall ;;
       fks <- for_each (fk_of_row schema tabela) fk_constraints ;;
       cur_execute query_unique [VStr schema; VStr tabela] ;;;
       unique_constraints <- cur_fetchall ;;
       close ;;;
       ret (mk_constraints pks fks unique_constraints)) w.

Definition obter_constraints (schema tabela : string) : M constraints :=
  try_catch (constraints_try schema tabela) (ret no_constraints).

(** The statements of [obter_indices] that run once [cur] is bound. *)
Definition indices_query (schema tabela : string) : M (list row) :=
  cur_execute query_indexes [VStr schema; VStr tabela; VStr "%_pkey"] ;;;
  cur_fetchall.

(** The [finally] clause of [obter_indices], for a bound [cur]. *)
Definition indices_finally (w : world) : world :=
  if cur_closed w then w else cur_close w.

(** [obter_indices]: [try], [except] and [finally]; [cur] stays
    [None], and the [finally] clause idle, unless [conn.cursor()]
    returned. *)
Definition obter_indices (schema tabela : string) : M (list row) :=
  fun w =>
    if conn_closed w then (w, Ok [])
    else
      match conn_cursor w with
      | (w1, Raise _) => (w1, Ok [])
      | (w1, Ok _) =>
          let '(w2, r) := try_catch (indices_query schema tabela)
                                    (ret []) w1 in
          (indices_finally w2, r)
      end.

(** What the [try] block of [obter_indices] does, for the statement
    of its failures. *)
Definition indices_try (schema tabela : string) : M (list row) :=
  fun w =>
    if conn_closed w then ret [] w
    else (conn_cursor ;;; indices_query schema tabela) w.

End WithDriver.

End SchemaExtractor.

(* ------------------------------------------------------------------ *)
(** ** Vocabulary of the properties

    The predicates and the sample data the statements below are written
    with. *)

Module Spec.
Import PyStr PyFloat PyVal Pandas Inferencer Sanitizer CsvToSql.

(** *** Name Sanitizer *)

(** The characters of a sanitized name: [a-z0-9_]. *)
Definition ident_char (c : ascii) : bool := is_az c || is_09 c || is_us c.

(** The characters left by the first substitution but the white space:
    [A-Za-z0-9_]. *)
Definition word_char (c : ascii) : bool :=
  is_az c || is_AZ c || is_09 c || is_us c.

(** No underscore follows an underscore; [prev] tells that the
    character before the string is one. *)
Fixpoint no_double (prev : bool) (s : string) : bool :=
  match s with
  | EmptyString => true
  | String c s' =>
      if is_us c then negb prev && no_double true s'
      else no_double false s'
  end.

(** A name the four statements leave as it is. *)
Definition settled (s : string) : Prop :=
  forall_chars ident_char s = true /\ no_double false s = true
  /\ lstrip "_" s = s /\ rstrip "_" s = s.

(** *** Value Escaper *)

(** A null or missing value. *)
Definition missing (v : pyval) : bool := isna v || is_None v.

(** The three numeric target types. *)
Definition numeric_target (col_type : string) : Prop :=
  col_type = "INTEGER" \/ col_type = "BIGINT" \/ col_type = "NUMERIC".

(** The number a string of digits denotes, after the digits [acc]. *)
Fixpoint value_from (acc : Z) (s : string) : Z :=
  match s with
  | EmptyString => acc
  | String c s' => value_from (10 * acc + digit_val c)%Z s'
  end.

Definition digits_value (s : string) : Z := value_from 0 s.

(** A decimal numeral: digits, not empty, with no zero in front of
    another digit. *)
Definition decimal_numeral (s : string) : bool :=
  match s with
  | EmptyString => false
  | String c s' =>
      forall_chars is_09 s
      && (negb (Ascii.eqb c "0") || (s' =? EmptyString)%string)
  end.

(** The affirmative words the specification lists. *)
Definition listed_affirmative : list string :=
  ["true"; "1"; "yes"; "sim"; "t"; "y"; "s"].

(** The text after the opening quote of a quoted SQL literal: every
    single quote is doubled, but the last character, which is the
    closing quote. *)
Fixpoint closes (s : string) : bool :=
  match s with
  | EmptyString => false
  | String c s' =>
      if Ascii.eqb c "'" then
        match s' with
        | EmptyString => true
        | String c2 s'' => Ascii.eqb c2 "'" && closes s''
        end
      else closes s'
  end.

(** A well-formed quoted SQL literal. *)
Definition sql_literal_ok (s : string) : bool :=
  match s with
  | String c s' => Ascii.eqb c "'" && closes s'
  | EmptyString => false
  end.

(** *** Type Inferencer *)

(** A value of the signed 32-bit range. *)
Definition fits_int32 (n : Z) : bool :=
  (-2147483648 <=? n)%Z && (n <=? 2147483647)%Z.

(** A text of 300 letters a. *)
Definition text300 : string := string_of_list_ascii (repeat "a"%char 300).

(** *** CSV to SQL *)

(** The name column: the texts [a] and [b] and one null, which is the
    name of row [k] (of the last row when [k] is 2 or more). *)
Definition with_null (k : nat) (null : pyval) (a b : string) : list pyval :=
  match k with
  | 0 => [null; VStr a; VStr b]
  | 1 => [VStr a; null; VStr b]
  | _ => [VStr a; VStr b; null]
  end.

(** The table [id], [name]. *)
Definition table_of (ids : list Z) (names : list pyval) : DataFrame :=
  [("id", Int64 ids); ("name", Object names)].

(** The table name [csv_to_sql] derives from the file and the folder. *)
Definition table_name_of (csv_stem table_name_prefix : string) : string :=
  match table_name_prefix with
  | EmptyString => sanitize_name csv_stem
  | _ => sanitize_name table_name_prefix ++ "_" ++ sanitize_name csv_stem
  end.

(** A name as the INSERT statement shows it: NULL, or the text between
    single quotes with its single quotes doubled. *)
Definition name_literal (v : pyval) : string :=
  if missing v then "NULL"
  else "'" ++ replace_char "'" "''" (str v) ++ "'".

(** The INSERT statement of a row: the id and the name, joined by a
    comma and a space, between the parentheses of VALUES. *)
Definition insert_stmt (t : string) (i : Z) (v : pyval) : string :=
  "INSERT INTO " ++ t ++ " (id, name) VALUES ("
  ++ join ", " [str_of_Z i; name_literal v] ++ ");" ++ nl.

(** [line.startswith(p)]. *)
Fixpoint starts_with (p line : string) : bool :=
  match p with
  | EmptyString => true
  | String c p' =>
      match line with
      | EmptyString => false
      | String d line' => Ascii.eqb c d && starts_with p' line'
      end
  end.

Definition is_insert (line : string) : bool :=
  starts_with "INSERT INTO " line.

(** The type the name column gets. *)
Definition name_column_type (rule : string_rule) (a b : string) : string :=
  match rule with
  | ByElements => "TEXT"
  | ByDtype =>
      if (String.length a <=? 255)%nat && (String.length b <=? 255)%nat
      then "VARCHAR(255)" else "TEXT"
  end.

End Spec.

(* ================================================================== *)
(** * Further parts of the scripts

    The delimiter detection and the batch loop of the CSV script, the
    Excel and DBF emitters, the DBF type mapper, the SQL splitter and
    the type mapper, table list and CREATE TABLE generator of the schema
    extractor, with the vocabulary of their properties. *)

(* ------------------------------------------------------------------ *)
(** ** Delimiter detection

    [detectar_delimitador] of csv_to_psql_with_data.py; the functions of
    csv_to_psql_no_data_all_strings.py and csv_remove_quotes.py have the
    same statements.  The argument is what opening the file and
    [f.readline()] give: the first line, or the exception raised. *)

Module Delimiter.
Import PyStr.

(** [s.count(ch)] for a one-character [ch]. *)
Fixpoint count (ch : ascii) (s : string) : nat :=
  match s with
  | EmptyString => 0
  | String c s' => (if Ascii.eqb c ch then 1 else 0) + count ch s'
  end.

Definition tab : ascii := "009"%char.

(** The keys of the dict [delimitadores], in insertion order. *)
Definition delimitadores : list ascii := [";"; ","; tab; "|"]%char.

(** [max(keys, key=f)] over [best :: keys]: the first key of the
    greatest [f]. *)
Fixpoint max_key (f : ascii -> nat) (best : ascii) (keys : list ascii)
  : ascii :=
  match keys with
  | [] => best
  | k :: r => if (f best <? f k)%nat then max_key f k r
              else max_key f best r
  end.

Definition detectar_delimitador (primeira_linha : result string) : ascii :=
  match primeira_linha with
  | Ok linha =>
      let delimitador :=
        match delimitadores with
        | k :: r => max_key (fun d => count d linha) k r
        | [] => ","%char
        end in
      if (count delimitador linha =? 0)%nat then ","%char
      else delimitador
  | Raise _ => ","%char
  end.

End Delimiter.

(* ------------------------------------------------------------------ *)
(** ** The batch loop of the table emitters

    [for batch_start in range(0, total_rows, batch_size)] and
    [df.iloc[batch_start:batch_end].iterrows()] of [csv_to_sql],
    [excel_to_sql] and [processar_planilha_inserts]: the positions of the
    rows in the order the loop visits them. *)

Module Batches.

(** [range(start, stop, step)] for a positive [step]. *)
Fixpoint range_from (fuel start stop step : nat) : list nat :=
  match fuel with
  | O => []
  | S fuel' =>
      if (start <? stop)%nat
      then start :: range_from fuel' (start + step) stop step
      else []
  end.

Definition range (start stop step : nat) : list nat :=
  range_from stop start stop step.

(** The positions of [df.iloc[a:b]] in a frame of [total] rows. *)
Definition iloc (total a b : nat) : list nat :=
  seq a (Nat.min b total - a).

Definition batch_size : nat := 1000.

Definition batch_rows (size total_rows : nat) : list nat :=
  flat_map
    (fun batch_start =>
       let batch_end := Nat.min (batch_start + size) total_rows in
       iloc total_rows batch_start batch_end)
    (range 0 total_rows size).

End Batches.

(* ------------------------------------------------------------------ *)
(** ** Excel to SQL

    [excel_to_sql] of xlsx_to_psql_with_data.py, from the DataFrame
    [pd.read_excel] returned on.  The result is the list [sql_lines]
    that is joined and written to the SQL file, and [None] when nothing
    is written (an empty sheet, or an exception, which the function
    catches). *)

Module XlsxToSql.
Import PyStr PyVal Pandas Sanitizer CsvToSql.

Section WithPandas.
Variable rule : string_rule.

Definition column_entry (col : string * Series) : col_info * string :=
  let col_name := sanitize_name (fst col) in
  let col_type := Inferencer.infer_postgres_type rule (snd col) in
  let nullable := Inferencer.nullable (snd col) in
  (mk_col_info col_name col_type (fst col),
   "    " ++ col_name ++ " " ++ col_type ++ " " ++ nullable).

Definition excel_to_sql (excel_name excel_stem : string) (now : datetime)
           (df : DataFrame) : option (list string) :=
  if df_empty df then None
  else
    let table_name := sanitize_name excel_stem in
    let header :=
      [ "-- Tabela gerada a partir de: " ++ excel_name ++ nl;
        "-- Gerado em: " ++ strftime_ymd_hms now ++ nl ++ nl;
        "CREATE TABLE IF NOT EXISTS " ++ table_name ++ " (" ++ nl ] in
    let entries := map column_entry df in
    let columns_info := map fst entries in
    let column_lines := map snd entries in
    let comments :=
      app [ nl ++ ");" ++ nl ++ nl;
            "-- Coment" ++ a_acute ++ "rios sobre as colunas:" ++ nl ]
          (app (map (comment_line table_name) columns_info) [ nl ]) in
    let inserts :=
      if (0 <? df_len df)%nat then
        rbind (mapM (insert_line table_name df columns_info)
                    (Batches.batch_rows Batches.batch_size (df_len df)))
              (fun lines => Ok (("-- Dados da tabela:" ++ nl) :: lines))
      else Ok [] in
    to_option
      (rbind inserts
             (fun ins =>
                Ok (app header (app column_lines (app comments ins))))).

End WithPandas.

(** [processar_planilha_inserts] of xlsx_to_psql_inserts_only.py: the
    lines of a sheet and the number of its rows.  The function catches
    nothing. *)
Section Inserts.
Variable rule : string_rule.

Definition column_info (col : string * Series) : col_info :=
  let col_name := sanitize_name (fst col) in
  let col_type := Inferencer.infer_postgres_type rule (snd col) in
  mk_col_info col_name col_type (fst col).

Definition processar_planilha_inserts (df : DataFrame)
           (table_name sheet_name : string) : result (list string * nat) :=
  if df_empty df then
    Ok ([ "-- Planilha '" ++ sheet_name ++ "' est" ++ a_acute ++ " vazia"
          ++ nl ++ nl ], 0%nat)
  else
    let columns_info := map column_info df in
    let inserts :=
      if (0 <? df_len df)%nat then
        rbind (mapM (insert_line table_name df columns_info)
                    (Batches.batch_rows Batches.batch_size (df_len df)))
              (fun lines =>
                 Ok (("-- Dados da tabela " ++ table_name ++ " (Planilha: "
                      ++ sheet_name ++ "):" ++ nl) :: lines))
      else Ok [] in
    rbind inserts (fun ins => Ok (app ins [ nl ], df_len df)).

End Inserts.

End XlsxToSql.

(* ------------------------------------------------------------------ *)
(** ** DBF field types

    [dbc_type_to_postgres] of dbc_to_psql_with_data.py (the same text in
    dbc_to_psql_no_data.py). *)

Module DbcTypes.
Import PyStr.
Local Open Scope Z_scope.

Definition dbc_type_to_postgres (dbc_type : string) (length decimal : Z)
  : string :=
  let dbc_type := upper dbc_type in
  if (dbc_type =? "C")%string then
    if 0 <? length then
      if length <=? 255 then ("VARCHAR(" ++ str_of_Z length ++ ")")%string
      else "TEXT"%string
    else "TEXT"%string
  else if (dbc_type =? "N")%string then
    if 0 <? decimal then
      ("NUMERIC(" ++ str_of_Z length ++ "," ++ str_of_Z decimal ++ ")")%string
    else if 0 <? length then
      if length <=? 10 then "INTEGER"%string else "BIGINT"%string
    else "NUMERIC"%string
  else if (dbc_type =? "F")%string then "NUMERIC"%string
  else if (dbc_type =? "D")%string then "DATE"%string
  else if (dbc_type =? "T")%string then "TIMESTAMP"%string
  else if (dbc_type =? "L")%string then "BOOLEAN"%string
  else if (dbc_type =? "M")%string then "TEXT"%string
  else if (dbc_type =? "B")%string then "BYTEA"%string
  else "TEXT"%string.

End DbcTypes.

(* ------------------------------------------------------------------ *)
(** ** DBF to SQL

    [dbc_to_sql] of dbc_to_psql_with_data.py, from the table [DBF(...)]
    opened on: its field descriptors and its records.  The result is
    the list [sql_lines] written when the function returns [True], and
    [None] when it returns [False]. *)

Module DbcToSql.
Import PyStr PyVal Sanitizer CsvToSql DbcTypes.


(** A record: the values by field name, in field order. *)
Definition record : Type := list (string * pyval).

(** [record.get(key, None)]. *)
Fixpoint get (r : record) (key : string) : pyval :=
  match r with
  | [] => VNone
  | (k, v) :: r' => if (k =? key)%string then v else get r' key
  end.

(** One entry of [fields_info]. *)
Record field_info : Type := mk_field_info {
  fi_name : string;
  fi_type : string;
  fi_original : string
}.



Definition comment_line (table_name : string) (fi : field_info) : string :=
  let original_name := replace_char "'" "''" (fi_original fi) in
  "COMMENT ON COLUMN " ++ table_name ++ "." ++ fi_name fi ++ " IS '"
  ++ original_name ++ "';" ++ nl.

(** The INSERT statement of a record. *)
Definition insert_line (table_name : string)
           (fields_info : list field_info) (r : record) : result string :=
  let field_names := map fi_name fields_info in
  rbind
    (mapM (fun fi =>
             let value := get r (fi_original fi) in
             DbcEscaper.escape_sql_value value (fi_type fi))
          fields_info)
    (fun values =>
       let field_names_str := join ", " field_names in
       let values_str := join ", " values in
       Ok ("INSERT INTO " ++ table_name ++ " (" ++ field_names_str
           ++ ") VALUES (" ++ values_str ++ ");" ++ nl)).


End DbcToSql.

(* ------------------------------------------------------------------ *)
(** ** Reading SQL text

    What PostgreSQL reads from the literals the escapers write, for the
    statement of the properties: the text of a quoted literal and the
    tokens written without quotes. *)

Module SqlReader.
Import PyStr.

(** The text after the opening quote, read up to the closing quote,
    which has to be the last character; a doubled quote stands for one
    quote. *)
Fixpoint unquote_body (s : string) : option string :=
  match s with
  | EmptyString => None
  | String c s' =>
      if Ascii.eqb c "'" then
        match s' with
        | EmptyString => Some EmptyString
        | String c2 s'' =>
            if Ascii.eqb c2 "'"
            then option_map (String "'") (unquote_body s'')
            else None
        end
      else option_map (String c) (unquote_body s')
  end.

(** The text a quoted literal denotes; [None] when the literal is not
    well formed. *)
Definition unquote (lit : string) : option string :=
  match lit with
  | String c s => if Ascii.eqb c "'" then unquote_body s else None
  | EmptyString => None
  end.

(** A text without a single quote. *)
Definition no_quote (s : string) : bool :=
  forall_chars (fun c => negb (Ascii.eqb c "'")) s.

(** A literal that cannot open or close a string where it is not meant
    to: a token without quotes, or a well-formed quoted literal. *)
Definition safe_literal (lit : string) : bool :=
  no_quote lit || Spec.sql_literal_ok lit.

(** The position of the first [k] in [l] ([length l] when there is
    none). *)
Fixpoint position (k : ascii) (l : list ascii) : nat :=
  match l with
  | [] => 0
  | x :: r => if Ascii.eqb x k then 0 else S (position k r)
  end.

(** A text without a comma and without a line break. *)
Definition no_separator (s : string) : bool :=
  forall_chars (fun c => negb (Ascii.eqb c ",") && negb (Ascii.eqb c "010"))
               s.

(** What is written to the SQL file: the strings of [sql_lines] one
    after the other. *)
Definition written (sql_lines : list string) : string :=
  join EmptyString sql_lines.

(** A frame as pandas builds them: every column has the length of the
    index. *)
Definition well_formed (df : Pandas.DataFrame) : Prop :=
  Forall (fun col => Pandas.len (snd col) = Pandas.df_len df) df.

End SqlReader.

(* ------------------------------------------------------------------ *)
(** ** Columns with the same values

    Two columns of the same dtype that hold the same values in a
    different row order. *)

Module Reorder.
Import Pandas.

Inductive reordered : Series -> Series -> Prop :=
| reordered_int xs ys :
    Permutation xs ys -> reordered (Int64 xs) (Int64 ys)
| reordered_float xs ys :
    Permutation xs ys -> reordered (Float64 xs) (Float64 ys)
| reordered_bool xs ys :
    Permutation xs ys -> reordered (Bool xs) (Bool ys)
| reordered_datetime xs ys :
    Permutation xs ys -> reordered (Datetime64 xs) (Datetime64 ys)
| reordered_object xs ys :
    Permutation xs ys -> reordered (Object xs) (Object ys).

End Reorder.

(* ------------------------------------------------------------------ *)
(** ** SQL splitter

    [dividir_sql] of sql_splitter.py.  The file system is a parameter
    of the call: the lines of the source file ([None] when the file
    does not exist) are given, and the files the function creates are
    returned with what was written to each.  Reading and writing
    themselves are taken not to fail. *)

Module Splitter.
Import PyStr PyVal CsvToSql.
Local Open Scope Z_scope.

(** [f"{n:,}"]: the decimal text with a comma before every group of
    three digits. *)
Fixpoint commas (digits : string) : string :=
  match digits with
  | EmptyString => EmptyString
  | String c rest =>
      String c
        (if (0 <? String.length rest)%nat
            && (String.length rest mod 3 =? 0)%nat
         then String "," (commas rest)
         else commas rest)
  end.

Definition format_comma (n : Z) : string :=
  if n <? 0 then String "-" (commas (str_of_Z (- n)))
  else commas (str_of_Z n).

(** [f"{n:03d}"]: zero-filled to three characters, the sign among
    them. *)
Definition format_03d (n : Z) : string :=
  if n <? 0 then String "-" (zfill 2 (- n)) else zfill 3 n.

(** A file the function creates: its name in [pasta_destino] and the
    strings written to it, in order. *)
Record out_file : Type := mk_file {
  nome_arquivo : string;
  escrito : list string
}.

Definition write (f : out_file) (text : string) : out_file :=
  mk_file (nome_arquivo f) (escrito f ++ [text]).

(** The variables of the loop; [fechados] are the files closed so far,
    oldest first. *)
Record state : Type := mk_state {
  bloco_atual : Z;
  linhas_no_bloco : Z;
  arquivo_destino : option out_file;
  fechados : list out_file
}.

Definition close_open (st : state) : list out_file :=
  match arquivo_destino st with
  | Some f => fechados st ++ [f]
  | None => fechados st
  end.

Inductive loop_end : Type :=
| Terminou (st : state)      (* the loop ran to its end *)
| Falhou (st : state).       (* an exception left the loop *)

Section Loop.
Variables (nome_base nome_original : string).
Variables (linhas_por_bloco total_linhas num_blocos : Z).

(** The header written to a new block. *)
Definition cabecalho (bloco linha_num : Z) : list string :=
  [ "-- Parte " ++ str_of_Z bloco ++ " de " ++ str_of_Z num_blocos ++ nl;
    "-- Arquivo original: " ++ nome_original ++ nl;
    "-- Linhas " ++ format_comma linha_num ++ " a "
    ++ format_comma (Z.min (linha_num + linhas_por_bloco - 1) total_linhas)
    ++ nl;
    nl ]%string.

Definition nome_do_bloco (bloco : Z) : string :=
  (nome_base ++ "_parte_" ++ format_03d bloco ++ ".sql")%string.

(** [if linhas_no_bloco == 0:] a new block is opened. *)
Definition abrir (st : state) (linha_num : Z) : state :=
  if linhas_no_bloco st =? 0 then
    mk_state (bloco_atual st) (linhas_no_bloco st)
             (Some (fold_left write (cabecalho (bloco_atual st) linha_num)
                              (mk_file (nome_do_bloco (bloco_atual st)) [])))
             (close_open st)
  else st.

(** The body of the loop for one line: writing to [None] raises, which
    ends the loop. *)
Definition passo (st : state) (linha_num : Z) (linha : string)
  : option state :=
  let st := abrir st linha_num in
  match arquivo_destino st with
  | None => None
  | Some f =>
      let f := write f linha in
      let n := linhas_no_bloco st + 1 in
      if linhas_por_bloco <=? n
      then Some (mk_state (bloco_atual st + 1) 0 None (fechados st ++ [f]))
      else Some (mk_state (bloco_atual st) n (Some f) (fechados st))
  end.

(** [for linha_num, linha in enumerate(arquivo_origem, 1)], from line
    number [linha_num] on. *)
Fixpoint percorrer (st : state) (linha_num : Z) (linhas : list string)
  : loop_end :=
  match linhas with
  | [] => Terminou st
  | linha :: resto =>
      match passo st linha_num linha with
      | Some st' => percorrer st' (linha_num + 1) resto
      | None => Falhou (abrir st linha_num)
      end
  end.

(** The blocks written from the start of a block on: the block of
    number [b], whose first line has the number [s], and the blocks
    after it, for the lines [rest] still to be written.  [fuel] bounds
    the number of blocks. *)
Fixpoint blocos (fuel : nat) (b s : Z) (rest : list string)
  : list out_file :=
  match fuel with
  | O => []
  | S fuel' =>
      match rest with
      | [] => []
      | _ :: _ =>
          mk_file (nome_do_bloco b)
                  (cabecalho b s ++ firstn (Z.to_nat linhas_por_bloco) rest)
          :: blocos fuel' (b + 1) (s + linhas_por_bloco)
                    (skipn (Z.to_nat linhas_por_bloco) rest)
      end
  end.

End Loop.

(** What a call gives: the number returned and the files created, or
    the [ZeroDivisionError] of the block count, which is computed
    before the [try]. *)
Inductive outcome : Type :=
| Devolve (n : Z) (arquivos : list out_file)
| ZeroDivisionError.

Definition dividir_sql (nome_original nome_base : string)
           (arquivo : option (list string)) (linhas_por_bloco : Z)
  : outcome :=
  match arquivo with
  | None => Devolve 0 []
  | Some linhas =>
      let total_linhas := Z.of_nat (length linhas) in
      if linhas_por_bloco =? 0 then ZeroDivisionError
      else
        let num_blocos :=
          (total_linhas + linhas_por_bloco - 1) / linhas_por_bloco in
        match percorrer nome_base nome_original linhas_por_bloco
                        total_linhas num_blocos
                        (mk_state 1 0 None []) 1 linhas with
        | Terminou st => Devolve (bloco_atual st) (close_open st)
        | Falhou st => Devolve 0 (close_open st)
        end
  end.

(** The lines of the source a block holds: what was written after the
    four strings of the header. *)
Definition corpo (f : out_file) : list string := skipn 4 (escrito f).

(** Block number [j] (from 0) of a split into blocks of [size] lines:
    its name, its header and its share of the lines. *)
Definition bloco (nome_original nome_base : string) (linhas : list string)
           (size : Z) (j : nat) : out_file :=
  let total := Z.of_nat (length linhas) in
  mk_file (nome_do_bloco nome_base (Z.of_nat j + 1))
          (cabecalho nome_original size total ((total + size - 1) / size)
                     (Z.of_nat j + 1) (Z.of_nat j * size + 1)
           ++ firstn (Z.to_nat size) (skipn (j * Z.to_nat size) linhas)).

End Splitter.

(* ------------------------------------------------------------------ *)
(** ** Schema Extractor: the type names

    [mapear_tipo_postgres] of host-schema-psql_to_psql.py.  [data_type]
    is the text its first statement calls [upper] on; the three other
    arguments are the values of the catalog row, which the function
    tests for truth and formats. *)

Module TypeMapper.
Import PyStr PyFloat PyVal.

(** [bool(value)], the test of [if value:].  (A fetched row holds no
    pandas object; NaT, a datetime, is true.) *)
Definition truthy (v : pyval) : bool :=
  match v with
  | VNone => false
  | VNaT => true
  | VBool b | VNpBool b => b
  | VInt n => negb (n =? 0)%Z
  | VFloat (Ffin _ m _) => negb (m <=? 0)%Z
  | VFloat _ => true
  | VStr s => negb (s =? EmptyString)
  | VDatetime _ | VDate _ => true
  end.

Definition mapear_tipo_postgres (data_type : string)
           (max_length precision scale : pyval) : string :=
  let tipo := upper data_type in
  if in_tuple tipo ["CHARACTER VARYING"; "VARCHAR"] then
    if truthy max_length then "VARCHAR(" ++ str max_length ++ ")"
    else "VARCHAR"
  else if tipo =? "CHARACTER" then
    if truthy max_length then "CHAR(" ++ str max_length ++ ")"
    else "CHAR"
  else if tipo =? "NUMERIC" then
    if truthy precision && truthy scale
    then "NUMERIC(" ++ str precision ++ "," ++ str scale ++ ")"
    else if truthy precision then "NUMERIC(" ++ str precision ++ ")"
    else "NUMERIC"
  else if tipo =? "DOUBLE PRECISION" then "DOUBLE PRECISION"
  else if tipo =? "REAL" then "REAL"
  else if tipo =? "INTEGER" then "INTEGER"
  else if tipo =? "BIGINT" then "BIGINT"
  else if tipo =? "SMALLINT" then "SMALLINT"
  else if tipo =? "BOOLEAN" then "BOOLEAN"
  else if in_tuple tipo ["TIMESTAMP WITHOUT TIME ZONE"; "TIMESTAMP"]
  then "TIMESTAMP"
  else if tipo =? "TIMESTAMP WITH TIME ZONE" then "TIMESTAMPTZ"
  else if tipo =? "DATE" then "DATE"
  else if tipo =? "TIME" then "TIME"
  else if in_tuple tipo ["TEXT"; "CHARACTER LARGE OBJECT"] then "TEXT"
  else if tipo =? "BYTEA" then "BYTEA"
  else if tipo =? "UUID" then "UUID"
  else if tipo =? "JSON" then "JSON"
  else if tipo =? "JSONB" then "JSONB"
  else tipo.

(** [text.split('::')[0]]: the text before the first [::]. *)
Fixpoint before_cast (text : string) : string :=
  match text with
  | EmptyString => EmptyString
  | String c rest =>
      if prefix "::" text then EmptyString
      else String c (before_cast rest)
  end.

(** [text.strip()]: white space is removed from both ends. *)
Fixpoint lstrip_ws (s : string) : string :=
  match s with
  | EmptyString => EmptyString
  | String c s' => if is_space c then lstrip_ws s' else s
  end.

Fixpoint rstrip_ws (s : string) : string :=
  match s with
  | EmptyString => EmptyString
  | String c s' =>
      match rstrip_ws s' with
      | EmptyString => if is_space c then EmptyString
                       else String c EmptyString
      | r => String c r
      end
  end.

Definition strip_ws (s : string) : string := rstrip_ws (lstrip_ws s).

(** [str(default).split('::')[0].strip()] of [gerar_create_table]. *)
Definition default_clean (default : pyval) : string :=
  strip_ws (before_cast (str default)).

End TypeMapper.

(* ------------------------------------------------------------------ *)
(** ** Schema Extractor: the table list and the CREATE TABLE text

    [obter_tabelas] and [gerar_create_table] of
    host-schema-psql_to_psql.py, over the driver of the catalog
    fetchers. *)

Module SchemaWriter.
Import PyStr PyFloat PyVal CsvToSql SchemaExtractor TypeMapper.

(** What raises in [gerar_create_table]: the exceptions of [exn] and
    the [AttributeError] of [data_type.upper()] on a value that is no
    string. *)
Inductive failure : Type :=
| Builtin (e : exn)
| AttributeError.

Inductive outcome (A : Type) : Type :=
| Returns (a : A)
| Raises (f : failure).

Arguments Returns {A} a.
Arguments Raises {A} f.

Definition obind {A B : Type} (o : outcome A) (k : A -> outcome B)
  : outcome B :=
  match o with
  | Returns a => k a
  | Raises f => Raises f
  end.

Fixpoint omap {A B : Type} (f : A -> outcome B) (l : list A)
  : outcome (list B) :=
  match l with
  | [] => Returns []
  | a :: r =>
      obind (f a) (fun b => obind (omap f r) (fun bs => Returns (b :: bs)))
  end.

(** [sep.join(items)]: [TypeError] unless every item is a string. *)
Definition join_str (sep : string) (items : list pyval) : outcome string :=
  obind (omap (fun v => match v with
                        | VStr s => Returns s
                        | _ => Raises (Builtin TypeError)
                        end) items)
        (fun texts => Returns (join sep texts)).

(** The body of the loop over [colunas]: the line of one column. *)
Definition col_def (col : row) : outcome string :=
  match col with
  | [col_name; data_type; max_length; precision; scale; is_nullable;
     default] =>
      match data_type with
      | VStr data_type =>
          let tipo_sql :=
            mapear_tipo_postgres data_type max_length precision scale in
          let nullable :=
            match is_nullable with
            | VStr "NO" => "NOT NULL"
            | _ => "NULL"
            end in
          let col_def :=
            "    " ++ str col_name ++ " " ++ tipo_sql ++ " " ++ nullable in
          Returns (if truthy default
                   then col_def ++ " DEFAULT " ++ default_clean default
                   else col_def)
      | _ => Raises AttributeError
      end
  | _ => Raises (Builtin ValueError)
  end.

(** A row of the column query as the catalog gives it: seven values,
    the second of which, the type name, is a string. *)
Definition catalog_row (r : row) : bool :=
  match r with
  | [_; VStr _; _; _; _; _; _] => true
  | _ => false
  end.

Section Statements.
Variables (schema tabela : string).

(** The ALTER TABLE statement of a foreign key. *)
Definition fk_line (fk : fk_entry) : outcome string :=
  let '(constraint_name, column_names, fk_schema, fk_table,
        fk_column_names) := fk in
  obind (join_str ", " column_names) (fun cols_str =>
  obind (join_str ", " fk_column_names) (fun fk_cols_str =>
  Returns ("ALTER TABLE " ++ schema ++ "." ++ tabela ++ " "
           ++ "ADD CONSTRAINT " ++ str constraint_name ++ " "
           ++ "FOREIGN KEY (" ++ cols_str ++ ") "
           ++ "REFERENCES " ++ str fk_schema ++ "." ++ str fk_table
           ++ " (" ++ fk_cols_str ++ ");" ++ nl))).

(** The dict [unique_groups]: the constraint names in the order of
    their first row, each with its columns.  [key_eq] is the equality
    of dictionary keys. *)
Variable key_eq : pyval -> pyval -> bool.

Fixpoint add_to_group (groups : list (pyval * list pyval))
         (constraint_name column_name : pyval)
  : list (pyval * list pyval) :=
  match groups with
  | [] => [(constraint_name, [column_name])]
  | (k, columns) :: r =>
      if key_eq k constraint_name
      then (k, app columns [column_name]) :: r
      else (k, columns) :: add_to_group r constraint_name column_name
  end.

Fixpoint group_rows (groups : list (pyval * list pyval)) (rows : list row)
  : outcome (list (pyval * list pyval)) :=
  match rows with
  | [] => Returns groups
  | [constraint_name; column_name] :: r =>
      group_rows (add_to_group groups constraint_name column_name) r
  | _ :: _ => Raises (Builtin ValueError)
  end.

Definition unique_line (group : pyval * list pyval) : outcome string :=
  obind (join_str ", " (snd group)) (fun cols_str =>
  Returns ("ALTER TABLE " ++ schema ++ "." ++ tabela ++ " "
           ++ "ADD CONSTRAINT " ++ str (fst group) ++ " "
           ++ "UNIQUE (" ++ cols_str ++ ");" ++ nl)).

Definition index_line (r : row) : outcome string :=
  match r with
  | [index_name; index_def] => Returns (str index_def ++ ";" ++ nl)
  | _ => Raises (Builtin ValueError)
  end.

(** The lines from the header to the UNIQUE statements. *)
Definition table_lines (now : datetime) (colunas : list row)
           (cs : constraints) : outcome (list string) :=
  let header :=
    [ "-- Tabela: " ++ schema ++ "." ++ tabela ++ nl;
      "-- Gerado em: " ++ strftime_ymd_hms now ++ nl ++ nl;
      "CREATE TABLE IF NOT EXISTS " ++ schema ++ "." ++ tabela ++ " ("
      ++ nl ] in
  obind (omap col_def colunas) (fun colunas_sql =>
  obind (match primary_keys cs with
         | [] => Returns []
         | pks =>
             obind (join_str ", " pks) (fun pk_cols =>
             Returns [ "," ++ nl ++ "    PRIMARY KEY (" ++ pk_cols ++ ")" ])
         end) (fun pk =>
  obind (match foreign_keys cs with
         | [] => Returns []
         | fks =>
             obind (omap fk_line fks) (fun lines =>
             Returns (app (("-- Foreign Keys:" ++ nl) :: lines) [ nl ]))
         end) (fun fk =>
  obind (match unique cs with
         | [] => Returns []
         | rows =>
             obind (group_rows [] rows) (fun unique_groups =>
             obind (omap unique_line unique_groups) (fun lines =>
             Returns (app (("-- Unique Constraints:" ++ nl) :: lines)
                          [ nl ])))
         end) (fun uq =>
  Returns (app header
               (app [ join ("," ++ nl) colunas_sql ]
                    (app pk (app [ nl ++ ");" ++ nl ++ nl ]
                                 (app fk uq))))))))).

(** The lines of the index section. *)
Definition index_lines (indices : list row) : outcome (list string) :=
  match indices with
  | [] => Returns []
  | rows =>
      obind (omap index_line rows) (fun lines =>
      Returns (app (("-- " ++ String "205" "ndices:" ++ nl) :: lines)
                   [ nl ]))
  end.

End Statements.

Section WithDriver.
Variable world : Type.
Variable conn_closed : world -> bool.
Variable conn_cursor : world -> world * result unit.
Variable cur_execute : query -> list pyval -> world -> world * result unit.
Variable cur_fetchall : world -> world * result (list row).
Variable cur_closed : world -> bool.
Variable cur_close : world -> world.

(** [cur.execute] of the query of [obter_tabelas], the base tables of
    a schema by name. *)
Variable cur_execute_tables : list pyval -> world -> world * result unit.

(** Equality of dictionary keys. *)
Variable key_eq : pyval -> pyval -> bool.

(** [try: body / except psycopg2.Error: handler]: only the errors of
    the driver are caught. *)
Definition try_catch_db {A : Type} (body handler : M world A) : M world A :=
  fun w =>
    match body w with
    | (w', Raise DbError) => handler w'
    | r => r
    end.

(** The [try] block of [obter_tabelas]. *)
Definition tabelas_try (schema : string) : M world (list pyval) :=
  bind world conn_cursor (fun _ =>
  bind world (cur_execute_tables [VStr schema]) (fun _ =>
  bind world (fetch_first_column world cur_fetchall) (fun tabelas =>
  bind world (close world cur_close) (fun _ =>
  ret world tabelas)))).

Definition obter_tabelas (schema : string) : M world (list pyval) :=
  try_catch_db (tabelas_try schema) (ret world []).

(** [gerar_create_table]: the text, [None] when the table has no
    column to show, or the exception that leaves the function. *)
Definition gerar_create_table (now : datetime) (schema tabela : string)
  : world -> world * outcome (option string) :=
  fun w =>
    match obter_colunas world conn_closed conn_cursor cur_execute
                        cur_fetchall cur_close schema tabela w with
    | (w1, Raise e) => (w1, Raises (Builtin e))
    | (w1, Ok []) => (w1, Returns None)
    | (w1, Ok colunas) =>
        match obter_constraints world conn_closed conn_cursor cur_execute
                                cur_fetchall cur_close schema tabela w1 with
        | (w2, Raise e) => (w2, Raises (Builtin e))
        | (w2, Ok cs) =>
            match table_lines schema tabela key_eq now colunas cs with
            | Raises f => (w2, Raises f)
            | Returns lines =>
                match obter_indices world conn_closed conn_cursor
                                    cur_execute cur_fetchall cur_closed
                                    cur_close schema tabela w2 with
                | (w3, Raise e) => (w3, Raises (Builtin e))
                | (w3, Ok indices) =>
                    match index_lines indices with
                    | Raises f => (w3, Raises f)
                    | Returns more =>
                        (w3, Returns (Some (join EmptyString
                                                 (app lines more))))
                    end
                end
            end
        end
    end.

End WithDriver.

End SchemaWriter.

(* ================================================================== *)
(** * Properties *)

(* ------------------------------------------------------------------ *)
(** ** Name Sanitizer *)

Module SanitizerFacts.
Import PyStr Sanitizer Spec.

Ltac by_char c :=
  destruct c as [[] [] [] [] [] [] [] []]; vm_compute; intuition congruence.

Lemma ident_keep c : ident_char c = true -> keep_class c = true.
Proof. by_char c. Qed.

Lemma ident_sep c : ident_char c = true -> sep_class c = is_us c.
Proof. by_char c. Qed.

Lemma ident_lower c : ident_char c = true -> lower_char c = c.
Proof. by_char c. Qed.

Lemma keep_word c :
  keep_class c = true -> sep_class c = false -> word_char c = true.
Proof. by_char c. Qed.

Lemma sep_us c : sep_class c = false -> is_us c = false.
Proof. by_char c. Qed.

Lemma word_lower c : word_char c = true -> ident_char (lower_char c) = true.
Proof. by_char c. Qed.

Lemma us_lower c : is_us (lower_char c) = is_us c.
Proof. by_char c. Qed.

Lemma us_eqb c : Ascii.eqb c "_" = is_us c.
Proof. by_char c. Qed.

Lemma digit_not_us c : isdigit c = true -> is_us c = false.
Proof. by_char c. Qed.

Lemma ident_digit c : ident_char c = true -> isdigit c = is_09 c.
Proof. by_char c. Qed.

(** *** What each statement of [sanitize_name] establishes *)

Lemma delete_keeps s : forall_chars keep_class (re_sub_delete keep_class s) = true.
Proof.
  induction s as [|c s IH]; simpl; [reflexivity|].
  destruct (keep_class c) eqn:K; simpl; [rewrite K|]; auto.
Qed.

Lemma runs_word b s :
  forall_chars keep_class s = true ->
  forall_chars word_char (re_sub_runs sep_class "_" b s) = true.
Proof.
  revert b; induction s as [|c s IH]; intros b H; simpl in *; [reflexivity|].
  apply andb_true_iff in H as [K H].
  destruct (sep_class c) eqn:S.
  - destruct b; [auto|].
    change (word_char "_" && forall_chars word_char
              (re_sub_runs sep_class "_" true s) = true).
    replace (word_char "_") with true by reflexivity. simpl; auto.
  - simpl. rewrite (keep_word c K S). simpl. auto.
Qed.

Lemma runs_no_double b s :
  no_double b (re_sub_runs sep_class "_" b s) = true.
Proof.
  revert b; induction s as [|c s IH]; intros b; simpl; [reflexivity|].
  destruct (sep_class c) eqn:S.
  - destruct b; simpl; auto.
  - simpl. rewrite (sep_us c S). auto.
Qed.

Lemma lower_ident s :
  forall_chars word_char s = true -> forall_chars ident_char (lower s) = true.
Proof.
  induction s as [|c s IH]; simpl; [reflexivity|].
  intros H; apply andb_true_iff in H as [W H].
  rewrite (word_lower c W); simpl; auto.
Qed.

Lemma lower_no_double b s : no_double b (lower s) = no_double b s.
Proof.
  revert b; induction s as [|c s IH]; intros b; simpl; [reflexivity|].
  rewrite us_lower. destruct (is_us c); rewrite IH; reflexivity.
Qed.

Lemma no_double_weaken b s : no_double b s = true -> no_double false s = true.
Proof.
  destruct s as [|c s]; simpl; [reflexivity|].
  destruct (is_us c); [|auto]. destruct b; simpl; auto; discriminate.
Qed.

Lemma lstrip_ident s :
  forall_chars ident_char s = true ->
  forall_chars ident_char (lstrip "_" s) = true.
Proof.
  induction s as [|c s IH]; simpl; [reflexivity|].
  intros H. destruct (Ascii.eqb c "_"); [|exact H].
  apply andb_true_iff in H as [_ H]; auto.
Qed.

Lemma rstrip_ident s :
  forall_chars ident_char s = true ->
  forall_chars ident_char (rstrip "_" s) = true.
Proof.
  induction s as [|c s IH]; simpl; [reflexivity|].
  intros H; apply andb_true_iff in H as [I H]. specialize (IH H).
  destruct (rstrip "_" s) as [|d r].
  - destruct (Ascii.eqb c "_"); simpl; [reflexivity|]. rewrite I; reflexivity.
  - simpl in *. rewrite I. exact IH.
Qed.

Lemma lstrip_no_double b s :
  no_double b s = true -> no_double false (lstrip "_" s) = true.
Proof.
  revert b; induction s as [|c s IH]; intros b; simpl; [reflexivity|].
  rewrite us_eqb. destruct (is_us c) eqn:U.
  - intros H; apply andb_true_iff in H as [_ H]. eauto.
  - simpl. rewrite U. auto.
Qed.

Lemma rstrip_no_double b s :
  no_double b s = true -> no_double b (rstrip "_" s) = true.
Proof.
  revert b; induction s as [|c s IH]; intros b; simpl; [reflexivity|].
  rewrite us_eqb. destruct (is_us c) eqn:U; intros H.
  - apply andb_true_iff in H as [B H]. specialize (IH _ H).
    destruct (rstrip "_" s) as [|d r]; [reflexivity|].
    simpl. rewrite U, B. exact IH.
  - specialize (IH _ H).
    destruct (rstrip "_" s) as [|d r]; simpl; rewrite U; [reflexivity|exact IH].
Qed.

(** *** Fixed points of the four statements *)

Lemma delete_fixed s :
  forall_chars ident_char s = true -> re_sub_delete keep_class s = s.
Proof.
  induction s as [|c s IH]; simpl; [reflexivity|].
  intros H; apply andb_true_iff in H as [I H].
  rewrite (ident_keep c I), IH; auto.
Qed.

Lemma runs_fixed b s :
  forall_chars ident_char s = true -> no_double b s = true ->
  re_sub_runs sep_class "_" b s = s.
Proof.
  revert b; induction s as [|c s IH]; intros b H D; simpl in *; [reflexivity|].
  apply andb_true_iff in H as [I H].
  rewrite (ident_sep c I).
  destruct (is_us c) eqn:U.
  - apply andb_true_iff in D as [B D]. destruct b; [discriminate|].
    rewrite IH by assumption.
    f_equal. revert U. clear. by_char c.
  - rewrite IH; auto.
Qed.

Lemma lower_fixed s : forall_chars ident_char s = true -> lower s = s.
Proof.
  induction s as [|c s IH]; simpl; [reflexivity|].
  intros H; apply andb_true_iff in H as [I H].
  rewrite (ident_lower c I), IH; auto.
Qed.

Lemma lstrip_fixed s : lstrip "_" (lstrip "_" s) = lstrip "_" s.
Proof.
  induction s as [|c s IH]; simpl; [reflexivity|].
  destruct (Ascii.eqb c "_") eqn:E; [exact IH|]. simpl. rewrite E. reflexivity.
Qed.

Lemma rstrip_fixed s : rstrip "_" (rstrip "_" s) = rstrip "_" s.
Proof.
  induction s as [|c s IH]; simpl; [reflexivity|].
  destruct (rstrip "_" s) as [|d r] eqn:R.
  - destruct (Ascii.eqb c "_") eqn:E; simpl; [reflexivity|]. rewrite E. reflexivity.
  - simpl in *. rewrite IH. reflexivity.
Qed.

Lemma lstrip_rstrip s :
  lstrip "_" s = s -> lstrip "_" (rstrip "_" s) = rstrip "_" s.
Proof.
  destruct s as [|c s]; simpl; [reflexivity|].
  destruct (Ascii.eqb c "_") eqn:E.
  - intros H. exfalso.
    assert (L : forall t, String.length (lstrip "_" t) <= String.length t).
    { induction t as [|d t IHt]; simpl; [lia|].
      destruct (Ascii.eqb d "_"); simpl; lia. }
    specialize (L s). rewrite H in L. simpl in L. lia.
  - intros _. destruct (rstrip "_" s); simpl; rewrite E; reflexivity.
Qed.

Lemma strip_fixed s : strip "_" (strip "_" s) = strip "_" s.
Proof.
  unfold strip.
  rewrite (lstrip_rstrip (lstrip "_" s) (lstrip_fixed s)).
  apply rstrip_fixed.
Qed.

Lemma settled_stripped s : settled s -> stripped s = s.
Proof.
  intros (I & D & L & R). unfold stripped, strip.
  rewrite (delete_fixed s I), (runs_fixed false s I D), (lower_fixed s I).
  rewrite L. exact R.
Qed.

Lemma stripped_settled x : settled (stripped x).
Proof.
  unfold stripped, settled, strip.
  set (a := re_sub_delete keep_class x).
  set (b := re_sub_runs sep_class "_" false a).
  assert (Hb : forall_chars word_char b = true)
    by (apply runs_word, delete_keeps).
  assert (Db : no_double false (lower b) = true)
    by (rewrite lower_no_double; apply runs_no_double).
  split; [|split; [|split]].
  - apply rstrip_ident, lstrip_ident, lower_ident, Hb.
  - apply rstrip_no_double, (lstrip_no_double false), Db.
  - apply lstrip_rstrip, lstrip_fixed.
  - apply rstrip_fixed.
Qed.

(** A settled name that is not empty and starts with no digit is
    returned as it is. *)
Lemma sanitize_settled s :
  settled s -> s <> EmptyString -> starts_with_digit s = false ->
  sanitize_name s = s.
Proof.
  intros St Ne Dg. unfold sanitize_name.
  rewrite (settled_stripped s St), Dg.
  destruct s; [contradiction|reflexivity].
Qed.

Lemma prefixed_settled y :
  settled y -> starts_with_digit y = true -> settled ("t_" ++ y).
Proof.
  intros (I & D & L & R) Dg.
  destruct y as [|c y]; [discriminate|]. simpl in Dg.
  pose proof (digit_not_us c Dg) as U.
  split; [|split; [|split]].
  - simpl in *. exact I.
  - simpl in *. rewrite U in *. exact D.
  - reflexivity.
  - change (rstrip "_" (String "t" (String "_" (String c y)))
            = String "t" (String "_" (String c y))).
    change (rstrip "_" (String "t" (String "_" (String c y))))
      with (match (match rstrip "_" (String c y) with
                   | EmptyString => EmptyString
                   | r => String "_" r
                   end) with
            | EmptyString => String "t" EmptyString
            | r => String "t" r
            end).
    rewrite R. reflexivity.
Qed.

(** What [sanitize_name] returns, by the name after [strip]. *)
Lemma sanitize_cases x :
  sanitize_name x =
  if starts_with_digit (stripped x) then "t_" ++ stripped x
  else match stripped x with
       | EmptyString => "unnamed"
       | y => y
       end.
Proof.
  unfold sanitize_name.
  destruct (starts_with_digit (stripped x)) eqn:Dg.
  - destruct (stripped x); [discriminate|reflexivity].
  - destruct (stripped x); reflexivity.
Qed.

(** The result is settled, not empty and starts with no digit. *)
Lemma sanitize_result x :
  settled (sanitize_name x) /\ sanitize_name x <> EmptyString
  /\ starts_with_digit (sanitize_name x) = false.
Proof.
  rewrite sanitize_cases.
  pose proof (stripped_settled x) as St.
  destruct (starts_with_digit (stripped x)) eqn:Dg.
  - split; [apply prefixed_settled; assumption|].
    split; [discriminate|reflexivity].
  - destruct (stripped x) as [|c y] eqn:E.
    + split; [|split; [discriminate|reflexivity]].
      repeat split; reflexivity.
    + split; [exact St|]. split; [discriminate|exact Dg].
Qed.

End SanitizerFacts.

Import PyStr Sanitizer Spec SanitizerFacts.

(** C7. The name sanitizer is idempotent: sanitizing a sanitized name
    returns it unchanged, for every string. *)
Theorem sanitize_name_idempotent :
  forall x : string, sanitize_name (sanitize_name x) = sanitize_name x.
Proof.
  intros x. destruct (sanitize_result x) as (St & Ne & Dg).
  apply sanitize_settled; assumption.
Qed.

(** C8. For every input string the sanitized name is not empty, is in
    lower case, holds only characters of [a-z0-9_] and starts with no
    digit; it is the stripped name with [t_] in front when that starts
    with a digit, the literal [unnamed] when the stripped name is empty,
    and the stripped name otherwise.  The three sample names come out as
    the specification lists them. *)
Theorem sanitize_name_invariants :
  forall x : string,
    sanitize_name x <> EmptyString
    /\ forall_chars ident_char (sanitize_name x) = true
    /\ lower (sanitize_name x) = sanitize_name x
    /\ starts_with_digit (sanitize_name x) = false
    /\ sanitize_name x =
       (if starts_with_digit (stripped x) then "t_" ++ stripped x
        else if (stripped x =? EmptyString)%string then "unnamed"
             else stripped x)
    /\ sanitize_name "Client ID#1" = "client_id1"
    /\ sanitize_name "123abc" = "t_123abc"
    /\ sanitize_name "!!!" = "unnamed"
    /\ sanitize_name EmptyString = "unnamed".
Proof.
  intros x. destruct (sanitize_result x) as ((I & _) & Ne & Dg).
  repeat split; try reflexivity; try assumption.
  - apply lower_fixed, I.
  - rewrite sanitize_cases.
    destruct (starts_with_digit (stripped x)); [reflexivity|].
    destruct (stripped x); reflexivity.
Qed.

(* ------------------------------------------------------------------ *)
(** ** Value Escaper *)

Module EscaperFacts.
Import PyStr PyFloat PyVal Spec.

Lemma numeric_target_branch col_type :
  numeric_target col_type ->
  (col_type =? "BOOLEAN") = false
  /\ Escaper.is_numeric_type col_type = true.
Proof. intros [-> | [-> | ->]]; split; reflexivity. Qed.

(** The escaper never raises. *)
Lemma escape_returns value col_type :
  exists s, Escaper.escape_sql_value value col_type = Ok s.
Proof.
  unfold Escaper.escape_sql_value.
  destruct (isna value || is_None value); [eauto|].
  destruct (col_type =? "BOOLEAN").
  { destruct (isinstance_bool value); [eauto|].
    destruct (in_tuple _ _); eauto. }
  destruct (Escaper.is_numeric_type col_type).
  { destruct (is_numeric_dtype_type value); [eauto|].
    destruct (float value); simpl; eauto. }
  destruct (col_type =? "TIMESTAMP"); [|eauto].
  destruct (isinstance_datetime value); [eauto|].
  destruct (isinstance_str value); eauto.
Qed.

Lemma escape_missing value col_type :
  missing value = true ->
  Escaper.escape_sql_value value col_type = Ok "NULL".
Proof.
  unfold missing, Escaper.escape_sql_value. intros ->. reflexivity.
Qed.

(** The numeric branch on a value that is parsed. *)
Lemma escape_parsed value col_type :
  numeric_target col_type ->
  missing value = false ->
  is_numeric_dtype_type value = false ->
  Escaper.escape_sql_value value col_type =
  Ok (match float value with
      | Ok x => repr x
      | Raise _ => "NULL"
      end).
Proof.
  intros T M N. destruct (numeric_target_branch _ T) as [B I].
  unfold Escaper.escape_sql_value. fold (missing value).
  rewrite M, B, I, N. destruct (float value); reflexivity.
Qed.

(** A value that [float] converts and that is no number is text. *)
Lemma parsed_is_str value x :
  is_numeric_dtype_type value = false -> float value = Ok x ->
  exists s, value = VStr s.
Proof. destruct value; simpl; try discriminate; eauto. Qed.

End EscaperFacts.

Import PyStr PyFloat PyVal Spec EscaperFacts.

(** C3. The value escaper is total and never raises: for every value
    and column type it returns a literal; a null or missing value gives
    NULL whatever the type; for the numeric types INTEGER, BIGINT and
    NUMERIC a value that is parsed (it is no number already) and fails
    to parse gives NULL; and escape("not-a-number", "INTEGER") is
    NULL. *)
Theorem escape_sql_value_total :
  (forall (value : pyval) (col_type : string),
      exists s : string,
        Escaper.escape_sql_value value col_type = Ok s
        /\ (missing value = true -> s = "NULL")
        /\ (numeric_target col_type ->
            is_numeric_dtype_type value = false ->
            (forall x, float value <> Ok x) ->
            s = "NULL"))
  /\ Escaper.escape_sql_value (VStr "not-a-number") "INTEGER" = Ok "NULL".
Proof.
  split; [|reflexivity].
  intros value col_type.
  destruct (escape_returns value col_type) as [s E].
  exists s. split; [exact E|]. split.
  - intros M. rewrite (escape_missing _ _ M) in E. congruence.
  - intros T N F.
    destruct (missing value) eqn:M.
    + rewrite (escape_missing _ _ M) in E. congruence.
    + rewrite (escape_parsed _ _ T M N) in E.
      destruct (float value) as [x|e]; [destruct (F x); reflexivity|].
      congruence.
Qed.

Lemma escape_sql_value_total_witness :
  Escaper.escape_sql_value VNone "TEXT" = Ok "NULL"
  /\ Escaper.escape_sql_value (VStr "abc") "NUMERIC" = Ok "NULL".
Proof.
  split.
  - destruct (proj1 escape_sql_value_total VNone "TEXT") as (s & E & M & _).
    rewrite E. f_equal. apply M. reflexivity.
  - destruct (proj1 escape_sql_value_total (VStr "abc") "NUMERIC")
      as (s & E & _ & P).
    rewrite E. f_equal. apply P.
    + right; right; reflexivity.
    + reflexivity.
    + intros x; vm_compute; discriminate.
Defined.

(** *** BOOLEAN targets *)

Lemma in_tuple_In x t : in_tuple x t = true <-> In x t.
Proof.
  unfold in_tuple. rewrite existsb_exists. split.
  - intros (y & Hy & E). apply String.eqb_eq in E. subst. exact Hy.
  - intros H. exists x. split; [exact H|apply String.eqb_refl].
Qed.

Lemma in_tuple_not_In x t : in_tuple x t = false <-> ~ In x t.
Proof.
  rewrite <- in_tuple_In. destruct (in_tuple x t); intuition congruence.
Qed.

(** C4, as stated, fails: the text "t" is one of the listed affirmative
    words, and the pandas escaper renders it FALSE for a BOOLEAN
    column. *)
Lemma boolean_short_word_counterexample :
  In (lower "t") listed_affirmative
  /\ missing (VStr "t") = false
  /\ Escaper.escape_sql_value (VStr "t") "BOOLEAN" = Ok "FALSE"
  /\ Escaper.escape_sql_value (VStr "t") "BOOLEAN" <> Ok "TRUE".
Proof.
  split; [right; right; right; right; left; reflexivity|].
  split; [reflexivity|]. split; [reflexivity|discriminate].
Qed.

(** C4, amended.  For a value that is not null or missing and a BOOLEAN
    target: a native boolean renders as TRUE or FALSE; any other value
    renders TRUE when its text, in lower case, is one of true, 1, yes,
    sim for the pandas escapers, when its text, in upper case, is one of
    T, TRUE, 1, Y, YES, S, SIM for the DBF escaper (field type L), and
    FALSE otherwise. *)
Theorem boolean_rendering :
  forall value : pyval,
    missing value = false ->
    (forall b, value = VBool b ->
       Escaper.escape_sql_value value "BOOLEAN"
         = Ok (if b then "TRUE" else "FALSE")
       /\ DbcEscaper.escape_sql_value value "L"
         = Ok (if b then "TRUE" else "FALSE"))
    /\ (isinstance_bool value = None ->
        (In (lower (str value)) ["true"; "1"; "yes"; "sim"] ->
           Escaper.escape_sql_value value "BOOLEAN" = Ok "TRUE")
        /\ (~ In (lower (str value)) ["true"; "1"; "yes"; "sim"] ->
           Escaper.escape_sql_value value "BOOLEAN" = Ok "FALSE")
        /\ (In (upper (str value)) ["T"; "TRUE"; "1"; "Y"; "YES"; "S"; "SIM"] ->
           DbcEscaper.escape_sql_value value "L" = Ok "TRUE")
        /\ (~ In (upper (str value))
                 ["T"; "TRUE"; "1"; "Y"; "YES"; "S"; "SIM"] ->
           DbcEscaper.escape_sql_value value "L" = Ok "FALSE")).
Proof.
  intros value M. split.
  - intros b ->. split; reflexivity.
  - intros NB.
    assert (N : is_None value = false).
    { unfold missing in M. apply orb_false_iff in M. tauto. }
    unfold Escaper.escape_sql_value, DbcEscaper.escape_sql_value.
    fold (missing value). rewrite M, N, NB.
    change (upper "L" =? "L")%string with true.
    change ("BOOLEAN" =? "BOOLEAN")%string with true.
    cbv iota.
    repeat split; intros H.
    + apply in_tuple_In in H. unfold Escaper.affirmative. rewrite H. reflexivity.
    + apply in_tuple_not_In in H. unfold Escaper.affirmative. rewrite H.
      reflexivity.
    + apply in_tuple_In in H. unfold DbcEscaper.affirmative. rewrite H.
      reflexivity.
    + apply in_tuple_not_In in H. unfold DbcEscaper.affirmative. rewrite H.
      reflexivity.
Qed.

Lemma boolean_rendering_witness :
  Escaper.escape_sql_value (VStr "Sim") "BOOLEAN" = Ok "TRUE"
  /\ Escaper.escape_sql_value (VStr "y") "BOOLEAN" = Ok "FALSE"
  /\ DbcEscaper.escape_sql_value (VStr "y") "L" = Ok "TRUE"
  /\ DbcEscaper.escape_sql_value (VBool false) "L" = Ok "FALSE".
Proof.
  destruct (boolean_rendering (VStr "Sim") eq_refl) as [_ HS].
  destruct (HS eq_refl) as (ST & _).
  destruct (boolean_rendering (VStr "y") eq_refl) as [_ HY].
  destruct (HY eq_refl) as (_ & YF & YT & _).
  destruct (boolean_rendering (VBool false) eq_refl) as [HB _].
  split; [|split; [|split]].
  - apply ST. right; right; right; left; reflexivity.
  - apply YF. simpl. intros H.
    repeat (destruct H as [H|H]; [discriminate|]). exact H.
  - apply YT. right; right; right; left; reflexivity.
  - apply (HB false eq_refl).
Defined.

(** *** Numeric targets and float text *)

Module FloatFacts.
Import PyStr PyFloat.

Lemma forall_chars_app p a b :
  forall_chars p (a ++ b) = forall_chars p a && forall_chars p b.
Proof.
  induction a as [|c a IH]; simpl; [reflexivity|].
  rewrite IH, andb_assoc. reflexivity.
Qed.

(** Text with a character outside the class is not all in the class. *)
Lemma forall_chars_with p a c b :
  p c = false -> forall_chars p (a ++ String c b) = false.
Proof.
  intros H. rewrite forall_chars_app. simpl. rewrite H.
  apply andb_false_r.
Qed.

(** [repr] of a float is never a string of digits: it holds a point, an
    exponent mark, or is [inf] or [nan]. *)
Lemma format_short_not_digits ds point :
  forall_chars is_09 (format_short ds point) = false.
Proof.
  unfold format_short.
  destruct ((point <=? -4)%Z || (16 <? point)%Z).
  { apply (forall_chars_with is_09 _ "e"). reflexivity. }
  destruct (point <=? 0)%Z; [reflexivity|].
  destruct (point <? _)%Z.
  { apply (forall_chars_with is_09 _ "."). reflexivity. }
  rewrite forall_chars_app, (forall_chars_with is_09 _ "." "0" eq_refl).
  apply andb_false_r.
Qed.

Lemma repr_not_digits x : forall_chars is_09 (repr x) = false.
Proof.
  destruct x as [|neg|neg m e]; [reflexivity|destruct neg; reflexivity|].
  unfold repr. destruct neg; [reflexivity|].
  destruct (m <=? 0)%Z; [reflexivity|].
  destruct (shortest m e) as [ds point].
  apply format_short_not_digits.
Qed.

(** *** [float] of a string of digits *)

Lemma group_tail_digits s : forall acc n,
  forall_chars is_09 s = true ->
  group_tail s acc n
  = (value_from acc s, (n + Z.of_nat (String.length s))%Z, EmptyString).
Proof.
  induction s as [|c s IH]; intros acc n H.
  - simpl. rewrite Z.add_0_r. reflexivity.
  - cbn [forall_chars] in H. apply andb_true_iff in H as [D H].
    cbn [group_tail value_from]. rewrite D.
    rewrite (IH (10 * acc + digit_val c)%Z (n + 1)%Z H).
    f_equal. f_equal. cbn [String.length]. lia.
Qed.

Ltac by_digit c :=
  destruct c as [[] [] [] [] [] [] [] []]; try discriminate; try reflexivity.

Lemma digit_not_space c : is_09 c = true -> is_float_space c = false.
Proof. by_digit c. Qed.

Lemma rstrip_space_digits s :
  forall_chars is_09 s = true -> rstrip_space s = s.
Proof.
  induction s as [|c s IH]; simpl; [reflexivity|].
  intros H; apply andb_true_iff in H as [D H].
  rewrite (IH H), (digit_not_space c D). destruct s; reflexivity.
Qed.

Lemma round64_dec_0 neg m : round64_dec neg m 0 = round64 neg m 1.
Proof.
  unfold round64_dec, dec_num, dec_den. cbn [Z.leb Z.compare].
  rewrite Z.pow_0_r, Z.mul_1_r. reflexivity.
Qed.

Lemma parse_unsigned_digits c s :
  forall_chars is_09 (String c s) = true ->
  parse_unsigned false (String c s)
  = Ok (round64 false (digits_value (String c s)) 1).
Proof.
  intros H. pose proof H as H'. simpl in H'.
  apply andb_true_iff in H' as [D Hs].
  unfold parse_unsigned.
  assert (L : forall w,
             (lower (String c s) =? String "i" w)%string = false
             /\ (lower (String c s) =? String "n" w)%string = false).
  { intros w. simpl. revert D. clear. by_digit c; intros _; split; reflexivity. }
  change "inf" with (String "i" "nf").
  change "infinity" with (String "i" "nfinity").
  change "nan" with (String "n" "an").
  rewrite (proj1 (L "nf")), (proj1 (L "nfinity")), (proj2 (L "an")).
  simpl orb. cbv iota.
  unfold parse_decimal, group. rewrite D.
  rewrite (group_tail_digits s (10 * 0 + digit_val c)%Z 1%Z Hs).
  cbv beta iota zeta.
  replace (1 + Z.of_nat (String.length s) + 0 =? 0)%Z with false
    by (symmetry; apply Z.eqb_neq; lia).
  cbn [parse_exponent]. rewrite Z.sub_0_r, round64_dec_0. reflexivity.
Qed.

Lemma float_of_digits s :
  s <> EmptyString -> forall_chars is_09 s = true ->
  float_of_str s = Ok (round64 false (digits_value s) 1).
Proof.
  intros Ne H. destruct s as [|c s]; [contradiction|].
  pose proof (parse_unsigned_digits c s H) as E.
  assert (D : is_09 c = true)
    by (cbn [forall_chars] in H; apply andb_true_iff in H; tauto).
  unfold float_of_str. cbn [lstrip_space].
  rewrite (digit_not_space c D), (rstrip_space_digits _ H), <- E.
  revert D. clear. by_digit c.
Qed.

End FloatFacts.

Module IntegerFloats.
Import PyStr PyFloat Spec FloatFacts.
Local Open Scope Z_scope.

(** *** Rounding an integer below 2^53 is exact *)

Lemma div_rne_1 a : div_rne a 1 = a.
Proof.
  unfold div_rne. rewrite Z.div_1_r, Z.mod_1_r. reflexivity.
Qed.

Lemma round64_small n :
  0 < n < 2 ^ 53 ->
  round64 false n 1 = Ffin false (n * 2 ^ (52 - Z.log2 n)) (Z.log2 n - 52).
Proof.
  intros [P B].
  pose proof (Z.log2_nonneg n) as L0.
  assert (L52 : Z.log2 n < 53) by (apply Z.log2_lt_pow2; lia).
  destruct (Z.log2_spec n P) as [Lo Hi].
  unfold round64.
  replace (n =? 0) with false by (symmetry; apply Z.eqb_neq; lia).
  assert (LR : log2_ratio n 1 = Z.log2 n).
  { unfold log2_ratio, ge_pow2. rewrite Z.log2_1, Z.sub_0_r.
    replace (0 <=? Z.log2 n) with true by (symmetry; apply Z.leb_le; lia).
    replace (1 * 2 ^ Z.log2 n <=? n) with true
      by (symmetry; apply Z.leb_le; lia).
    reflexivity. }
  rewrite LR. rewrite Z.max_l by lia.
  remember (Z.log2 n) as l eqn:El. clear El LR.
  assert (M : (if 0 <=? l - 52 then div_rne n (1 * 2 ^ (l - 52))
               else div_rne (n * 2 ^ (- (l - 52))) 1)
              = n * 2 ^ (52 - l)).
  { destruct (Z.leb_spec 0 (l - 52)) as [G|G].
    - assert (E : l = 52) by lia. subst l. simpl (52 - 52). simpl (2 ^ 0).
      rewrite div_rne_1. lia.
    - rewrite div_rne_1. f_equal. f_equal. lia. }
  rewrite M.
  assert (MB : n * 2 ^ (52 - l) < 2 ^ 53).
  { replace (2 ^ 53) with (2 ^ (Z.succ l) * 2 ^ (52 - l)).
    - apply Z.mul_lt_mono_pos_r; [apply Z.pow_pos_nonneg; lia|exact Hi].
    - rewrite <- Z.pow_add_r by lia. f_equal. lia. }
  replace (n * 2 ^ (52 - l) =? 2 ^ 53) with false
    by (symmetry; apply Z.eqb_neq; lia).
  replace (971 <? l - 52) with false by (symmetry; apply Z.ltb_ge; lia).
  reflexivity.
Qed.

(** Two integers below 2^53 round to the same float only if equal. *)
Lemma round64_small_eqb c n :
  0 < c < 2 ^ 53 -> 0 < n < 2 ^ 53 ->
  eqb (round64 false c 1) (round64 false n 1) = (c =? n).
Proof.
  intros C N. rewrite (round64_small c C), (round64_small n N).
  unfold eqb. cbn [Bool.eqb andb].
  destruct (Z.eqb_spec c n) as [->|Ne].
  - rewrite !Z.eqb_refl. reflexivity.
  - destruct (Z.eqb_spec (Z.log2 c - 52) (Z.log2 n - 52)) as [E|E];
      [|apply andb_false_r].
    rewrite andb_true_r. apply Z.eqb_neq. intros H.
    assert (E' : Z.log2 c = Z.log2 n) by lia. rewrite E' in H.
    apply Z.mul_cancel_r in H; [contradiction|].
    pose proof (Z.log2_nonneg n).
    assert (Z.log2 n < 53) by (apply Z.log2_lt_pow2; lia).
    apply Z.pow_nonzero; lia.
Qed.

(** *** The decimal point of an integer *)

Lemma lt_pow10_int n b q :
  0 < b -> 0 < n ->
  lt_pow10 (n * b) b q = (0 <=? q) && (n <? 10 ^ q).
Proof.
  intros B N. unfold lt_pow10.
  destruct (Z.leb_spec 0 q) as [Q|Q]; cbn [andb].
  - destruct (Z.ltb_spec n (10 ^ q)) as [H|H].
    + apply Z.ltb_lt. nia.
    + apply Z.ltb_ge. nia.
  - apply Z.ltb_ge.
    assert (P : 0 < 10 ^ (- q)) by (apply Z.pow_pos_nonneg; lia).
    assert (G : 1 <= n * 10 ^ (- q)) by nia.
    rewrite <- Z.mul_assoc, (Z.mul_comm b), Z.mul_assoc.
    rewrite <- (Z.mul_1_l b) at 1.
    apply Z.mul_le_mono_nonneg_r; lia.
Qed.

Lemma decpt_from_spec fuel a b : forall p P,
  p <= P ->
  (forall q, p <= q < P -> lt_pow10 a b q = false) ->
  lt_pow10 a b P = true ->
  (Z.to_nat (P - p) < fuel)%nat ->
  decpt_from fuel a b p = P.
Proof.
  induction fuel as [|fuel IH]; intros p P L Lo Hi F; [lia|].
  cbn [decpt_from]. destruct (lt_pow10 a b p) eqn:E.
  - destruct (Z.eq_dec p P) as [->|Ne]; [reflexivity|].
    rewrite Lo in E by lia. discriminate.
  - assert (p <> P) by (intros ->; congruence).
    apply IH; [lia| |exact Hi|lia].
    intros q Q. apply Lo. lia.
Qed.

Lemma decpt_int n b D :
  0 < b -> 1 <= D <= 300 -> 10 ^ (D - 1) <= n < 10 ^ D ->
  decpt (n * b) b = D.
Proof.
  intros B DB [Lo Hi].
  assert (N : 0 < n).
  { assert (0 < 10 ^ (D - 1)) by (apply Z.pow_pos_nonneg; lia). lia. }
  unfold decpt. apply decpt_from_spec.
  - lia.
  - intros q Q. rewrite (lt_pow10_int n b q B N).
    destruct (Z.leb_spec 0 q) as [Q0|Q0]; [|reflexivity]. cbn [andb].
    apply Z.ltb_ge.
    assert (10 ^ q <= 10 ^ (D - 1)) by (apply Z.pow_le_mono_r; lia). lia.
  - rewrite (lt_pow10_int n b D B N).
    replace (0 <=? D) with true by (symmetry; apply Z.leb_le; lia).
    apply Z.ltb_lt. exact Hi.
  - lia.
Qed.

(** *** The shortest digits of an integer below 10^15 *)

Lemma pow10_15 : 10 ^ 15 + 10 ^ 15 < 2 ^ 53.
Proof. reflexivity. Qed.

Lemma candidate_int m e n b D nd :
  0 < b -> 0 < n < 10 ^ 15 -> 10 ^ (D - 1) <= n ->
  round64 false n 1 = Ffin false m e ->
  1 <= nd <= D ->
  candidate m e (n * b) b D nd
  = (if n mod 10 ^ (D - nd) =? 0 then Some (n / 10 ^ (D - nd)) else None).
Proof.
  intros B [N0 N15] Lo F ND.
  pose proof pow10_15 as P15.
  set (x := D - nd).
  assert (X : 0 <= x) by (unfold x; lia).
  assert (PX : 0 < 10 ^ x) by (apply Z.pow_pos_nonneg; lia).
  assert (PXn : 10 ^ x <= n).
  { assert (10 ^ x <= 10 ^ (D - 1))
      by (apply Z.pow_le_mono_r; unfold x; lia). lia. }
  unfold candidate. fold x.
  replace (0 <=? x) with true by (symmetry; apply Z.leb_le; lia).
  replace (n * b / (b * 10 ^ x)) with (n / 10 ^ x)
    by (rewrite (Z.mul_comm n b), Z.div_mul_cancel_l by lia; reflexivity).
  set (lo := n / 10 ^ x).
  pose proof (Z.div_mod n (10 ^ x) ltac:(lia)) as DM. fold lo in DM.
  pose proof (Z.mod_pos_bound n (10 ^ x) PX) as MB.
  assert (L1 : 1 <= lo) by (unfold lo; apply Z.div_le_lower_bound; lia).
  assert (RB : forall c, 0 < c * 10 ^ x < 2 ^ 53 ->
                         reads_back m e c x = (c * 10 ^ x =? n)).
  { intros c C. unfold reads_back, round64_dec, dec_num, dec_den.
    replace (0 <=? x) with true by (symmetry; apply Z.leb_le; lia).
    rewrite <- F. apply round64_small_eqb; lia. }
  rewrite (RB lo) by nia.
  rewrite (RB (lo + 1)) by nia.
  replace ((lo + 1) * 10 ^ x =? n) with false
    by (symmetry; apply Z.eqb_neq; nia).
  rewrite andb_false_r.
  destruct (Z.eqb_spec (n mod 10 ^ x) 0) as [E|E].
  - replace (lo * 10 ^ x =? n) with true
      by (symmetry; apply Z.eqb_eq; lia).
    reflexivity.
  - replace (lo * 10 ^ x =? n) with false
      by (symmetry; apply Z.eqb_neq; lia).
    reflexivity.
Qed.

(** The digits [d] of [n] without its [tz] trailing zeros. *)
Lemma trailing_zeros_mod d tz x :
  0 < d -> d mod 10 <> 0 -> 0 <= tz -> 0 <= x ->
  ((d * 10 ^ tz) mod 10 ^ x =? 0) = (x <=? tz).
Proof.
  intros D0 D10 TZ X.
  destruct (Z.leb_spec x tz) as [L|L].
  - apply Z.eqb_eq.
    replace tz with ((tz - x) + x) by lia.
    rewrite Z.pow_add_r, Z.mul_assoc by lia.
    apply Z.mod_mul. apply Z.pow_nonzero; lia.
  - apply Z.eqb_neq. intros H.
    apply Z.mod_divide in H; [|apply Z.pow_nonzero; lia].
    destruct H as [k H].
    replace x with ((x - tz - 1) + 1 + tz) in H by lia.
    rewrite !Z.pow_add_r in H by lia.
    rewrite !Z.mul_assoc in H.
    apply Z.mul_cancel_r in H; [|apply Z.pow_nonzero; lia].
    apply D10. rewrite H. change (10 ^ 1) with 10.
    apply Z.mod_mul. lia.
Qed.

Lemma shortest_from_int m e n b D d tz :
  0 < b -> 0 < n < 10 ^ 15 -> 10 ^ (D - 1) <= n < 10 ^ D ->
  round64 false n 1 = Ffin false m e ->
  0 < d -> d mod 10 <> 0 -> 0 <= tz -> n = d * 10 ^ tz ->
  forall fuel nd,
    1 <= nd <= D - tz ->
    (Z.to_nat (D - tz - nd) < fuel)%nat ->
    shortest_from fuel m e (n * b) b D nd = (d, D - tz).
Proof.
  intros B N ND F D0 D10 TZ E.
  induction fuel as [|fuel IH]; intros nd R Fu; [lia|].
  cbn [shortest_from].
  rewrite (candidate_int m e n b D nd B N (proj1 ND) F) by lia.
  rewrite E at 1. rewrite (trailing_zeros_mod d tz (D - nd)) by lia.
  destruct (Z.leb_spec (D - nd) tz) as [L|L].
  - assert (X : D - nd = tz) by lia. rewrite X.
    rewrite E, Z.div_mul by (apply Z.pow_nonzero; lia).
    f_equal. lia.
  - apply IH; lia.
Qed.

(** [repr] of the float of an integer below 10^15: its digits, then
    [.0]. *)
Lemma repr_int n d tz D :
  0 < d -> d mod 10 <> 0 -> 0 <= tz -> n = d * 10 ^ tz ->
  10 ^ (D - 1) <= n < 10 ^ D -> D <= 15 ->
  Z.of_nat (String.length (str_of_Z d)) = D - tz ->
  repr (round64 false n 1)
  = (str_of_Z d ++ zeros (Z.to_nat tz) ++ ".0")%string.
Proof.
  intros D0 D10 TZ E [Lo Hi] D15 Len.
  assert (PT : 0 < 10 ^ tz) by (apply Z.pow_pos_nonneg; lia).
  assert (N0 : 0 < n) by nia.
  assert (D1 : 1 <= D).
  { destruct (Z.le_gt_cases 1 D) as [H|H]; [exact H|].
    assert (10 ^ D <= 1).
    { destruct (Z.eq_dec D 0) as [->|Ne]; [simpl; lia|].
      rewrite Z.pow_neg_r by lia. lia. }
    lia. }
  assert (N15 : n < 10 ^ 15).
  { assert (10 ^ D <= 10 ^ 15) by (apply Z.pow_le_mono_r; lia). lia. }
  assert (TD : tz < D).
  { apply (Z.pow_lt_mono_r_iff 10); [lia|lia|]. nia. }
  pose proof pow10_15 as P15.
  assert (NB : 0 < n < 2 ^ 53) by lia.
  pose proof (round64_small n NB) as F.
  pose proof (Z.log2_nonneg n) as L0.
  assert (L52 : Z.log2 n < 53) by (apply Z.log2_lt_pow2; lia).
  remember (Z.log2 n) as l eqn:El. clear El.
  set (bb := 2 ^ (52 - l)).
  assert (BB : 0 < bb) by (apply Z.pow_pos_nonneg; lia).
  rewrite F. unfold repr.
  replace (n * 2 ^ (52 - l) <=? 0) with false
    by (symmetry; apply Z.leb_gt; fold bb; nia).
  unfold shortest.
  assert (A : (if 0 <=? l - 52 then n * 2 ^ (52 - l) * 2 ^ (l - 52)
               else n * 2 ^ (52 - l)) = n * bb).
  { destruct (Z.leb_spec 0 (l - 52)) as [G|G]; [|reflexivity].
    assert (l = 52) by lia. subst l. unfold bb. simpl. lia. }
  assert (B : (if 0 <=? l - 52 then 1 else 2 ^ (- (l - 52))) = bb).
  { destruct (Z.leb_spec 0 (l - 52)) as [G|G].
    - assert (l = 52) by lia. subst l. reflexivity.
    - unfold bb. f_equal. lia. }
  rewrite A, B.
  rewrite (decpt_int n bb D BB) by lia.
  rewrite (shortest_from_int _ _ n bb D d tz BB (conj N0 N15) (conj Lo Hi) F
             D0 D10 TZ E 17 1) by lia.
  rewrite Len.
  replace (D + (D - tz - (D - tz))) with D by lia.
  assert (SZ : strip_zeros 20 d = d).
  { cbn [strip_zeros].
    replace (d mod 10 =? 0) with false by (symmetry; apply Z.eqb_neq; lia).
    reflexivity. }
  rewrite SZ. unfold format_short. rewrite Len.
  replace (D <=? -4) with false by (symmetry; apply Z.leb_gt; lia).
  replace (16 <? D) with false by (symmetry; apply Z.ltb_ge; lia).
  replace (D <=? 0) with false by (symmetry; apply Z.leb_gt; lia).
  replace (D <? D - tz) with false by (symmetry; apply Z.ltb_ge; lia).
  cbn [orb]. replace (D - (D - tz)) with tz by lia. reflexivity.
Qed.

(** *** Strings of digits and their values *)

Lemma digits_uint s :
  forall_chars is_09 s = true ->
  exists u, NilEmpty.string_of_uint u = s.
Proof.
  induction s as [|c s IH]; [exists Decimal.Nil; reflexivity|].
  cbn [forall_chars]. intros H. apply andb_true_iff in H as [C H].
  destruct (IH H) as [u <-]. revert C. clear.
  by_digit c; intros _;
    first [ exists (Decimal.D0 u); reflexivity
          | exists (Decimal.D1 u); reflexivity
          | exists (Decimal.D2 u); reflexivity
          | exists (Decimal.D3 u); reflexivity
          | exists (Decimal.D4 u); reflexivity
          | exists (Decimal.D5 u); reflexivity
          | exists (Decimal.D6 u); reflexivity
          | exists (Decimal.D7 u); reflexivity
          | exists (Decimal.D8 u); reflexivity
          | exists (Decimal.D9 u); reflexivity ].
Qed.

Lemma value_of_uint u : forall acc : positive,
  value_from (Zpos acc) (NilEmpty.string_of_uint u)
  = Zpos (Pos.of_uint_acc u acc).
Proof.
  induction u as [|u IH|u IH|u IH|u IH|u IH|u IH|u IH|u IH|u IH|u IH];
    intros acc; [reflexivity|..];
    cbn [NilEmpty.string_of_uint value_from Pos.of_uint_acc];
    rewrite <- IH; f_equal;
    match goal with
    | |- context [digit_val ?c] =>
        let v := eval vm_compute in (digit_val c) in
        change (digit_val c) with v
    end; lia.
Qed.

(** A string of digits that starts with no zero is the decimal numeral
    of its value. *)
Lemma str_of_digits_value c s :
  forall_chars is_09 (String c s) = true -> c <> "0"%char ->
  0 < digits_value (String c s)
  /\ str_of_Z (digits_value (String c s)) = String c s.
Proof.
  intros H NZ. destruct (digits_uint _ H) as [u E].
  assert (P : exists p, digits_value (String c s) = Zpos p
                        /\ Pos.of_uint u = Npos p
                        /\ Decimal.unorm u = u).
  { unfold digits_value. rewrite <- E.
    destruct u as [|u|u|u|u|u|u|u|u|u|u]; try discriminate;
      try (injection E as E1 E2; symmetry in E1; contradiction);
      cbn [NilEmpty.string_of_uint value_from];
      eexists; (split; [apply (value_of_uint u)|split; reflexivity]). }
  destruct P as (p & V & O & U). rewrite V. split; [reflexivity|].
  unfold str_of_Z. cbn [Z.to_int NilZero.string_of_int].
  change (Pos.to_uint p) with (N.to_uint (Npos p)).
  rewrite <- O, DecimalPos.Unsigned.to_of, U.
  rewrite <- E. destruct u; try reflexivity. discriminate.
Qed.

Lemma digit_val_range c : is_09 c = true -> 0 <= digit_val c <= 9.
Proof. by_digit c; intros _; vm_compute; split; discriminate. Qed.

Lemma digit_val_zero c : is_09 c = true -> digit_val c = 0 -> c = "0"%char.
Proof. by_digit c; intros _; vm_compute; discriminate. Qed.

Lemma value_from_zeros k : forall acc,
  value_from acc (zeros k) = acc * 10 ^ Z.of_nat k.
Proof.
  induction k as [|k IH]; intros acc.
  - simpl. lia.
  - cbn [zeros value_from]. rewrite IH.
    change (digit_val "0") with 0.
    rewrite Nat2Z.inj_succ, Z.pow_succ_r by lia. lia.
Qed.

Lemma value_from_app a b : forall acc,
  value_from acc (a ++ b) = value_from (value_from acc a) b.
Proof.
  induction a as [|c a IH]; intros acc; [reflexivity|].
  cbn [append value_from]. apply IH.
Qed.

(** The value of [len] digits after [acc]. *)
Lemma value_from_bounds s : forall acc,
  forall_chars is_09 s = true ->
  acc * 10 ^ Z.of_nat (String.length s) <= value_from acc s
  /\ value_from acc s < (acc + 1) * 10 ^ Z.of_nat (String.length s).
Proof.
  induction s as [|c s IH]; intros acc H.
  - simpl. lia.
  - cbn [forall_chars] in H. apply andb_true_iff in H as [C H].
    pose proof (digit_val_range c C) as R.
    cbn [value_from String.length].
    destruct (IH (10 * acc + digit_val c) H) as [Lo Hi].
    rewrite Nat2Z.inj_succ, Z.pow_succ_r by lia.
    assert (0 < 10 ^ Z.of_nat (String.length s))
      by (apply Z.pow_pos_nonneg; lia).
    split; nia.
Qed.

(** A string of digits is its part without the trailing zeros, then
    zeros. *)
Lemma rstrip_zeros s :
  forall_chars is_09 s = true ->
  exists k,
    s = rstrip "0" s ++ zeros k
    /\ String.length s = (String.length (rstrip "0" s) + k)%nat
    /\ forall_chars is_09 (rstrip "0" s) = true.
Proof.
  induction s as [|c s IH]; intros H.
  - exists 0%nat. repeat split.
  - cbn [forall_chars] in H. apply andb_true_iff in H as [C H].
    destruct (IH H) as (k & E & L & F).
    cbn [rstrip]. destruct (rstrip "0" s) as [|d r] eqn:R.
    + destruct (Ascii.eqb_spec c "0") as [->|Ne].
      * exists (S k). split; [cbn [append zeros]; f_equal; exact E|].
        split; [simpl in *; lia|reflexivity].
      * exists k. split; [cbn [append]; f_equal; exact E|].
        split; [simpl in *; lia|].
        cbn [forall_chars]. rewrite C. reflexivity.
    + exists k. split; [cbn [append]; f_equal; exact E|].
      split; [simpl in *; lia|].
      cbn [forall_chars] in *. rewrite C. exact F.
Qed.

(** The value of digits that end with no zero is no multiple of ten. *)
Lemma value_no_trailing_zero s : forall acc,
  forall_chars is_09 s = true -> s <> EmptyString ->
  rstrip "0" s = s ->
  value_from acc s mod 10 <> 0.
Proof.
  induction s as [|c s IH]; intros acc H Ne R; [contradiction|].
  cbn [forall_chars] in H. apply andb_true_iff in H as [C H].
  cbn [value_from]. cbn [rstrip] in R.
  destruct s as [|d s].
  - cbn [rstrip value_from] in *.
    destruct (Ascii.eqb_spec c "0") as [->|Nz]; [discriminate|].
    pose proof (digit_val_range c C) as Rg.
    intros M. apply Nz, (digit_val_zero c C).
    rewrite Z.add_comm, Z.mul_comm, Z.mod_add in M by lia.
    rewrite Z.mod_small in M by lia. exact M.
  - apply IH; [exact H|discriminate|].
    destruct (rstrip "0" (String d s)) as [|e r] eqn:Q.
    + destruct (Ascii.eqb c "0"); discriminate.
    + congruence.
Qed.

Lemma rstrip_idem ch s : rstrip ch (rstrip ch s) = rstrip ch s.
Proof.
  induction s as [|c s IH]; simpl; [reflexivity|].
  destruct (rstrip ch s) as [|d r] eqn:R.
  - destruct (Ascii.eqb c ch) eqn:E; simpl; [reflexivity|].
    rewrite E. reflexivity.
  - simpl in *. rewrite IH. reflexivity.
Qed.

(** [str(float(s))] of at most fifteen digits that start with no zero:
    the digits, then [.0]. *)
Lemma repr_of_digits c s :
  forall_chars is_09 (String c s) = true -> c <> "0"%char ->
  (String.length (String c s) <= 15)%nat ->
  repr (round64 false (digits_value (String c s)) 1)
  = (String c s ++ ".0")%string.
Proof.
  intros H NZ L.
  destruct (rstrip_zeros _ H) as (k & E & Len & F).
  set (t := String c s) in *.
  set (t0 := rstrip "0" t) in *.
  assert (T0 : exists s0, t0 = String c s0).
  { unfold t0, t. cbn [rstrip].
    destruct (rstrip "0" s); [|eauto].
    destruct (Ascii.eqb_spec c "0"); [contradiction|eauto]. }
  destruct T0 as [s0 T0].
  assert (R0 : rstrip "0" t0 = t0) by apply rstrip_idem.
  assert (F0 : forall_chars is_09 (String c s0) = true)
    by (rewrite <- T0; exact F).
  destruct (str_of_digits_value c s0 F0 NZ) as [P S].
  rewrite <- T0 in P, S.
  assert (V : digits_value t = digits_value t0 * 10 ^ Z.of_nat k).
  { unfold digits_value. rewrite E at 1.
    rewrite value_from_app, value_from_zeros. reflexivity. }
  destruct (value_from_bounds s (digit_val c)) as [Lo Hi].
  { cbn [forall_chars] in H. apply andb_true_iff in H. tauto. }
  assert (C : is_09 c = true)
    by (cbn [forall_chars] in H; apply andb_true_iff in H; tauto).
  pose proof (digit_val_range c C) as Rg.
  assert (C1 : 1 <= digit_val c).
  { destruct (Z.eq_dec (digit_val c) 0) as [Z0|Z0]; [|lia].
    destruct (NZ (digit_val_zero c C Z0)). }
  assert (PW : 0 < 10 ^ Z.of_nat (String.length s))
    by (apply Z.pow_pos_nonneg; lia).
  rewrite (repr_int (digits_value t) (digits_value t0) (Z.of_nat k)
             (Z.of_nat (String.length t))).
  - rewrite S, Nat2Z.id. clearbody t0. clearbody t. rewrite E.
    clear. induction t0 as [|a t0 IH]; [reflexivity|].
    cbn [append]. f_equal. exact IH.
  - exact P.
  - unfold digits_value. apply value_no_trailing_zero.
    + exact F.
    + rewrite T0. discriminate.
    + exact R0.
  - lia.
  - exact V.
  - unfold digits_value, t. cbn [value_from String.length].
    replace (10 * 0 + digit_val c) with (digit_val c) by lia.
    rewrite Nat2Z.inj_succ.
    replace (Z.succ (Z.of_nat (String.length s)) - 1)
      with (Z.of_nat (String.length s)) by lia.
    rewrite Z.pow_succ_r by lia. split; nia.
  - lia.
  - rewrite S. lia.
Qed.

End IntegerFloats.

Import FloatFacts IntegerFloats.

(** C9. For the numeric target types the pandas escaper renders a value
    that is no number already and that [float] converts as
    [str(float(value))].  For every string of digits the literal is that
    float text, never the digits themselves; for every decimal numeral
    of at most fifteen digits it is the numeral followed by [.0]; for
    "42" and INTEGER it is "42.0". *)
Theorem numeric_text_rendered_as_float :
  (forall (value : pyval) (col_type : string) (x : pyfloat),
      numeric_target col_type ->
      is_numeric_dtype_type value = false ->
      float value = Ok x ->
      Escaper.escape_sql_value value col_type = Ok (repr x))
  /\ (forall s : string,
        s <> EmptyString -> forall_chars is_09 s = true ->
        exists x : pyfloat,
          float (VStr s) = Ok x
          /\ Escaper.escape_sql_value (VStr s) "INTEGER" = Ok (repr x)
          /\ repr x <> s)
  /\ (forall s : string,
        decimal_numeral s = true -> (String.length s <= 15)%nat ->
        Escaper.escape_sql_value (VStr s) "INTEGER" = Ok (s ++ ".0"))
  /\ Escaper.escape_sql_value (VStr "42") "INTEGER" = Ok "42.0"
  /\ Escaper.escape_sql_value (VStr "42") "INTEGER" <> Ok "42".
Proof.
  assert (P : forall value col_type x,
             numeric_target col_type ->
             is_numeric_dtype_type value = false ->
             float value = Ok x ->
             Escaper.escape_sql_value value col_type = Ok (repr x)).
  { intros value col_type x T N F.
    destruct (parsed_is_str value x N F) as [s ->].
    rewrite (escape_parsed (VStr s) col_type T eq_refl N), F. reflexivity. }
  split; [exact P|]. split; [|split].
  - intros s Ne D. pose proof (float_of_digits s Ne D) as E.
    eexists. split; [exact E|]. split.
    + apply P; [left; reflexivity|reflexivity|exact E].
    + intros R.
      pose proof (repr_not_digits (round64 false (digits_value s) 1)) as ND.
      rewrite R, D in ND. discriminate.
  - intros s N L. destruct s as [|c s]; [discriminate|].
    unfold decimal_numeral in N. apply andb_true_iff in N as [D Z].
    rewrite (P (VStr (String c s)) "INTEGER"
               (round64 false (digits_value (String c s)) 1)).
    + f_equal. apply orb_true_iff in Z as [Z|Z].
      * apply repr_of_digits; [exact D| |exact L].
        intros ->. discriminate.
      * apply String.eqb_eq in Z. subst s. revert D. clear.
        by_digit c; intros _; vm_compute; reflexivity.
    + left; reflexivity.
    + reflexivity.
    + apply float_of_digits; [discriminate|exact D].
  - split; [vm_compute; reflexivity|vm_compute; discriminate].
Qed.

Lemma numeric_text_rendered_as_float_witness :
  Escaper.escape_sql_value (VStr "7") "BIGINT" = Ok "7.0"
  /\ (exists x : pyfloat,
         float (VStr "2024") = Ok x
         /\ Escaper.escape_sql_value (VStr "2024") "INTEGER" = Ok (repr x)
         /\ repr x <> "2024")
  /\ Escaper.escape_sql_value (VStr "123456789012345") "INTEGER"
     = Ok "123456789012345.0".
Proof.
  split; [|split].
  - apply (proj1 numeric_text_rendered_as_float (VStr "7") "BIGINT"
             (Ffin false 7881299347898368 (-50))).
    + right; left; reflexivity.
    + reflexivity.
    + vm_compute. reflexivity.
  - apply (proj1 (proj2 numeric_text_rendered_as_float) "2024").
    + discriminate.
    + reflexivity.
  - apply (proj1 (proj2 (proj2 numeric_text_rendered_as_float))
             "123456789012345").
    + reflexivity.
    + simpl. lia.
Defined.

(** *** Quoting of text *)

Module QuoteFacts.
Import PyStr Spec.

Lemma closes_doubled s : closes (replace_char "'" "''" s ++ "'") = true.
Proof.
  induction s as [|c s IH]; [reflexivity|].
  cbn [replace_char]. destruct (Ascii.eqb c "'") eqn:E.
  - exact IH.
  - cbn [append closes]. rewrite E. exact IH.
Qed.

Lemma doubled_ok s :
  sql_literal_ok (Escaper.quoted (replace_char "'" "''" s)) = true.
Proof. apply closes_doubled. Qed.

End QuoteFacts.

Import QuoteFacts.

(** C10. For the TIMESTAMP target of the pandas escaper and the date
    (D) and datetime (T) fields of the DBF escaper, a string value is
    wrapped in single quotes as it is, while the TEXT and VARCHAR path
    doubles every single quote, which always gives a well-formed
    literal; for the string [o'clock] the timestamp and date literals
    are not well-formed quoted SQL literals. *)
Theorem timestamp_text_not_escaped :
  (forall s : string,
      Escaper.escape_sql_value (VStr s) "TIMESTAMP" = Ok ("'" ++ s ++ "'")
      /\ DbcEscaper.escape_sql_value (VStr s) "D" = Ok ("'" ++ s ++ "'")
      /\ DbcEscaper.escape_sql_value (VStr s) "T" = Ok ("'" ++ s ++ "'"))
  /\ (forall s : string,
        exists lit : string,
          Escaper.escape_sql_value (VStr s) "TEXT" = Ok lit
          /\ Escaper.escape_sql_value (VStr s) "VARCHAR(255)" = Ok lit
          /\ DbcEscaper.escape_sql_value (VStr s) "C" = Ok lit
          /\ lit = "'" ++ replace_char "'" "''" s ++ "'"
          /\ sql_literal_ok lit = true)
  /\ (exists s lit : string,
        Escaper.escape_sql_value (VStr s) "TIMESTAMP" = Ok lit
        /\ DbcEscaper.escape_sql_value (VStr s) "D" = Ok lit
        /\ DbcEscaper.escape_sql_value (VStr s) "T" = Ok lit
        /\ sql_literal_ok lit = false).
Proof.
  split; [|split].
  - intros s. repeat split.
  - intros s. eexists. repeat split. apply doubled_ok.
  - exists "o'clock", "'o'clock'". repeat split.
Qed.

(* ------------------------------------------------------------------ *)
(** ** Type Inferencer *)

Module InferencerFacts.
Import PyStr PyVal Pandas Inferencer Spec.
Local Open Scope Z_scope.

Lemma list_max_le x xs b :
  list_max x xs <= b <-> x <= b /\ Forall (fun y => y <= b) xs.
Proof.
  unfold list_max. revert x. induction xs as [|y xs IH]; intros x; simpl.
  - split; [intros H; split; [exact H|constructor]|tauto].
  - rewrite IH. split.
    + intros [H F]. split; [lia|]. constructor; [lia|exact F].
    + intros [H F]. inversion F; subst. split; [lia|assumption].
Qed.

Lemma list_min_ge x xs b :
  b <= list_min x xs <-> b <= x /\ Forall (fun y => b <= y) xs.
Proof.
  unfold list_min. revert x. induction xs as [|y xs IH]; intros x; simpl.
  - split; [intros H; split; [exact H|constructor]|tauto].
  - rewrite IH. split.
    + intros [H F]. split; [lia|]. constructor; [lia|exact F].
    + intros [H F]. inversion F; subst. split; [lia|assumption].
Qed.

(** The range check on the extremes is the range check on every
    value. *)
Lemma range_check x xs :
  (-2147483648 <=? list_min x xs) && (list_max x xs <=? 2147483647)
  = forallb fits_int32 (x :: xs).
Proof.
  apply eq_true_iff_eq.
  rewrite andb_true_iff, Z.leb_le, Z.leb_le, list_min_ge, list_max_le.
  rewrite forallb_forall.
  setoid_rewrite Forall_forall.
  unfold fits_int32. split.
  - intros [[A B] [C D]] y [<-|I]; apply andb_true_iff; rewrite !Z.leb_le.
    + lia.
    + split; [apply B|apply D]; exact I.
  - intros H.
    assert (G : forall y, In y (x :: xs) -> -2147483648 <= y <= 2147483647).
    { intros y I. specialize (H y I). apply andb_true_iff in H.
      rewrite !Z.leb_le in H. exact H. }
    repeat split; try (apply G; left; reflexivity);
      intros y I; apply G; right; exact I.
Qed.

(** The longest text of a list of values. *)
Lemma list_max_bound x xs y : In y (x :: xs) -> y <= list_max x xs.
Proof.
  intros I. pose proof (proj1 (list_max_le x xs (list_max x xs)) (Z.le_refl _))
    as [A B].
  destruct I as [<-|I]; [exact A|].
  rewrite Forall_forall in B. apply B, I.
Qed.

Lemma list_max_attained x xs : In (list_max x xs) (x :: xs).
Proof.
  unfold list_max. revert x. induction xs as [|y xs IH]; intros x; simpl.
  - left; reflexivity.
  - destruct (IH (Z.max x y)) as [E|I].
    + rewrite <- E. destruct (Z.max_spec x y) as [[_ ->]|[_ ->]]; auto.
    + right; right; exact I.
Qed.

End InferencerFacts.

Import PyStr PyVal Pandas Inferencer Spec InferencerFacts.

(** C1. For every column of the integer dtype that holds a value, the
    inferred type is INTEGER when every value lies in the signed 32-bit
    range [-2147483648, 2147483647] and BIGINT otherwise, under either
    pandas rule, and the column is marked NOT NULL.  In particular the
    column of the cells 1, 2, 3, which pandas reads as the int64 column
    1, 2, 3, is INTEGER and NOT NULL.  (A column without any value is
    TEXT by the first rule of the inferencer, whatever its dtype.) *)
Theorem integer_column_type :
  forall (rule : string_rule) (xs : list Z),
    xs <> [] ->
    infer_postgres_type rule (Int64 xs)
      = (if forallb fits_int32 xs then "INTEGER" else "BIGINT")
    /\ nullable (Int64 xs) = "NOT NULL"
    /\ infer_postgres_type rule (Int64 [1; 2; 3]%Z) = "INTEGER"
    /\ nullable (Int64 [1; 2; 3]%Z) = "NOT NULL".
Proof.
  intros rule xs Ne. destruct xs as [|x xs]; [contradiction|].
  repeat split.
  unfold infer_postgres_type.
  cbn [dropna len length Nat.eqb is_integer_dtype series_max series_min].
  rewrite range_check. reflexivity.
Qed.

Lemma integer_column_type_witness :
  infer_postgres_type ByElements (Int64 [7; -2147483649]%Z) = "BIGINT"
  /\ infer_postgres_type ByDtype (Int64 [2147483647; 0]%Z) = "INTEGER".
Proof.
  split.
  - apply (integer_column_type ByElements [7; -2147483649]%Z). discriminate.
  - apply (integer_column_type ByDtype [2147483647; 0]%Z). discriminate.
Defined.

(** C2, as stated, fails where pandas decides [is_string_dtype] of an
    object column by its elements (2.x): the text column of the values
    "x" and null is a string-like column whose longest value has one
    character, and its type is TEXT, not VARCHAR(max(255, 1)). *)
Lemma null_in_text_column_counterexample :
  len (dropna (Object [VStr "x"; VNone])) = 1%nat
  /\ str_len_max (dropna (Object [VStr "x"; VNone])) = 1%Z
  /\ infer_postgres_type ByElements (Object [VStr "x"; VNone]) = "TEXT"
  /\ infer_postgres_type ByElements (Object [VStr "x"; VNone])
     <> "VARCHAR(" ++ str_of_Z (Z.max 255 1) ++ ")"
  /\ infer_postgres_type ByDtype (Object [VStr "x"; VNone])
     = "VARCHAR(" ++ str_of_Z (Z.max 255 1) ++ ")".
Proof.
  split; [reflexivity|]. split; [reflexivity|]. split; [reflexivity|].
  split; [discriminate|reflexivity].
Qed.

(** C2, amended.  For every string-like column (a column of the object
    dtype) that holds a value, [longest] being the length of its longest
    value: where pandas takes the column for a string column, which is
    always so under the dtype rule and is so under the element rule
    when every element is a string, the inferred type is
    VARCHAR(max(255, longest)), that is VARCHAR(255), when [longest] is
    at most 255, and TEXT when it is more; under the element rule a
    column that holds a null or another value that is no string is TEXT
    whatever the lengths.  So a longest value of more than 255
    characters gives TEXT in every case.  The longest length bounds the
    length of every value and is the length of one of them.  A column of
    one 300-character string is TEXT. *)
Theorem string_column_type :
  forall (rule : string_rule) (xs : list pyval),
    len (dropna (Object xs)) <> 0%nat ->
    let series := Object xs in
    let longest := str_len_max (dropna series) in
    infer_postgres_type rule series
      = (if is_string_dtype rule series
         then if (longest <=? 255)%Z
              then "VARCHAR(" ++ str_of_Z (Z.max 255 longest) ++ ")"
              else "TEXT"
         else "TEXT")
    /\ (is_string_dtype rule series = true -> (longest <= 255)%Z ->
        infer_postgres_type rule series = "VARCHAR(255)")
    /\ ((255 < longest)%Z -> infer_postgres_type rule series = "TEXT")
    /\ (is_string_dtype rule series = false ->
        infer_postgres_type rule series = "TEXT")
    /\ is_string_dtype ByDtype series = true
    /\ (is_string_dtype ByElements series = true
        <-> Forall (fun v => exists s, v = VStr s) xs)
    /\ Forall (fun v => (Z.of_nat (String.length (str v)) <= longest)%Z)
              (to_objects (dropna series))
    /\ Exists (fun v => Z.of_nat (String.length (str v)) = longest)
              (to_objects (dropna series))
    /\ infer_postgres_type rule (Object [VStr text300]) = "TEXT".
Proof.
  intros rule xs Ne series longest.
  assert (I : infer_postgres_type rule series
              = (if is_string_dtype rule series
                 then if (longest <=? 255)%Z
                      then "VARCHAR(" ++ str_of_Z (Z.max 255 longest) ++ ")"
                      else "TEXT"
                 else "TEXT")).
  { unfold infer_postgres_type. fold series.
    apply Nat.eqb_neq in Ne. unfold series at 1. rewrite Ne. reflexivity. }
  split; [exact I|].
  split; [|split; [|split; [|split; [|split; [|split; [|split]]]]]].
  - intros S L. rewrite I, S.
    replace (longest <=? 255)%Z with true by (symmetry; apply Z.leb_le, L).
    rewrite Z.max_l by exact L. reflexivity.
  - intros L. rewrite I.
    replace (longest <=? 255)%Z with false by (symmetry; apply Z.leb_gt, L).
    destruct (is_string_dtype rule series); reflexivity.
  - intros S. rewrite I, S. reflexivity.
  - reflexivity.
  - cbn [is_string_dtype series]. rewrite forallb_forall, Forall_forall.
    split; intros H v Iv; specialize (H v Iv).
    + destruct v; try discriminate. eexists; reflexivity.
    + destruct H as (s & ->). reflexivity.
  - apply Forall_forall. intros v Iv.
    unfold longest, str_len_max.
    set (f := fun v => Z.of_nat (String.length (str v))).
    destruct (to_objects (dropna series)) as [|y ys] eqn:E;
      [contradiction|].
    cbn [map]. unfold list_max; cbn [fold_left].
    change (f v <= list_max (Z.max 0 (f y)) (map f ys))%Z.
    destruct Iv as [<-|Iv].
    + pose proof (list_max_bound (Z.max 0 (f y)) (map f ys) _
                    (or_introl eq_refl)). lia.
    + apply list_max_bound. right. apply in_map, Iv.
  - apply Exists_exists.
    unfold longest, str_len_max.
    set (f := fun v => Z.of_nat (String.length (str v))).
    destruct (to_objects (dropna series)) as [|y ys] eqn:E.
    { exfalso. apply Ne. unfold series in E. simpl in E |- *.
      rewrite E. reflexivity. }
    cbn [map]. unfold list_max; cbn [fold_left].
    change (exists v, In v (y :: ys)
                      /\ f v = list_max (Z.max 0 (f y)) (map f ys)).
    destruct (list_max_attained (Z.max 0 (f y)) (map f ys)) as [A|A].
    + exists y. split; [left; reflexivity|].
      rewrite <- A. unfold f. lia.
    + apply in_map_iff in A as (v & Ev & Iv).
      exists v. split; [right; exact Iv|exact Ev].
  - destruct rule; vm_compute; reflexivity.
Qed.

Lemma string_column_type_witness :
  infer_postgres_type ByElements (Object [VStr "ab"; VStr "abc"])
  = "VARCHAR(255)"
  /\ infer_postgres_type ByDtype (Object [VStr "ab"; VNone])
     = "VARCHAR(255)"
  /\ infer_postgres_type ByElements (Object [VStr "ab"; VNone]) = "TEXT".
Proof.
  split; [|split].
  - destruct (string_column_type ByElements [VStr "ab"; VStr "abc"])
      as (_ & H & _); [discriminate|].
    apply H; [reflexivity|]. vm_compute. discriminate.
  - destruct (string_column_type ByDtype [VStr "ab"; VNone])
      as (_ & H & _); [discriminate|].
    apply H; [reflexivity|]. vm_compute. discriminate.
  - destruct (string_column_type ByElements [VStr "ab"; VNone])
      as (_ & _ & _ & H & _); [discriminate|].
    apply H. reflexivity.
Defined.

(* ------------------------------------------------------------------ *)
(** ** CSV to SQL: a table of three rows *)

Module CsvFacts.
Import PyStr PyFloat PyVal Pandas Inferencer Sanitizer CsvToSql Spec.

Lemma int_type_cases rule xs :
  infer_postgres_type rule (Int64 xs) = "TEXT"
  \/ infer_postgres_type rule (Int64 xs) = "INTEGER"
  \/ infer_postgres_type rule (Int64 xs) = "BIGINT".
Proof.
  unfold infer_postgres_type.
  destruct (len (dropna (Int64 xs)) =? 0)%nat; [auto|].
  cbn [is_integer_dtype]. destruct (_ && _); auto.
Qed.

Lemma null_cases null :
  missing null = true ->
  null = VNone \/ null = VNaT \/ null = VFloat Fnan.
Proof.
  destruct null as [| |b|b|n|x|s|d|d]; try discriminate; auto.
  destruct x; try discriminate; auto.
Qed.

Lemma name_type_eq rule k null a b :
  missing null = true ->
  infer_postgres_type rule (Object (with_null k null a b))
  = name_column_type rule a b.
Proof.
  intros M.
  assert (D : dropna (Object (with_null k null a b))
              = Object [VStr a; VStr b]).
  { destruct (null_cases null M) as [->|[->| ->]];
      destruct k as [|[|k]]; reflexivity. }
  assert (S : is_string_dtype ByElements (Object (with_null k null a b))
              = false).
  { destruct (null_cases null M) as [->|[->| ->]];
      destruct k as [|[|k]]; reflexivity. }
  unfold infer_postgres_type. rewrite D.
  cbn [len length Nat.eqb is_integer_dtype is_float_dtype is_bool_dtype
       is_datetime64_any_dtype].
  destruct rule; [|rewrite S; reflexivity].
  cbn [is_string_dtype name_column_type].
  unfold str_len_max, list_max. cbn [to_objects map fold_left str].
  set (la := String.length a). set (lb := String.length b).
  destruct (Nat.leb_spec la 255) as [A|A];
    destruct (Nat.leb_spec lb 255) as [B|B]; cbn [andb].
  - replace (_ <=? 255)%Z with true by (symmetry; apply Z.leb_le; lia).
    rewrite Z.max_l by lia. reflexivity.
  - replace (_ <=? 255)%Z with false by (symmetry; apply Z.leb_gt; lia).
    reflexivity.
  - replace (_ <=? 255)%Z with false by (symmetry; apply Z.leb_gt; lia).
    reflexivity.
  - replace (_ <=? 255)%Z with false by (symmetry; apply Z.leb_gt; lia).
    reflexivity.
Qed.

End CsvFacts.

Import PyStr PyFloat PyVal Pandas Inferencer Sanitizer CsvToSql Spec CsvFacts.

(** C6, as stated, fails where pandas takes every object column for a
    string column (before 2.0, and for the text columns of pandas 3):
    for the ids 1, 2, 3 and the names a, null, c the CREATE TABLE
    statement declares the name column as VARCHAR(255) NULL, not as TEXT
    NULL. *)
Lemma short_names_counterexample :
  exists lines : list string,
    csv_to_sql ByDtype "people.csv" "people" (mk_datetime 2024 1 2 3 4 5 0)
               (table_of [1; 2; 3]%Z [VStr "a"; VFloat Fnan; VStr "c"])
               EmptyString = Some lines
    /\ In "    name VARCHAR(255) NULL" lines
    /\ ~ In "    name TEXT NULL" lines.
Proof.
  eexists. split; [vm_compute; reflexivity|]. split.
  - do 5 right. left. reflexivity.
  - intros H. repeat (destruct H as [H|H]; [discriminate|]). exact H.
Qed.

(** C6, amended.  A table of three rows with the integer column [id]
    and the text column [name], one name being null, gives these lines:
    the heading, the CREATE TABLE statement with the line of [id] and
    the line of [name], the column comments, and exactly three INSERT
    statements, one per row in row order, whose name is NULL or the text
    in single quotes.  The name column is declared NULL, and its type is
    TEXT where pandas decides [is_string_dtype] by the elements (2.x) or
    a name is longer than 255 characters, and VARCHAR(255) where pandas
    decides it by the dtype and no name is longer. *)
Theorem csv_three_rows_one_null :
  forall (rule : string_rule) (csv_name csv_stem prefix : string)
         (now : datetime) (i1 i2 i3 : Z) (k : nat) (null : pyval)
         (a b : string),
    missing null = true ->
    let names := with_null k null a b in
    let t := table_name_of csv_stem prefix in
    let id_type := infer_postgres_type rule (Int64 [i1; i2; i3]) in
    exists lines : list string,
      csv_to_sql rule csv_name csv_stem now (table_of [i1; i2; i3] names)
                 prefix = Some lines
      /\ lines =
         [ "-- Tabela gerada a partir de: " ++ csv_name ++ nl;
           "-- Gerado em: " ++ strftime_ymd_hms now ++ nl;
           nl;
           "CREATE TABLE IF NOT EXISTS " ++ t ++ " (" ++ nl;
           "    id " ++ id_type ++ " NOT NULL";
           "    name " ++ name_column_type rule a b ++ " NULL";
           nl ++ ");" ++ nl ++ nl;
           "-- Coment" ++ a_acute ++ "rios sobre as colunas:" ++ nl;
           "COMMENT ON COLUMN " ++ t ++ ".id IS 'id';" ++ nl;
           "COMMENT ON COLUMN " ++ t ++ ".name IS 'name';" ++ nl;
           nl;
           "-- Dados da tabela:" ++ nl;
           insert_stmt t i1 (nth 0 names VNone);
           insert_stmt t i2 (nth 1 names VNone);
           insert_stmt t i3 (nth 2 names VNone) ]
      /\ filter is_insert lines =
         [ insert_stmt t i1 (nth 0 names VNone);
           insert_stmt t i2 (nth 1 names VNone);
           insert_stmt t i3 (nth 2 names VNone) ].
Proof.
  intros rule csv_name csv_stem prefix now i1 i2 i3 k null a b M
         names t id_type.
  eexists. split; [|split; [reflexivity|]].
  2: { unfold is_insert, insert_stmt. reflexivity. }
  pose proof (name_type_eq rule k null a b M) as E2. fold names in E2.
  assert (Hnt : name_column_type rule a b = "TEXT"
                \/ name_column_type rule a b = "VARCHAR(255)").
  { unfold name_column_type. destruct rule; [|auto].
    destruct (_ && _); auto. }
  assert (Hid : id_type = "INTEGER" \/ id_type = "BIGINT").
  { destruct (int_type_cases rule [i1; i2; i3]) as [H|H]; [|exact H].
    exfalso. revert H. unfold infer_postgres_type.
    cbn [dropna len length Nat.eqb is_integer_dtype].
    destruct (_ && _); discriminate. }
  unfold csv_to_sql, table_of.
  cbv beta iota zeta delta [length Nat.eqb map column_entry fst snd].
  assert (DE : df_empty [("id", Int64 [i1; i2; i3]); ("name", Object names)]
               = false) by reflexivity.
  rewrite DE, E2. fold id_type.
  assert (L : df_len [("id", Int64 [i1; i2; i3]); ("name", Object names)]
              = 3%nat) by reflexivity.
  rewrite L.
  change (sanitize_name "id") with "id".
  change (sanitize_name "name") with "name".
  assert (N : nullable (Object names) = "NULL").
  { unfold names. destruct (null_cases null M) as [->|[->| ->]];
      destruct k as [|[|k]]; reflexivity. }
  rewrite N.
  change (nullable (Int64 [i1; i2; i3])) with "NOT NULL".
  fold (table_name_of csv_stem prefix). fold t.
  generalize dependent t. intros t.
  unfold names.
  destruct Hid as [-> | ->]; destruct Hnt as [-> | ->];
    destruct (null_cases null M) as [->|[->| ->]];
    destruct k as [|[|k]]; reflexivity.
Qed.

Lemma csv_three_rows_one_null_witness :
  exists lines : list string,
    csv_to_sql ByElements "people.csv" "people"
               (mk_datetime 2024 1 2 3 4 5 0)
               (table_of [1; 2; 3]%Z (with_null 1 (VFloat Fnan) "a" "c"))
               EmptyString = Some lines
    /\ In "    name TEXT NULL" lines
    /\ length (filter is_insert lines) = 3.
Proof.
  destruct (csv_three_rows_one_null ByElements "people.csv" "people"
              EmptyString (mk_datetime 2024 1 2 3 4 5 0) 1 2 3 1
              (VFloat Fnan) "a" "c" eq_refl) as (lines & E & L & F).
  exists lines. split; [exact E|]. split.
  - rewrite L. do 5 right. left. reflexivity.
  - rewrite F. reflexivity.
Defined.

(* ------------------------------------------------------------------ *)
(** ** Schema Extractor: fault tolerance of the fetchers *)

Section FetcherFacts.
Import SchemaExtractor.

Variable world : Type.
Variable conn_closed : world -> bool.
Variable conn_cursor : world -> world * result unit.
Variable cur_execute : query -> list PyVal.pyval -> world -> world * result unit.
Variable cur_fetchall : world -> world * result (list row).
Variable cur_closed : world -> bool.
Variable cur_close : world -> world.

Let colunas := obter_colunas world conn_closed conn_cursor cur_execute
                             cur_fetchall cur_close.
Let colunas_body := colunas_try world conn_closed conn_cursor cur_execute
                                cur_fetchall cur_close.
Let constr := obter_constraints world conn_closed conn_cursor cur_execute
                                cur_fetchall cur_close.
Let constr_body := constraints_try world conn_closed conn_cursor cur_execute
                                   cur_fetchall cur_close.
Let indices := obter_indices world conn_closed conn_cursor cur_execute
                             cur_fetchall cur_closed cur_close.
Let indices_body := indices_try world conn_closed conn_cursor cur_execute
                                cur_fetchall.

(** A [try] block whose handler returns [dflt]: the call returns, with
    what the block returned or with [dflt] when the block raised. *)
Lemma try_catch_returns (A : Type) (body : M world A) (dflt : A) (w : world) :
  exists w' a,
    try_catch world body (ret world dflt) w = (w', Ok a)
    /\ (forall w1 e, body w = (w1, Raise e) -> a = dflt /\ w' = w1)
    /\ (forall w1 b, body w = (w1, Ok b) -> a = b /\ w' = w1).
Proof.
  unfold try_catch, ret. destruct (body w) as [w1 [b|e]].
  - exists w1, b. repeat split; congruence.
  - exists w1, dflt. repeat split; congruence.
Qed.

(** [obter_indices] returns what its [try] block returns and the empty
    list when the block raises. *)
Lemma indices_returns schema tabela w :
  exists w' rows,
    indices schema tabela w = (w', Ok rows)
    /\ (forall w1 e, indices_body schema tabela w = (w1, Raise e) ->
        rows = [])
    /\ (forall w1 b, indices_body schema tabela w = (w1, Ok b) ->
        rows = b).
Proof.
  unfold indices, indices_body, obter_indices, indices_try, try_catch, bind,
    ret.
  destruct (conn_closed w).
  { exists w, []. repeat split; congruence. }
  destruct (conn_cursor w) as [w1 [[]|e]].
  - destruct (indices_query world cur_execute cur_fetchall schema tabela w1)
      as [w2 [rows|e]].
    + eexists _, rows. repeat split; congruence.
    + eexists _, []. repeat split; congruence.
  - exists w1, []. repeat split; congruence.
Qed.

(** C5. Every fetch of the schema extraction tolerates its own
    failure.  For every schema, table and state of the connection, the
    column fetch, the constraint fetch and the index fetch each return
    (none raises); each returns its empty result (the empty list, or the
    dictionary of three empty lists) without a query when the connection
    is found closed, and whenever its [try] block raises, as when the
    cursor cannot be opened, the query fails or the rows cannot be
    fetched; and the three fetches run one after the other return too,
    whatever happened in each. *)
Theorem fetchers_fault_tolerant :
  forall (schema tabela : string) (w : world),
    (exists w' rows,
        colunas schema tabela w = (w', Ok rows)
        /\ (conn_closed w = true -> rows = [] /\ w' = w)
        /\ (forall w1 e,
              colunas_body schema tabela w = (w1, Raise e) -> rows = [])
        /\ (forall w1 w2 e,
              conn_closed w = false -> conn_cursor w = (w1, Ok tt) ->
              cur_execute query_columns
                          [PyVal.VStr schema; PyVal.VStr tabela] w1
                = (w2, Raise e) ->
              rows = [] /\ w' = w2))
    /\ (exists w' cs,
          constr schema tabela w = (w', Ok cs)
          /\ (conn_closed w = true -> cs = no_constraints /\ w' = w)
          /\ (forall w1 e,
                constr_body schema tabela w = (w1, Raise e) ->
                cs = no_constraints)
          /\ (forall w1 w2 e,
                conn_closed w = false -> conn_cursor w = (w1, Ok tt) ->
                cur_execute query_pk
                            [PyVal.VStr schema; PyVal.VStr tabela] w1
                  = (w2, Raise e) ->
                cs = no_constraints /\ w' = w2))
    /\ (exists w' rows,
          indices schema tabela w = (w', Ok rows)
          /\ (conn_closed w = true -> rows = [] /\ w' = w)
          /\ (forall w1 e,
                indices_body schema tabela w = (w1, Raise e) -> rows = [])
          /\ (forall w1 e,
                conn_closed w = false -> conn_cursor w = (w1, Raise e) ->
                rows = [] /\ w' = w1))
    /\ (exists w' r,
          bind world (colunas schema tabela)
               (fun c =>
                  bind world (constr schema tabela)
                       (fun k =>
                          bind world (indices schema tabela)
                               (fun i => ret world (c, k, i)))) w
          = (w', Ok r)).
Proof.
  intros schema tabela w.
  split; [|split; [|split]].
  - destruct (try_catch_returns _ (colunas_body schema tabela) [] w)
      as (w' & rows & E & R & O).
    exists w', rows. split; [exact E|]. split; [|split].
    + intros C. apply (O w []).
      unfold colunas_body, colunas_try. rewrite C. reflexivity.
    + intros w1 e B. apply (R w1 e B).
    + intros w1 w2 e C K X. apply (R w2 e).
      unfold colunas_body, colunas_try, bind. rewrite C, K, X. reflexivity.
  - destruct (try_catch_returns _ (constr_body schema tabela)
                                no_constraints w)
      as (w' & cs & E & R & O).
    exists w', cs. split; [exact E|]. split; [|split].
    + intros C. apply (O w no_constraints).
      unfold constr_body, constraints_try. rewrite C. reflexivity.
    + intros w1 e B. apply (R w1 e B).
    + intros w1 w2 e C K X. apply (R w2 e).
      unfold constr_body, constraints_try, bind. rewrite C, K, X.
      reflexivity.
  - destruct (indices_returns schema tabela w) as (w' & rows & E & R & O).
    exists w', rows. split; [exact E|]. split; [|split].
    + intros C. revert E. unfold indices, obter_indices. rewrite C.
      intros E. inversion E. split; reflexivity.
    + intros w1 e B. apply (R w1 e B).
    + intros w1 e C K. revert E. unfold indices, obter_indices.
      rewrite C, K. intros E. inversion E. split; reflexivity.
  - unfold bind.
    destruct (try_catch_returns _ (colunas_body schema tabela) [] w)
      as (w1 & c & E1 & _).
    change (colunas schema tabela w = (w1, Ok c)) in E1. rewrite E1.
    destruct (try_catch_returns _ (constr_body schema tabela)
                                no_constraints w1)
      as (w2 & k & E2 & _).
    change (constr schema tabela w1 = (w2, Ok k)) in E2. rewrite E2.
    destruct (indices_returns schema tabela w2) as (w3 & i & E3 & _).
    rewrite E3. eexists _, _. reflexivity.
Qed.

End FetcherFacts.

(* ================================================================== *)
(** * Properties of the further parts *)

(* ------------------------------------------------------------------ *)
(** ** Name Sanitizer: names that collide *)

Module CollisionFacts.
Import PyStr Sanitizer Spec SanitizerFacts.



Lemma lower_sep c : sep_class c = true -> lower_char c = c.
Proof. by_char c. Qed.







Lemma delete_app a b :
  re_sub_delete keep_class (a ++ b)
  = re_sub_delete keep_class a ++ re_sub_delete keep_class b.
Proof.
  induction a as [|c a IH]; [reflexivity|].
  simpl. destruct (keep_class c); simpl; rewrite IH; reflexivity.
Qed.

Lemma sep_keep c : sep_class c = true -> keep_class c = true.
Proof. by_char c. Qed.

Lemma runs_swap c d x y : forall b,
  sep_class c = true -> sep_class d = true ->
  re_sub_runs sep_class "_" b (x ++ String c y)
  = re_sub_runs sep_class "_" b (x ++ String d y).
Proof.
  induction x as [|e x IH]; intros b C D.
  - simpl. rewrite C, D. reflexivity.
  - simpl. destruct (sep_class e); [destruct b|]; rewrite IH; auto.
Qed.

Lemma runs_twice c d x y : forall b,
  sep_class c = true -> sep_class d = true ->
  re_sub_runs sep_class "_" b (x ++ String c (String d y))
  = re_sub_runs sep_class "_" b (x ++ String c y).
Proof.
  induction x as [|e x IH]; intros b C D.
  - simpl. rewrite C, D. destruct b; reflexivity.
  - simpl. destruct (sep_class e); [destruct b|]; rewrite IH; auto.
Qed.

End CollisionFacts.

Import PyStr Sanitizer Spec CollisionFacts.



(** X2. Names that differ by a character outside [a-zA-Z0-9\s_], by the
    choice of a white-space character or underscore as separator, or by
    the number of separators in a run, get the same sanitized name. *)
Theorem sanitize_name_collisions :
  (forall (a b : string) (c : ascii),
      keep_class c = false ->
      sanitize_name (a ++ String c b) = sanitize_name (a ++ b))
  /\ (forall (a b : string) (c d : ascii),
        sep_class c = true -> sep_class d = true ->
        sanitize_name (a ++ String c b) = sanitize_name (a ++ String d b))
  /\ (forall (a b : string) (c d : ascii),
        sep_class c = true -> sep_class d = true ->
        sanitize_name (a ++ String c (String d b))
        = sanitize_name (a ++ String c b)).
Proof.
  split; [|split].
  - intros a b c K. unfold sanitize_name, stripped.
    rewrite !delete_app. simpl. rewrite K. reflexivity.
  - intros a b c d C D. unfold sanitize_name, stripped.
    rewrite !delete_app. simpl.
    rewrite (sep_keep c C), (sep_keep d D).
    rewrite (runs_swap c d _ _ false C D). reflexivity.
  - intros a b c d C D. unfold sanitize_name, stripped.
    rewrite !delete_app. simpl.
    rewrite (sep_keep c C), (sep_keep d D).
    rewrite (runs_twice c d _ _ false C D). reflexivity.
Qed.

Lemma sanitize_name_collisions_witness :
  sanitize_name "a-b" = sanitize_name "ab"
  /\ sanitize_name "a b" = sanitize_name "a_b"
  /\ sanitize_name "a  b" = sanitize_name "a b".
Proof.
  destruct sanitize_name_collisions as (A & B & C).
  split; [|split].
  - apply (A "a" "b" "-"%char). reflexivity.
  - apply (B "a" "b" " "%char "_"%char); reflexivity.
  - apply (C "a" "b" " "%char " "%char); reflexivity.
Defined.

(* ------------------------------------------------------------------ *)
(** ** Delimiter detection *)

Module DelimiterFacts.
Import PyStr Delimiter SqlReader.

(** [max_key] returns a key of the greatest value, and the first such
    key. *)
Lemma max_key_spec (f : ascii -> nat) (keys : list ascii) : forall best,
  let r := max_key f best keys in
  In r (best :: keys)
  /\ (forall k, In k (best :: keys) -> f k <= f r)
  /\ (r = best \/ f best < f r).
Proof.
  induction keys as [|k keys IH]; intros best; cbn [max_key].
  - split; [left; reflexivity|]. split; [|left; reflexivity].
    intros k [<-|[]]. lia.
  - destruct (Nat.ltb_spec (f best) (f k)) as [L|L].
    + destruct (IH k) as (I & M & F). split; [right; exact I|].
      split.
      * intros x [<-|X]; [|apply M, X].
        specialize (M k (or_introl eq_refl)). lia.
      * right. specialize (M k (or_introl eq_refl)). lia.
    + destruct (IH best) as (I & M & F). split.
      * destruct I as [I|I]; [left; exact I|right; right; exact I].
      * split; [|exact F].
        intros x [<-|[<-|X]].
        -- apply M. left; reflexivity.
        -- specialize (M best (or_introl eq_refl)). lia.
        -- apply M. right; exact X.
Qed.

(** No key before the result has a value as great. *)
Lemma max_key_first (f : ascii -> nat) (keys : list ascii) : forall best k,
  (position k (best :: keys)
   < position (max_key f best keys) (best :: keys))%nat ->
  f k < f (max_key f best keys).
Proof.
  induction keys as [|x keys IH]; intros best k.
  - cbn [max_key position]. rewrite Ascii.eqb_refl. lia.
  - cbn [max_key]. destruct (Nat.ltb_spec (f best) (f x)) as [L|L].
    + destruct (max_key_spec f keys x) as (_ & M & _).
      cbn [position].
      destruct (Ascii.eqb best k) eqn:Ek.
      * apply Ascii.eqb_eq in Ek. subst k. intros _.
        specialize (M x (or_introl eq_refl)). lia.
      * destruct (Ascii.eqb best (max_key f x keys)) eqn:Em; [lia|].
        intros P. apply IH. cbn [position]. lia.
    + destruct (max_key_spec f keys best) as (_ & _ & F).
      cbn [position].
      destruct (Ascii.eqb best k) eqn:Ek.
      * destruct (Ascii.eqb best (max_key f best keys)) eqn:Em; [lia|].
        apply Ascii.eqb_eq in Ek. subst k. intros _.
        destruct F as [F|F]; [|exact F].
        rewrite F, Ascii.eqb_refl in Em. discriminate.
      * destruct (Ascii.eqb best (max_key f best keys)) eqn:Em; [lia|].
        intros P.
        destruct (Ascii.eqb x k) eqn:Exk.
        -- apply Ascii.eqb_eq in Exk. subst k.
           destruct F as [F|F];
             [rewrite F, Ascii.eqb_refl in Em; discriminate|lia].
        -- destruct (Ascii.eqb x (max_key f best keys)) eqn:Exm; [lia|].
           assert (Q : (position k (best :: keys)
                        < position (max_key f best keys) (best :: keys))%nat).
           { cbn [position]. rewrite Ek, Em. lia. }
           apply (IH best k Q).
Qed.

End DelimiterFacts.

Import PyStr Delimiter SqlReader DelimiterFacts.

(** X3. The delimiter detected is one of [;], [,], TAB and [|].  When
    one of them occurs in the first line it is the most frequent one,
    and of several most frequent ones the first in that order; when none
    occurs, or the file cannot be read, it is the comma. *)
Theorem detectar_delimitador_most_frequent :
  (forall linha : string,
      let d := detectar_delimitador (Ok linha) in
      In d delimitadores
      /\ (forall k, In k delimitadores -> count k linha <= count d linha)
      /\ ((forall k, In k delimitadores -> count k linha = 0) ->
          d = ","%char)
      /\ ((exists k, In k delimitadores /\ 0 < count k linha) ->
          0 < count d linha
          /\ forall k,
              position k delimitadores < position d delimitadores ->
              count k linha < count d linha))
  /\ (forall e : exn, detectar_delimitador (Raise e) = ","%char).
Proof.
  split; [|reflexivity].
  intros linha d. subst d. unfold detectar_delimitador.
  change delimitadores with (";"%char :: [","; tab; "|"]%char).
  cbv iota beta.
  set (f := fun d => count d linha).
  set (keys := [","; tab; "|"]%char).
  destruct (max_key_spec f keys ";"%char) as (I & M & _).
  pose proof (max_key_first f keys ";"%char) as Fst.
  set (r := max_key f ";"%char keys) in *.
  change (count r linha) with (f r).
  destruct (Nat.eqb_spec (f r) 0) as [Z|NZ].
  - assert (A : forall k, In k (";"%char :: keys) -> f k = 0).
    { intros k K. specialize (M k K). lia. }
    split; [right; left; reflexivity|].
    split; [intros k K; specialize (A k K); unfold f in A; lia|].
    split; [reflexivity|].
    intros (k & K & P). specialize (A k K). unfold f in A. lia.
  - split; [exact I|]. split; [exact M|]. split.
    + intros A. exfalso. apply NZ. exact (A r I).
    + intros _. split; [unfold f in NZ; cbv beta in NZ; lia|].
      intros k P. apply Fst, P.
Qed.

(* ------------------------------------------------------------------ *)
(** ** The batch loop *)

Module BatchFacts.
Import Batches.

Lemma range_rows size total : (0 < size)%nat -> forall fuel start,
  (total - start <= fuel)%nat ->
  flat_map
    (fun batch_start =>
       iloc total batch_start (Nat.min (batch_start + size) total))
    (range_from fuel start total size)
  = seq start (total - start).
Proof.
  intros P. induction fuel as [|fuel IH]; intros start F.
  - replace (total - start)%nat with 0%nat by lia. reflexivity.
  - cbn [range_from]. destruct (Nat.ltb_spec start total) as [L|L].
    + cbn [flat_map]. rewrite IH by lia. unfold iloc.
      destruct (Nat.le_gt_cases (start + size) total) as [A|A].
      * replace (Nat.min (Nat.min (start + size) total) total - start)%nat
          with size by lia.
        replace (total - start)%nat with (size + (total - (start + size)))%nat
          by lia.
        rewrite seq_app. reflexivity.
      * replace (Nat.min (Nat.min (start + size) total) total - start)%nat
          with (total - start)%nat by lia.
        replace (total - (start + size))%nat with 0%nat by lia.
        cbn [seq]. rewrite app_nil_r. reflexivity.
    + replace (total - start)%nat with 0%nat by lia. reflexivity.
Qed.

Lemma batch_rows_seq size total :
  (0 < size)%nat -> batch_rows size total = seq 0 total.
Proof.
  intros P. unfold batch_rows, range.
  rewrite (range_rows size total P total 0) by lia.
  rewrite Nat.sub_0_r. reflexivity.
Qed.

End BatchFacts.

Import Batches BatchFacts.

(** X4. The batch loop of the table emitters visits every row of the
    frame exactly once, in the order of the frame, whatever the size of
    the batches: batching loses, repeats and reorders nothing. *)
Theorem batch_loop_visits_each_row_once :
  forall size total_rows : nat,
    (0 < size)%nat ->
    batch_rows size total_rows = seq 0 total_rows
    /\ NoDup (batch_rows size total_rows)
    /\ (forall i, In i (batch_rows size total_rows) <-> (i < total_rows)%nat)
    /\ length (batch_rows batch_size total_rows) = total_rows.
Proof.
  intros size total P. rewrite (batch_rows_seq size total P).
  split; [reflexivity|]. split; [apply seq_NoDup|]. split.
  - intros i. rewrite in_seq. lia.
  - rewrite batch_rows_seq by (unfold batch_size; lia). apply length_seq.
Qed.

Lemma batch_loop_visits_each_row_once_witness :
  batch_rows 1000 2500 = seq 0 2500
  /\ NoDup (batch_rows 1000 2500)
  /\ (forall i, In i (batch_rows 1000 2500) <-> (i < 2500)%nat)
  /\ length (batch_rows batch_size 2500) = 2500%nat.
Proof.
  apply (batch_loop_visits_each_row_once 1000 2500). lia.
Defined.

(* ------------------------------------------------------------------ *)
(** ** Type Inferencer: the results and what they depend on *)

Module InferenceFacts.
Import PyStr PyFloat PyVal Pandas Inferencer Spec InferencerFacts Reorder.

(** The result by dtype. *)
Lemma infer_int rule xs :
  infer_postgres_type rule (Int64 xs) =
  match xs with
  | [] => "TEXT"
  | _ => if forallb fits_int32 xs then "INTEGER" else "BIGINT"
  end.
Proof.
  destruct xs as [|x xs]; [reflexivity|].
  unfold infer_postgres_type.
  cbn [dropna len length Nat.eqb is_integer_dtype series_max series_min].
  rewrite range_check. reflexivity.
Qed.

Lemma infer_float rule xs :
  infer_postgres_type rule (Float64 xs) =
  if forallb is_nan xs then "TEXT" else "NUMERIC".
Proof.
  unfold infer_postgres_type. cbn [dropna len is_integer_dtype is_float_dtype].
  induction xs as [|x xs IH]; [reflexivity|].
  cbn [filter forallb]. destruct (is_nan x); cbn [negb andb length Nat.eqb].
  - exact IH.
  - reflexivity.
Qed.

Lemma infer_bool rule xs :
  infer_postgres_type rule (Bool xs) =
  match xs with [] => "TEXT" | _ => "BOOLEAN" end.
Proof. destruct xs; reflexivity. Qed.

Lemma infer_datetime rule xs :
  infer_postgres_type rule (Datetime64 xs) =
  if forallb (fun o => negb (is_some o)) xs then "TEXT" else "TIMESTAMP".
Proof.
  unfold infer_postgres_type.
  cbn [dropna len is_integer_dtype is_float_dtype is_bool_dtype
       is_datetime64_any_dtype].
  induction xs as [|x xs IH]; [reflexivity|].
  cbn [filter forallb]. destruct (is_some x); cbn [negb andb length Nat.eqb].
  - reflexivity.
  - exact IH.
Qed.

Lemma infer_object rule xs :
  infer_postgres_type rule (Object xs) = "TEXT"
  \/ infer_postgres_type rule (Object xs) = "VARCHAR(255)".
Proof.
  unfold infer_postgres_type.
  destruct (len (dropna (Object xs)) =? 0)%nat; [left; reflexivity|].
  cbn [is_integer_dtype is_float_dtype is_bool_dtype is_datetime64_any_dtype].
  destruct (is_string_dtype rule (Object xs)); [|left; reflexivity].
  destruct (Z.leb_spec (str_len_max (dropna (Object xs))) 255) as [L|L];
    [|left; reflexivity].
  right. rewrite Z.max_l by lia. reflexivity.
Qed.

Lemma object_all_missing rule xs :
  forallb missing xs = true -> infer_postgres_type rule (Object xs) = "TEXT".
Proof.
  intros A. unfold infer_postgres_type.
  replace (dropna (Object xs)) with (Object []); [reflexivity|].
  cbn [dropna]. f_equal. induction xs as [|x xs IH]; [reflexivity|].
  cbn [forallb] in A. apply andb_true_iff in A as [M A].
  cbn [filter]. replace (isna x) with true.
  - apply IH, A.
  - unfold missing in M. destruct x as [| |b|b|n|y|s|d|d];
      try discriminate; try reflexivity.
    destruct y; try discriminate; reflexivity.
Qed.

Lemma infer_answers rule s :
  In (infer_postgres_type rule s)
     ["TEXT"; "INTEGER"; "BIGINT"; "NUMERIC"; "BOOLEAN"; "TIMESTAMP";
      "VARCHAR(255)"].
Proof.
  destruct s as [xs|xs|xs|xs|xs].
  - rewrite infer_int. destruct xs as [|x xs]; [cbn; auto|].
    destruct (forallb fits_int32 (x :: xs)); cbn; auto.
  - rewrite infer_float. destruct (forallb is_nan xs); cbn; auto.
  - rewrite infer_bool. destruct xs; cbn; auto 10.
  - rewrite infer_datetime. destruct (forallb _ xs); cbn; auto 10.
  - destruct (infer_object rule xs) as [-> | ->]; cbn; auto 10.
Qed.

(** *** Row order *)

Lemma filter_perm {A : Type} (f : A -> bool) (l l' : list A) :
  Permutation l l' -> Permutation (filter f l) (filter f l').
Proof.
  induction 1 as [|x l l' P IH|x y l|l l' l'' P IH P' IH'].
  - constructor.
  - cbn [filter]. destruct (f x); [constructor|]; exact IH.
  - cbn [filter]. destruct (f x), (f y); try reflexivity. constructor.
  - etransitivity; eassumption.
Qed.

Lemma forallb_perm {A : Type} (f : A -> bool) (l l' : list A) :
  Permutation l l' -> forallb f l = forallb f l'.
Proof.
  intros P. apply eq_true_iff_eq. rewrite !forallb_forall. split.
  - intros H x I. apply H. apply (Permutation_in x (Permutation_sym P) I).
  - intros H x I. apply H. apply (Permutation_in x P I).
Qed.

Lemma list_max_perm x (l l' : list Z) :
  Permutation l l' -> list_max x l = list_max x l'.
Proof.
  intros P.
  assert (H : forall a b : list Z, Permutation a b ->
                (list_max x a <= list_max x b)%Z).
  { intros a b Q. apply list_max_le.
    destruct (proj1 (list_max_le x b (list_max x b)) (Z.le_refl _))
      as [A F].
    split; [exact A|].
    apply (Permutation_Forall (Permutation_sym Q)), F. }
  apply Z.le_antisymm; apply H; [exact P|apply Permutation_sym, P].
Qed.

Lemma nil_perm {A : Type} (l l' : list A) :
  Permutation l l' ->
  match l with [] => True | _ => False end
  <-> match l' with [] => True | _ => False end.
Proof.
  intros P. destruct l, l'; try tauto.
  - apply Permutation_nil in P. discriminate.
  - apply Permutation_sym, Permutation_nil in P. discriminate.
Qed.

Lemma infer_reordered rule s t :
  reordered s t -> infer_postgres_type rule s = infer_postgres_type rule t.
Proof.
  intros [xs ys P|xs ys P|xs ys P|xs ys P|xs ys P].
  - rewrite !infer_int, (forallb_perm _ _ _ P).
    pose proof (nil_perm _ _ P). destruct xs, ys; tauto.
  - rewrite !infer_float, (forallb_perm _ _ _ P). reflexivity.
  - rewrite !infer_bool.
    pose proof (nil_perm _ _ P). destruct xs, ys; tauto.
  - rewrite !infer_datetime, (forallb_perm _ _ _ P). reflexivity.
  - unfold infer_postgres_type. cbn [dropna len].
    pose proof (filter_perm (fun v => negb (isna v)) _ _ P) as Q.
    rewrite (Permutation_length Q).
    destruct (length _ =? 0)%nat; [reflexivity|].
    cbn [is_integer_dtype is_float_dtype is_bool_dtype
         is_datetime64_any_dtype].
    replace (is_string_dtype rule (Object ys))
      with (is_string_dtype rule (Object xs)).
    + destruct (is_string_dtype rule (Object xs)); [|reflexivity].
      unfold str_len_max. cbn [to_objects].
      rewrite (list_max_perm 0 _ _ (Permutation_map _ Q)). reflexivity.
    + destruct rule; [reflexivity|]. cbn [is_string_dtype].
      apply forallb_perm, P.
Qed.

Lemma isna_any_reordered s t : reordered s t -> isna_any s = isna_any t.
Proof.
  assert (E : forall (A : Type) (f : A -> bool) l l',
             Permutation l l' -> existsb f l = existsb f l').
  { intros A f l l' P. apply eq_true_iff_eq. rewrite !existsb_exists.
    split; intros (x & I & H); exists x; split; try exact H.
    - apply (Permutation_in x P I).
    - apply (Permutation_in x (Permutation_sym P) I). }
  intros [xs ys P|xs ys P|xs ys P|xs ys P|xs ys P]; cbn [isna_any];
    try reflexivity; apply E, P.
Qed.

End InferenceFacts.

Import PyStr PyFloat PyVal Pandas Inferencer Spec Reorder InferenceFacts.

(** X5. The inferencer answers one of seven types, for every column
    and under either pandas rule: TEXT, INTEGER, BIGINT, NUMERIC,
    BOOLEAN, TIMESTAMP or VARCHAR(255).  It never gives a VARCHAR of
    another width; the three typed answers come from the column dtype
    alone (NUMERIC from a float column, BOOLEAN from a boolean one,
    TIMESTAMP from a datetime one). *)
Theorem infer_postgres_type_answers :
  forall (rule : string_rule) (s : Series),
    In (infer_postgres_type rule s)
       ["TEXT"; "INTEGER"; "BIGINT"; "NUMERIC"; "BOOLEAN"; "TIMESTAMP";
        "VARCHAR(255)"]
    /\ (infer_postgres_type rule s = "INTEGER"
        \/ infer_postgres_type rule s = "BIGINT" ->
        is_integer_dtype s = true)
    /\ (infer_postgres_type rule s = "NUMERIC" -> is_float_dtype s = true)
    /\ (infer_postgres_type rule s = "BOOLEAN" -> is_bool_dtype s = true)
    /\ (infer_postgres_type rule s = "TIMESTAMP" ->
        is_datetime64_any_dtype s = true)
    /\ (infer_postgres_type rule s = "VARCHAR(255)" ->
        is_string_dtype rule s = true).
Proof.
  intros rule s. destruct s as [xs|xs|xs|xs|xs].
  - rewrite infer_int. destruct xs as [|x xs].
    + cbn; intuition congruence.
    + destruct (forallb fits_int32 (x :: xs)); cbn; intuition congruence.
  - rewrite infer_float. destruct (forallb is_nan xs);
      cbn; intuition congruence.
  - rewrite infer_bool. destruct xs; cbn; intuition congruence.
  - rewrite infer_datetime. destruct (forallb _ xs);
      cbn; intuition congruence.
  - assert (V : infer_postgres_type rule (Object xs) = "VARCHAR(255)" ->
                is_string_dtype rule (Object xs) = true).
    { unfold infer_postgres_type.
      destruct (len (dropna (Object xs)) =? 0)%nat; [discriminate|].
      cbn [is_integer_dtype is_float_dtype is_bool_dtype
           is_datetime64_any_dtype].
      destruct (is_string_dtype rule (Object xs)); [reflexivity|].
      discriminate. }
    destruct (infer_object rule xs) as [E|E]; rewrite E in *;
      cbn; intuition congruence.
Qed.

(** X6. A column without a value (no row, or only missing values such
    as NaN, NaT and None) is typed TEXT whatever its dtype; a column of
    the integer, float, boolean or datetime dtype is typed TEXT in that
    case only. *)
Theorem column_without_values_is_text :
  forall (rule : string_rule) (s : Series),
    (forallb missing (to_objects s) = true ->
     infer_postgres_type rule s = "TEXT")
    /\ (is_string_dtype ByDtype s = false ->
        infer_postgres_type rule s = "TEXT" ->
        forallb missing (to_objects s) = true).
Proof.
  intros rule s. destruct s as [xs|xs|xs|xs|xs]; cbn [to_objects].
  - rewrite infer_int. destruct xs as [|x xs].
    + split; reflexivity.
    + split; [discriminate|].
      destruct (forallb fits_int32 (x :: xs)); discriminate.
  - rewrite infer_float.
    replace (forallb missing (map VFloat xs)) with (forallb is_nan xs).
    + destruct (forallb is_nan xs); split; congruence.
    + induction xs as [|x xs IH]; [reflexivity|].
      cbn [map forallb]. rewrite IH.
      unfold missing. cbn [isna is_None]. rewrite orb_false_r. reflexivity.
  - rewrite infer_bool. destruct xs as [|x xs].
    + split; reflexivity.
    + split; discriminate.
  - rewrite infer_datetime.
    replace (forallb missing _) with (forallb (fun o => negb (is_some o)) xs).
    + destruct (forallb _ xs); split; congruence.
    + induction xs as [|x xs IH]; [reflexivity|].
      cbn [map forallb]. rewrite IH. destruct x; reflexivity.
  - split; [apply object_all_missing|discriminate].
Qed.

Lemma column_without_values_is_text_witness :
  infer_postgres_type ByElements (Float64 [Fnan; Fnan]) = "TEXT"
  /\ forallb missing (to_objects (Datetime64 [None])) = true.
Proof.
  split.
  - apply (proj1 (column_without_values_is_text ByElements
                    (Float64 [Fnan; Fnan]))).
    reflexivity.
  - apply (proj2 (column_without_values_is_text ByDtype (Datetime64 [None])));
      reflexivity.
Defined.

(** X7. The inferred type and the nullability of a column do not depend
    on the order of its rows. *)
Theorem inferred_type_ignores_row_order :
  forall (rule : string_rule) (s t : Series),
    reordered s t ->
    infer_postgres_type rule s = infer_postgres_type rule t
    /\ nullable s = nullable t.
Proof.
  intros rule s t R. split; [apply infer_reordered, R|].
  unfold nullable. rewrite (isna_any_reordered s t R). reflexivity.
Qed.

Lemma inferred_type_ignores_row_order_witness :
  infer_postgres_type ByDtype (Int64 [1; 3000000000; 2]%Z)
  = infer_postgres_type ByDtype (Int64 [3000000000; 2; 1]%Z)
  /\ nullable (Int64 [1; 3000000000; 2]%Z)
     = nullable (Int64 [3000000000; 2; 1]%Z).
Proof.
  apply (inferred_type_ignores_row_order ByDtype).
  constructor.
  apply (perm_trans (l' := [3000000000; 1; 2]%Z)).
  - apply perm_swap.
  - apply perm_skip, perm_swap.
Defined.

(* ------------------------------------------------------------------ *)
(** ** Value Escaper: what the literals read back as *)

Module LiteralFacts.
Import PyStr PyFloat PyVal Spec SqlReader FloatFacts QuoteFacts.

Lemma unquote_doubled s :
  unquote_body (replace_char "'" "''" s ++ "'") = Some s.
Proof.
  induction s as [|c s IH]; [reflexivity|].
  cbn [replace_char]. destruct (Ascii.eqb c "'") eqn:E.
  - apply Ascii.eqb_eq in E. subst c.
    cbn [append unquote_body Ascii.eqb Bool.eqb]. rewrite IH. reflexivity.
  - cbn [append unquote_body]. rewrite E, IH. reflexivity.
Qed.

Lemma unquote_quoted s :
  unquote (Escaper.quoted (replace_char "'" "''" s)) = Some s.
Proof. apply unquote_doubled. Qed.

(** *** Texts without quotes *)

Lemma no_quote_app a b : no_quote (a ++ b) = no_quote a && no_quote b.
Proof. apply forall_chars_app. Qed.

Lemma digits_no_quote s : forall_chars is_09 s = true -> no_quote s = true.
Proof.
  induction s as [|c s IH]; [reflexivity|].
  cbn [forall_chars no_quote]. intros H. apply andb_true_iff in H as [D H].
  fold (no_quote s). rewrite (IH H), andb_true_r.
  revert D. clear. by_digit c; reflexivity.
Qed.

Lemma uint_digits u : forall_chars is_09 (NilEmpty.string_of_uint u) = true.
Proof. induction u; cbn [NilEmpty.string_of_uint forall_chars]; auto. Qed.

Lemma nilzero_digits u : forall_chars is_09 (NilZero.string_of_uint u) = true.
Proof.
  destruct u; try apply uint_digits. reflexivity.
Qed.

Lemma str_of_Z_no_quote n : no_quote (str_of_Z n) = true.
Proof.
  unfold str_of_Z, NilZero.string_of_int.
  destruct (Z.to_int n) as [u|u].
  - apply digits_no_quote, nilzero_digits.
  - cbn [no_quote forall_chars]. apply digits_no_quote, nilzero_digits.
Qed.

Lemma zeros_no_quote k : no_quote (zeros k) = true.
Proof. induction k; [reflexivity|exact IHk]. Qed.

Lemma substring_no_quote s : forall n m,
  no_quote s = true -> no_quote (substring n m s) = true.
Proof.
  induction s as [|c s IH]; intros n m H.
  - destruct n, m; reflexivity.
  - cbn [no_quote forall_chars] in H. apply andb_true_iff in H as [C H].
    destruct n as [|n]; [destruct m as [|m]|]; cbn [substring].
    + reflexivity.
    + cbn [no_quote forall_chars]. rewrite C. apply (IH 0%nat m H).
    + apply (IH n m H).
Qed.

Lemma zfill_no_quote w n : no_quote (zfill w n) = true.
Proof.
  unfold zfill. rewrite no_quote_app, zeros_no_quote, str_of_Z_no_quote.
  reflexivity.
Qed.

Lemma format_short_no_quote ds point :
  no_quote ds = true -> no_quote (format_short ds point) = true.
Proof.
  intros H. unfold format_short.
  destruct (_ || _).
  - rewrite !no_quote_app.
    assert (M : no_quote match ds with
                         | String c EmptyString => ds
                         | String c (String _ _ as rest) =>
                             String c (String "." rest)
                         | EmptyString => ds
                         end = true).
    { destruct ds as [|c [|d r]]; exact H. }
    rewrite M. cbn [andb].
    assert (T : forall x, no_quote (two_digits x) = true).
    { intros x. unfold two_digits. destruct (_ <? _)%Z;
        [cbn [no_quote forall_chars]|]; apply str_of_Z_no_quote. }
    rewrite T. destruct (_ <? _)%Z; reflexivity.
  - destruct (_ <=? _)%Z.
    + rewrite !no_quote_app, zeros_no_quote, H. reflexivity.
    + destruct (_ <? _)%Z.
      * rewrite !no_quote_app, !substring_no_quote by exact H. reflexivity.
      * rewrite !no_quote_app, zeros_no_quote, H. reflexivity.
Qed.

Lemma repr_no_quote x : no_quote (repr x) = true.
Proof.
  destruct x as [|neg|neg m e]; [reflexivity|destruct neg; reflexivity|].
  unfold repr.
  assert (B : no_quote (if (m <=? 0)%Z then "0.0"
                        else let '(ds, point) := shortest m e in
                             format_short ds point) = true).
  { destruct (m <=? 0)%Z; [reflexivity|].
    unfold shortest. destruct (shortest_from _ _ _ _ _ _ _) as [d n].
    apply format_short_no_quote, str_of_Z_no_quote. }
  destruct neg; [cbn [no_quote forall_chars]|]; exact B.
Qed.

Lemma closes_no_quote s : no_quote s = true -> closes (s ++ "'") = true.
Proof.
  induction s as [|c s IH]; [reflexivity|].
  cbn [no_quote forall_chars]. intros H. apply andb_true_iff in H as [C H].
  cbn [append closes]. apply negb_true_iff in C. rewrite C. apply IH, H.
Qed.

Lemma quoted_no_quote s :
  no_quote s = true -> safe_literal (Escaper.quoted s) = true.
Proof.
  intros H. unfold safe_literal. apply orb_true_iff. right.
  apply closes_no_quote, H.
Qed.

Lemma strftime_no_quote d : no_quote (strftime_ymd_hms d) = true.
Proof.
  unfold strftime_ymd_hms, strftime_ymd.
  rewrite !no_quote_app, !zfill_no_quote. reflexivity.
Qed.

Lemma token_safe s : no_quote s = true -> safe_literal s = true.
Proof. intros H. unfold safe_literal. rewrite H. reflexivity. Qed.

(** Every literal of the pandas escaper is safe, but the text of a
    string under the TIMESTAMP type. *)
Lemma escape_safe value col_type :
  ((col_type =? "TIMESTAMP") = true -> isinstance_str value = None) ->
  exists lit, Escaper.escape_sql_value value col_type = Ok lit
              /\ safe_literal lit = true.
Proof.
  intros T. unfold Escaper.escape_sql_value.
  destruct (isna value || is_None value); [eexists; split; reflexivity|].
  destruct (col_type =? "BOOLEAN").
  { destruct (isinstance_bool value) as [[]|];
      [eexists; split; reflexivity..|].
    destruct (in_tuple _ _); eexists; split; reflexivity. }
  destruct (Escaper.is_numeric_type col_type).
  { destruct (is_numeric_dtype_type value) eqn:N.
    - eexists; split; [reflexivity|]. apply token_safe.
      destruct value; try discriminate; cbn [str].
      + destruct b; reflexivity.
      + destruct b; reflexivity.
      + apply str_of_Z_no_quote.
      + apply repr_no_quote.
    - destruct (float value) as [x|e]; cbn [rbind try_except].
      + eexists; split; [reflexivity|]. apply token_safe, repr_no_quote.
      + eexists; split; reflexivity. }
  destruct (col_type =? "TIMESTAMP").
  { destruct (isinstance_datetime value) as [d|].
    - eexists; split; [reflexivity|].
      apply quoted_no_quote, strftime_no_quote.
    - rewrite (T eq_refl). eexists; split; reflexivity. }
  eexists; split; [reflexivity|].
  unfold safe_literal. rewrite doubled_ok. apply orb_true_r.
Qed.

(** The DBF escaper never raises. *)
Lemma dbf_escape_returns value field_type :
  exists lit, DbcEscaper.escape_sql_value value field_type = Ok lit.
Proof.
  unfold DbcEscaper.escape_sql_value.
  destruct (is_None value); [eauto|]. cbv zeta.
  destruct (upper field_type =? "L").
  { destruct (isinstance_bool value) as [[]|]; eauto.
    destruct (in_tuple _ _); eauto. }
  destruct (upper field_type =? "D").
  { destruct (isinstance_datetime value); eauto.
    destruct (isinstance_str value); eauto. }
  destruct (upper field_type =? "T").
  { destruct (isinstance_datetime value); eauto.
    destruct (isinstance_str value); eauto. }
  destruct (in_tuple _ _); eauto.
  destruct (_ || _); eauto.
  destruct (float value); cbn [rbind try_except]; eauto.
Qed.

End LiteralFacts.

Import PyStr PyFloat PyVal Spec SqlReader LiteralFacts.

(** X8. Text literals read back as the text escaped: for a value that
    is not missing and a column type that is neither BOOLEAN, numeric
    nor TIMESTAMP (the DBF escaper: a field type other than L, D, T, N
    and F), the literal is a well-formed quoted literal whose text,
    once the doubled quotes are read as single ones, is [str(value)].
    So two values get the same literal only when they have the same
    text. *)
Theorem text_literal_round_trip :
  (forall (value : pyval) (col_type : string),
      missing value = false ->
      (col_type =? "BOOLEAN") = false ->
      Escaper.is_numeric_type col_type = false ->
      (col_type =? "TIMESTAMP") = false ->
      exists lit : string,
        Escaper.escape_sql_value value col_type = Ok lit
        /\ unquote lit = Some (str value))
  /\ (forall (value : pyval) (field_type : string),
        is_None value = false ->
        in_tuple (upper field_type) ["L"; "D"; "T"; "N"; "F"] = false ->
        exists lit : string,
          DbcEscaper.escape_sql_value value field_type = Ok lit
          /\ unquote lit = Some (str value))
  /\ (forall v w : pyval,
        missing v = false -> missing w = false ->
        Escaper.escape_sql_value v "TEXT" = Escaper.escape_sql_value w "TEXT" ->
        str v = str w).
Proof.
  assert (P : forall value col_type,
             missing value = false ->
             (col_type =? "BOOLEAN") = false ->
             Escaper.is_numeric_type col_type = false ->
             (col_type =? "TIMESTAMP") = false ->
             exists lit,
               Escaper.escape_sql_value value col_type = Ok lit
               /\ unquote lit = Some (str value)).
  { intros value col_type M B N T. unfold Escaper.escape_sql_value.
    fold (missing value). rewrite M, B, N, T.
    eexists. split; [reflexivity|apply unquote_quoted]. }
  split; [exact P|]. split.
  - intros value field_type M F. unfold DbcEscaper.escape_sql_value.
    rewrite M. cbv zeta. cbn [in_tuple existsb] in F.
    rewrite orb_false_r in F.
    apply orb_false_iff in F as [L F]. apply orb_false_iff in F as [D F].
    apply orb_false_iff in F as [T F]. apply orb_false_iff in F as [N F].
    rewrite L, D, T. cbn [in_tuple existsb]. rewrite N, F. cbn [orb].
    eexists. split; [reflexivity|apply unquote_quoted].
  - intros v w Mv Mw E.
    destruct (P v "TEXT" Mv eq_refl eq_refl eq_refl) as (a & A1 & A2).
    destruct (P w "TEXT" Mw eq_refl eq_refl eq_refl) as (b & B1 & B2).
    rewrite A1, B1 in E. injection E as ->.
    rewrite A2 in B2. injection B2 as ->. reflexivity.
Qed.

Lemma text_literal_round_trip_witness :
  (exists lit : string,
      Escaper.escape_sql_value (VStr "d'Avila") "VARCHAR(255)" = Ok lit
      /\ unquote lit = Some (str (VStr "d'Avila")))
  /\ (exists lit : string,
        DbcEscaper.escape_sql_value (VStr "it's") "c" = Ok lit
        /\ unquote lit = Some (str (VStr "it's"))).
Proof.
  destruct text_literal_round_trip as (A & B & _). split.
  - apply (A (VStr "d'Avila") "VARCHAR(255)"); reflexivity.
  - apply (B (VStr "it's") "c"); reflexivity.
Defined.

(** X9. The DBF escaper never raises.  For a date (D) or datetime (T)
    field it writes NULL exactly for the values that are neither a
    [datetime] nor a string: a [datetime.date], which is no [datetime],
    is written as NULL, like a number or a boolean. *)
Theorem dbf_date_fields :
  (forall (value : pyval) (field_type : string),
      exists lit : string,
        DbcEscaper.escape_sql_value value field_type = Ok lit)
  /\ (forall (value : pyval) (field_type : string),
        upper field_type = "D" \/ upper field_type = "T" ->
        (DbcEscaper.escape_sql_value value field_type = Ok "NULL"
         <-> isinstance_datetime value = None
             /\ isinstance_str value = None))
  /\ (forall d : date,
        DbcEscaper.escape_sql_value (VDate d) "D" = Ok "NULL"
        /\ DbcEscaper.escape_sql_value (VDate d) "d" = Ok "NULL")
  /\ (forall d : datetime,
        DbcEscaper.escape_sql_value (VDatetime d) "D"
        = Ok ("'" ++ strftime_ymd d ++ "'")).
Proof.
  split; [|split; [|split]].
  - apply dbf_escape_returns.
  - intros value field_type [E|E]; unfold DbcEscaper.escape_sql_value;
      rewrite E; cbv zeta; cbn [String.eqb Ascii.eqb Bool.eqb];
      destruct value; cbn [is_None isinstance_datetime isinstance_str];
      split; try (intros [? ?]); try discriminate; auto.
  - intros d. split; reflexivity.
  - intros d. reflexivity.
Qed.

(* ------------------------------------------------------------------ *)
(** ** The table emitters *)

Module EmitterFacts.
Import PyStr PyFloat PyVal Pandas Inferencer Sanitizer CsvToSql Spec.
Import SqlReader SanitizerFacts EscaperFacts InferenceFacts LiteralFacts.
Import BatchFacts.

(** *** Lists of results *)

Lemma mapM_forall {A B : Type} (f : A -> result B) (P : B -> Prop) l :
  (forall a, In a l -> exists b, f a = Ok b /\ P b) ->
  exists bs, mapM f l = Ok bs /\ length bs = length l /\ Forall P bs.
Proof.
  induction l as [|a l IH]; intros H.
  - exists []. repeat split. constructor.
  - destruct (H a (or_introl eq_refl)) as (b & E & Pb).
    destruct IH as (bs & Es & L & F).
    { intros x I. apply H. right; exact I. }
    exists (b :: bs). cbn [mapM]. rewrite E, Es. cbn [rbind length].
    repeat split; [congruence|]. constructor; assumption.
Qed.

Lemma combine_map {A B : Type} (g : A -> B) (l : list A) (cc : A * B) :
  In cc (combine l (map g l)) -> In (fst cc) l /\ snd cc = g (fst cc).
Proof.
  induction l as [|a l IH]; [intros []|].
  cbn [map combine]. intros [<-|I].
  - split; [left; reflexivity|reflexivity].
  - destruct (IH I) as [X Y]. split; [right; exact X|exact Y].
Qed.

Lemma filter_none {A : Type} (p : A -> bool) l :
  (forall x, In x l -> p x = false) -> filter p l = [].
Proof.
  induction l as [|a l IH]; intros H; [reflexivity|].
  cbn [filter]. rewrite (H a (or_introl eq_refl)).
  apply IH. intros x I. apply H. right; exact I.
Qed.

Lemma filter_all {A : Type} (p : A -> bool) l :
  Forall (fun x => p x = true) l -> filter p l = l.
Proof.
  induction 1 as [|a l Pa F IH]; [reflexivity|].
  cbn [filter]. rewrite Pa, IH. reflexivity.
Qed.

(** *** Strings *)

Lemma append_nil_r s : s ++ EmptyString = s.
Proof. induction s as [|c s IH]; [reflexivity|]. simpl. rewrite IH.
  reflexivity. Qed.

Lemma append_assoc a b c : (a ++ b) ++ c = a ++ b ++ c.
Proof. induction a as [|x a IH]; [reflexivity|]. simpl. rewrite IH.
  reflexivity. Qed.

Lemma written_cons x l : written (x :: l) = x ++ written l.
Proof.
  unfold written. destruct l as [|y l].
  - cbn [join]. rewrite append_nil_r. reflexivity.
  - reflexivity.
Qed.

Lemma written_app a b : written (a ++ b) = written a ++ written b.
Proof.
  induction a as [|x a IH]; [reflexivity|].
  cbn [app]. rewrite !written_cons, IH, append_assoc. reflexivity.
Qed.

(** *** Cells *)

Lemma cell_some rd s i :
  (i < len s)%nat -> exists v, cell rd s i = Some v.
Proof.
  intros L.
  assert (N : forall (A : Type) (l : list A),
             (i < length l)%nat -> exists x, nth_error l i = Some x).
  { intros A l H. destruct (nth_error l i) eqn:E; [eauto|].
    apply nth_error_None in E. lia. }
  destruct s as [xs|xs|xs|xs|xs]; cbn [len] in L; cbn [cell];
    destruct (N _ xs L) as (x & ->); cbn [option_map]; eauto.
Qed.

(** The cell of a datetime column is no string. *)
Lemma cell_datetime rd xs i v :
  cell rd (Datetime64 xs) i = Some v -> isinstance_str v = None.
Proof.
  cbn [cell]. destruct (nth_error xs i) as [[d|]|]; cbn [option_map];
    intros E; inversion E; reflexivity.
Qed.

Lemma timestamp_is_datetime rule s :
  infer_postgres_type rule s = "TIMESTAMP" -> exists xs, s = Datetime64 xs.
Proof.
  destruct s as [xs|xs|xs|xs|xs]; [| | |eauto|].
  - rewrite infer_int. destruct xs; [discriminate|].
    destruct (forallb _ _); discriminate.
  - rewrite infer_float. destruct (forallb _ _); discriminate.
  - rewrite infer_bool. destruct xs; discriminate.
  - destruct (infer_object rule xs) as [-> | ->]; discriminate.
Qed.

Lemma cell_literal rule df col i :
  well_formed df -> In col df -> (i < df_len df)%nat ->
  exists lit,
    match cell (df_row_dtype df) (snd col) i with
    | Some v =>
        Escaper.escape_sql_value v (ci_type (fst (column_entry rule df col)))
    | None => Raise IndexError
    end = Ok lit
    /\ safe_literal lit = true.
Proof.
  intros W I L. unfold well_formed in W. rewrite Forall_forall in W.
  destruct (cell_some (df_row_dtype df) (snd col) i) as (v & E).
  { rewrite (W col I). exact L. }
  rewrite E. apply escape_safe. intros T.
  unfold column_entry in T. cbn [fst ci_type] in T.
  destruct (df_empty df); [discriminate|].
  apply String.eqb_eq in T.
  destruct (timestamp_is_datetime rule (snd col) T) as (xs & S).
  rewrite S in E. apply (cell_datetime _ _ _ _ E).
Qed.

Lemma insert_line_ok rule df table_name i :
  well_formed df -> (i < df_len df)%nat ->
  exists values,
    insert_line table_name df (map fst (map (column_entry rule df) df)) i
    = Ok ("INSERT INTO " ++ table_name ++ " ("
          ++ join ", " (map ci_name (map fst (map (column_entry rule df) df)))
          ++ ") VALUES (" ++ join ", " values ++ ");" ++ nl)
    /\ length values = length df
    /\ Forall (fun lit => safe_literal lit = true) values.
Proof.
  intros W L. unfold insert_line.
  rewrite map_map.
  destruct (mapM_forall
              (fun cc : (string * Series) * col_info =>
                 match cell (df_row_dtype df) (snd (fst cc)) i with
                 | Some v => Escaper.escape_sql_value v (ci_type (snd cc))
                 | None => Raise IndexError
                 end)
              (fun lit => safe_literal lit = true)
              (combine df (map (fun x => fst (column_entry rule df x)) df)))
    as (values & E & Len & F).
  { intros cc I. apply combine_map in I as [I S]. rewrite S.
    apply (cell_literal rule df (fst cc) i W I L). }
  exists values. rewrite E. cbn [rbind].
  split; [reflexivity|]. split; [|exact F].
  rewrite Len, length_combine, length_map. lia.
Qed.

Lemma is_insert_line t a : is_insert ("INSERT INTO " ++ t ++ a) = true.
Proof. reflexivity. Qed.

(** The INSERT statements of the rows [rows] of a frame. *)
Lemma inserts_ok rule df table_name rows :
  well_formed df -> (forall i, In i rows -> (i < df_len df)%nat) ->
  exists lines,
    mapM (insert_line table_name df (map fst (map (column_entry rule df) df)))
         rows = Ok lines
    /\ length lines = length rows
    /\ Forall (fun line => is_insert line = true) lines.
Proof.
  intros W R. apply mapM_forall. intros i I.
  destruct (insert_line_ok rule df table_name i W (R i I)) as (vs & E & _).
  eexists. split; [exact E|reflexivity].
Qed.

Lemma column_line_no_insert rule df l :
  forall x, In x (map snd (map (column_entry rule df) l)) ->
            is_insert x = false.
Proof.
  intros x I. rewrite map_map in I. apply in_map_iff in I as (c & <- & _).
  reflexivity.
Qed.

Lemma comment_line_no_insert t l :
  forall x, In x (map (comment_line t) l) -> is_insert x = false.
Proof.
  intros x I. apply in_map_iff in I as (c & <- & _). reflexivity.
Qed.

Lemma df_empty_rows df : df <> [] -> df_empty df = (df_len df =? 0)%nat.
Proof.
  intros N. unfold df_empty. destruct df; [contradiction|reflexivity].
Qed.

(** The lines of [csv_to_sql] for a frame with a column. *)
Lemma csv_lines rule csv_name csv_stem now df prefix :
  df <> [] -> well_formed df ->
  exists ins,
    mapM (insert_line (table_name_of csv_stem prefix) df
                      (map fst (map (column_entry rule df) df)))
         (seq 0 (df_len df)) = Ok ins
    /\ length ins = df_len df
    /\ Forall (fun line => is_insert line = true) ins
    /\ csv_to_sql rule csv_name csv_stem now df prefix
       = Some
           (app (app [ "-- Tabela gerada a partir de: " ++ csv_name ++ nl;
                       "-- Gerado em: " ++ strftime_ymd_hms now ++ nl ]
                     (app (if df_empty df
                           then [ "-- Arquivo cont" ++ e_acute
                                  ++ "m apenas cabe" ++ c_cedilla
                                  ++ "alho (sem dados)" ++ nl ]
                           else [])
                          [ nl;
                            "CREATE TABLE IF NOT EXISTS "
                            ++ table_name_of csv_stem prefix ++ " (" ++ nl ]))
                (app (map snd (map (column_entry rule df) df))
                     (app (app [ nl ++ ");" ++ nl ++ nl;
                                 "-- Coment" ++ a_acute
                                 ++ "rios sobre as colunas:" ++ nl ]
                               (app (map (comment_line
                                            (table_name_of csv_stem prefix))
                                         (map fst
                                              (map (column_entry rule df) df)))
                                    [ nl ]))
                          (if (0 <? df_len df)%nat
                           then ("-- Dados da tabela:" ++ nl) :: ins
                           else [])))).
Proof.
  intros N W.
  destruct (inserts_ok rule df (table_name_of csv_stem prefix)
              (seq 0 (df_len df)) W) as (ins & E & L & F).
  { intros i I. apply in_seq in I. lia. }
  exists ins. split; [exact E|]. split; [rewrite L; apply length_seq|].
  split; [exact F|].
  unfold csv_to_sql.
  replace (length df =? 0)%nat with false
    by (destruct df; [contradiction|reflexivity]).
  assert (T : match prefix with
              | EmptyString => sanitize_name csv_stem
              | String _ _ =>
                  sanitize_name prefix ++ "_" ++ sanitize_name csv_stem
              end = table_name_of csv_stem prefix)
    by (destruct prefix; reflexivity).
  cbv zeta. rewrite T, E.
  destruct (0 <? df_len df)%nat; reflexivity.
Qed.

End EmitterFacts.

Import PyStr PyFloat PyVal Pandas Inferencer Sanitizer CsvToSql Spec.
Import SqlReader SanitizerFacts EmitterFacts.

(** X10. For every frame with at least one column, [csv_to_sql]
    succeeds, whatever the cells hold: it emits one INSERT statement per
    row and 8 + 2 * columns + rows lines in all.  For a file without a
    column it returns False and emits nothing. *)
Theorem csv_to_sql_one_insert_per_row :
  (forall (rule : string_rule) (csv_name csv_stem : string) (now : datetime)
          (df : DataFrame) (prefix : string),
      df <> [] -> well_formed df ->
      exists lines : list string,
        csv_to_sql rule csv_name csv_stem now df prefix = Some lines
        /\ length (filter is_insert lines) = df_len df
        /\ length lines = (8 + 2 * length df + df_len df)%nat)
  /\ (forall (rule : string_rule) (csv_name csv_stem : string)
             (now : datetime) (prefix : string),
        csv_to_sql rule csv_name csv_stem now [] prefix = None).
Proof.
  split; [|reflexivity].
  intros rule csv_name csv_stem now df prefix N W.
  destruct (csv_lines rule csv_name csv_stem now df prefix N W)
    as (ins & _ & L & F & E).
  eexists. split; [exact E|].
  rewrite (df_empty_rows df N).
  split.
  - rewrite !filter_app.
    rewrite (filter_none is_insert (map snd _)
               (column_line_no_insert rule df df)).
    rewrite (filter_none is_insert (map (comment_line _) _)
               (comment_line_no_insert _ _)).
    destruct (df_len df) as [|n] eqn:D.
    + reflexivity.
    + cbn [Nat.eqb Nat.ltb Nat.leb filter]. rewrite (filter_all _ _ F).
      unfold is_insert, nl.
      cbn [starts_with append Ascii.eqb Bool.eqb andb app length].
      exact L.
  - rewrite !length_app, !length_map.
    destruct (df_len df) as [|n] eqn:D.
    + cbn [Nat.eqb Nat.ltb Nat.leb length]. lia.
    + cbn [Nat.eqb Nat.ltb Nat.leb length]. lia.
Qed.

Lemma csv_to_sql_one_insert_per_row_witness :
  exists lines : list string,
    csv_to_sql ByDtype "t.csv" "t" (mk_datetime 2024 1 2 3 4 5 0)
               [("a", Int64 [1; 2]%Z)] EmptyString = Some lines
    /\ length (filter is_insert lines) = df_len [("a", Int64 [1; 2]%Z)]
    /\ length lines = (8 + 2 * 1 + 2)%nat.
Proof.
  apply (proj1 csv_to_sql_one_insert_per_row).
  - discriminate.
  - repeat constructor.
Defined.

(** X11. A CSV file that holds only its header line gives a table whose
    columns are all [TEXT NULL], under the note that the file has no
    data, and neither the data heading nor an INSERT statement. *)
Theorem csv_header_only :
  forall (rule : string_rule) (csv_name csv_stem : string) (now : datetime)
         (df : DataFrame) (prefix : string),
    df <> [] -> df_len df = 0%nat ->
    csv_to_sql rule csv_name csv_stem now df prefix
    = Some
        (app [ "-- Tabela gerada a partir de: " ++ csv_name ++ nl;
               "-- Gerado em: " ++ strftime_ymd_hms now ++ nl;
               "-- Arquivo cont" ++ e_acute ++ "m apenas cabe" ++ c_cedilla
               ++ "alho (sem dados)" ++ nl;
               nl;
               "CREATE TABLE IF NOT EXISTS " ++ table_name_of csv_stem prefix
               ++ " (" ++ nl ]
             (app (map (fun col => "    " ++ sanitize_name (fst col)
                                   ++ " TEXT NULL") df)
                  (app [ nl ++ ");" ++ nl ++ nl;
                         "-- Coment" ++ a_acute ++ "rios sobre as colunas:"
                         ++ nl ]
                       (app (map (fun col =>
                                    "COMMENT ON COLUMN "
                                    ++ table_name_of csv_stem prefix ++ "."
                                    ++ sanitize_name (fst col) ++ " IS '"
                                    ++ replace_char "'" "''" (fst col)
                                    ++ "';" ++ nl) df)
                            [ nl ])))).
Proof.
  intros rule csv_name csv_stem now df prefix N Z.
  unfold csv_to_sql.
  replace (length df =? 0)%nat with false
    by (destruct df; [contradiction|reflexivity]).
  assert (T : match prefix with
              | EmptyString => sanitize_name csv_stem
              | String _ _ =>
                  sanitize_name prefix ++ "_" ++ sanitize_name csv_stem
              end = table_name_of csv_stem prefix)
    by (destruct prefix; reflexivity).
  cbv zeta. rewrite T.
  assert (E : df_empty df = true).
  { rewrite (df_empty_rows df N), Z. reflexivity. }
  rewrite Z. cbn [Nat.ltb Nat.leb to_option rbind].
  rewrite E. cbn [app]. rewrite !map_map.
  unfold column_entry, comment_line. rewrite E.
  cbn [fst snd ci_name ci_original]. rewrite app_nil_r. reflexivity.
Qed.

Lemma csv_header_only_witness :
  csv_to_sql ByElements "c.csv" "c" (mk_datetime 2024 1 2 3 4 5 0)
             [("Nome", Object [])] EmptyString
  = Some
      [ "-- Tabela gerada a partir de: " ++ "c.csv" ++ nl;
        "-- Gerado em: "
        ++ strftime_ymd_hms (mk_datetime 2024 1 2 3 4 5 0) ++ nl;
        "-- Arquivo cont" ++ e_acute ++ "m apenas cabe" ++ c_cedilla
        ++ "alho (sem dados)" ++ nl;
        nl;
        "CREATE TABLE IF NOT EXISTS " ++ table_name_of "c" EmptyString
        ++ " (" ++ nl;
        "    " ++ sanitize_name "Nome" ++ " TEXT NULL";
        nl ++ ");" ++ nl ++ nl;
        "-- Coment" ++ a_acute ++ "rios sobre as colunas:" ++ nl;
        "COMMENT ON COLUMN " ++ table_name_of "c" EmptyString ++ "."
        ++ sanitize_name "Nome" ++ " IS '" ++ replace_char "'" "''" "Nome"
        ++ "';" ++ nl;
        nl ].
Proof.
  apply (csv_header_only ByElements "c.csv" "c"
           (mk_datetime 2024 1 2 3 4 5 0) [("Nome", Object [])] EmptyString).
  - discriminate.
  - reflexivity.
Defined.

(** X12. Every INSERT statement [csv_to_sql] emits names the sanitized
    columns, which are identifiers over [a-z0-9_], and gives one value
    per column; each value is a token without a quote character or a
    well-formed quoted literal.  The unescaped text of the TIMESTAMP
    path cannot occur: a column is typed TIMESTAMP only when its cells
    are datetimes. *)
Theorem csv_insert_values_are_safe :
  forall (rule : string_rule) (df : DataFrame) (table_name : string)
         (i : nat),
    well_formed df -> (i < df_len df)%nat ->
    let columns_info := map fst (map (column_entry rule df) df) in
    exists values : list string,
      insert_line table_name df columns_info i
      = Ok ("INSERT INTO " ++ table_name ++ " ("
            ++ join ", " (map ci_name columns_info)
            ++ ") VALUES (" ++ join ", " values ++ ");" ++ nl)
      /\ length values = length df
      /\ Forall (fun lit => safe_literal lit = true) values
      /\ Forall (fun name => forall_chars ident_char name = true
                             /\ name <> EmptyString)
                (map ci_name columns_info).
Proof.
  intros rule df table_name i W L columns_info.
  destruct (insert_line_ok rule df table_name i W L) as (vs & E & Len & F).
  exists vs. split; [exact E|]. split; [exact Len|]. split; [exact F|].
  apply Forall_forall. intros name I. unfold columns_info in I.
  rewrite !map_map in I. apply in_map_iff in I as (col & <- & _).
  cbn [column_entry fst ci_name].
  destruct (sanitize_result (fst col)) as ((A & _) & Ne & _).
  split; assumption.
Qed.

Lemma csv_insert_values_are_safe_witness :
  exists values : list string,
    insert_line "t" [("When", Datetime64 [None]); ("Who", Object [VStr "O'Neil"])]
      (map fst (map (column_entry ByDtype
                  [("When", Datetime64 [None]); ("Who", Object [VStr "O'Neil"])])
                  [("When", Datetime64 [None]); ("Who", Object [VStr "O'Neil"])]))
      0
    = Ok ("INSERT INTO " ++ "t" ++ " ("
          ++ join ", "
               (map ci_name
                  (map fst (map (column_entry ByDtype
                    [("When", Datetime64 [None]); ("Who", Object [VStr "O'Neil"])])
                    [("When", Datetime64 [None]); ("Who", Object [VStr "O'Neil"])])))
          ++ ") VALUES (" ++ join ", " values ++ ");" ++ nl)
    /\ length values
       = length [("When", Datetime64 [None]); ("Who", Object [VStr "O'Neil"])]
    /\ Forall (fun lit => safe_literal lit = true) values
    /\ Forall (fun name => forall_chars ident_char name = true
                           /\ name <> EmptyString)
              (map ci_name
                 (map fst (map (column_entry ByDtype
                   [("When", Datetime64 [None]); ("Who", Object [VStr "O'Neil"])])
                   [("When", Datetime64 [None]); ("Who", Object [VStr "O'Neil"])]))).
Proof.
  apply (csv_insert_values_are_safe ByDtype
           [("When", Datetime64 [None]); ("Who", Object [VStr "O'Neil"])]
           "t" 0).
  - repeat constructor.
  - cbn. lia.
Defined.

Module ColumnLineFacts.
Import PyStr PyVal Pandas Inferencer Sanitizer CsvToSql Spec SqlReader.
Import SanitizerFacts InferenceFacts FloatFacts.

Lemma no_separator_app a b :
  no_separator (a ++ b) = no_separator a && no_separator b.
Proof. apply forall_chars_app. Qed.

Lemma ident_no_separator s :
  forall_chars ident_char s = true -> no_separator s = true.
Proof.
  induction s as [|c s IH]; [reflexivity|].
  cbn [forall_chars no_separator]. intros H. apply andb_true_iff in H as [C H].
  fold (no_separator s). rewrite (IH H), andb_true_r.
  revert C. clear. by_char c.
Qed.

Lemma column_line_no_separator rule df col :
  no_separator (snd (column_entry rule df col)) = true.
Proof.
  unfold column_entry. cbn [snd].
  destruct (sanitize_result (fst col)) as ((I & _) & _ & _).
  rewrite !no_separator_app, (ident_no_separator _ I).
  assert (T : no_separator (if df_empty df then "TEXT"
                            else infer_postgres_type rule (snd col)) = true).
  { destruct (df_empty df); [reflexivity|].
    pose proof (infer_answers rule (snd col)) as A. cbn [In] in A.
    repeat (destruct A as [<-|A]; [reflexivity|]). destruct A. }
  rewrite T. unfold nullable.
  destruct (df_empty df); [reflexivity|].
  destruct (isna_any (snd col)); reflexivity.
Qed.

Lemma written_no_separator lines :
  Forall (fun line => no_separator line = true) lines ->
  no_separator (written lines) = true.
Proof.
  induction 1 as [|line lines L F IH]; [reflexivity|].
  rewrite EmitterFacts.written_cons, no_separator_app, L, IH. reflexivity.
Qed.

End ColumnLineFacts.

Import PyStr PyVal Pandas Inferencer Sanitizer CsvToSql Spec SqlReader.
Import EmitterFacts ColumnLineFacts.

(** X13. In the text [csv_to_sql] emits, the lines between the line
    that opens the CREATE TABLE statement and the line that closes it
    are the column definitions, one per column, and none of them holds
    a comma or a line break: the definitions of a table with several
    columns are written one after the other, with nothing between
    them. *)
Theorem create_table_columns_run_together :
  forall (rule : string_rule) (csv_name csv_stem : string) (now : datetime)
         (df : DataFrame) (prefix : string),
    df <> [] -> well_formed df ->
    exists before after : list string,
      csv_to_sql rule csv_name csv_stem now df prefix
      = Some (app before
                (app [ "CREATE TABLE IF NOT EXISTS "
                       ++ table_name_of csv_stem prefix ++ " (" ++ nl ]
                   (app (map snd (map (column_entry rule df) df))
                      ((nl ++ ");" ++ nl ++ nl) :: after))))
      /\ length (map snd (map (column_entry rule df) df)) = length df
      /\ Forall (fun line => no_separator line = true)
                (map snd (map (column_entry rule df) df))
      /\ no_separator (written (map snd (map (column_entry rule df) df)))
         = true.
Proof.
  intros rule csv_name csv_stem now df prefix N W.
  destruct (csv_lines rule csv_name csv_stem now df prefix N W)
    as (ins & _ & _ & _ & E).
  assert (F : Forall (fun line => no_separator line = true)
                     (map snd (map (column_entry rule df) df))).
  { apply Forall_forall. intros line I. rewrite map_map in I.
    apply in_map_iff in I as (col & <- & _).
    apply column_line_no_separator. }
  exists (app [ "-- Tabela gerada a partir de: " ++ csv_name ++ nl;
                "-- Gerado em: " ++ strftime_ymd_hms now ++ nl ]
              (app (if df_empty df
                    then [ "-- Arquivo cont" ++ e_acute ++ "m apenas cabe"
                           ++ c_cedilla ++ "alho (sem dados)" ++ nl ]
                    else [])
                   [ nl ])).
  exists (app (("-- Coment" ++ a_acute ++ "rios sobre as colunas:" ++ nl)
               :: app (map (comment_line (table_name_of csv_stem prefix))
                           (map fst (map (column_entry rule df) df)))
                      [ nl ])
              (if (0 <? df_len df)%nat
               then ("-- Dados da tabela:" ++ nl) :: ins
               else [])).
  split; [|split; [|split]].
  - rewrite E. apply (f_equal Some).
    destruct (df_empty df); cbn [app];
      repeat apply (f_equal2 cons eq_refl);
      rewrite <- !app_assoc; cbn [app]; reflexivity.
  - rewrite !length_map. reflexivity.
  - exact F.
  - apply written_no_separator, F.
Qed.

Lemma create_table_columns_run_together_witness :
  exists before after : list string,
    csv_to_sql ByDtype "t.csv" "t" (mk_datetime 2024 1 2 3 4 5 0)
               [("a", Int64 [1]%Z); ("b", Int64 [2]%Z)] EmptyString
    = Some (app before
              (app [ "CREATE TABLE IF NOT EXISTS "
                     ++ table_name_of "t" EmptyString ++ " (" ++ nl ]
                 (app (map snd
                         (map (column_entry ByDtype
                                 [("a", Int64 [1]%Z); ("b", Int64 [2]%Z)])
                              [("a", Int64 [1]%Z); ("b", Int64 [2]%Z)]))
                    ((nl ++ ");" ++ nl ++ nl) :: after))))
    /\ length (map snd
                 (map (column_entry ByDtype
                         [("a", Int64 [1]%Z); ("b", Int64 [2]%Z)])
                      [("a", Int64 [1]%Z); ("b", Int64 [2]%Z)]))
       = length [("a", Int64 [1]%Z); ("b", Int64 [2]%Z)]
    /\ Forall (fun line => no_separator line = true)
              (map snd
                 (map (column_entry ByDtype
                         [("a", Int64 [1]%Z); ("b", Int64 [2]%Z)])
                      [("a", Int64 [1]%Z); ("b", Int64 [2]%Z)]))
    /\ no_separator
         (written
            (map snd
               (map (column_entry ByDtype
                       [("a", Int64 [1]%Z); ("b", Int64 [2]%Z)])
                    [("a", Int64 [1]%Z); ("b", Int64 [2]%Z)])))
       = true.
Proof.
  apply (create_table_columns_run_together ByDtype "t.csv" "t"
           (mk_datetime 2024 1 2 3 4 5 0)
           [("a", Int64 [1]%Z); ("b", Int64 [2]%Z)] EmptyString).
  - discriminate.
  - repeat constructor.
Defined.

(* ------------------------------------------------------------------ *)
(** ** Excel to SQL *)

Module ExcelFacts.
Import PyStr PyFloat PyVal Pandas Inferencer Sanitizer CsvToSql Spec.
Import SqlReader EmitterFacts BatchFacts.

Lemma excel_entries rule df :
  df_empty df = false ->
  map (XlsxToSql.column_entry rule) df = map (column_entry rule df) df.
Proof.
  intros E. apply map_ext. intros col.
  unfold XlsxToSql.column_entry, column_entry. rewrite E. reflexivity.
Qed.

Lemma excel_infos rule df :
  df_empty df = false ->
  map (XlsxToSql.column_info rule) df
  = map fst (map (column_entry rule df) df).
Proof.
  intros E. rewrite map_map. apply map_ext. intros col.
  unfold XlsxToSql.column_info, column_entry. rewrite E. reflexivity.
Qed.

Lemma not_empty df :
  df_empty df = false -> df <> [] /\ (0 <? df_len df)%nat = true.
Proof.
  unfold df_empty. intros E. apply orb_false_iff in E as [A B].
  split.
  - intros ->. discriminate.
  - apply Nat.eqb_neq in B. apply Nat.ltb_lt. lia.
Qed.

End ExcelFacts.

Import PyStr PyFloat PyVal Pandas Inferencer Sanitizer CsvToSql Spec.
Import SqlReader EmitterFacts BatchFacts ExcelFacts.



(** X15. For a sheet with at least one row, the inserts-only script
    emits, for the table name of the with-data script, exactly the
    INSERT statements the with-data script emits, one per row, and
    reports the number of rows. *)
Theorem inserts_only_emits_the_same_inserts :
  forall (rule : string_rule) (name stem sheet_name : string)
         (now : datetime) (df : DataFrame),
    df_empty df = false -> well_formed df ->
    exists with_data inserts_only : list string,
      XlsxToSql.excel_to_sql rule name stem now df = Some with_data
      /\ XlsxToSql.processar_planilha_inserts rule df (sanitize_name stem)
                                              sheet_name
         = Ok (inserts_only, df_len df)
      /\ filter is_insert inserts_only = filter is_insert with_data
      /\ length (filter is_insert inserts_only) = df_len df.
Proof.
  intros rule name stem sheet_name now df E W.
  destruct (not_empty df E) as [N P].
  destruct (inserts_ok rule df (sanitize_name stem) (seq 0 (df_len df)) W)
    as (ins & M & L & F).
  { intros i I. apply in_seq in I. lia. }
  unfold XlsxToSql.excel_to_sql, XlsxToSql.processar_planilha_inserts.
  rewrite E, P. cbv zeta.
  rewrite (excel_entries rule df E), (excel_infos rule df E).
  rewrite batch_rows_seq by (unfold Batches.batch_size; lia).
  rewrite M. cbn [rbind to_option].
  eexists. eexists. split; [reflexivity|]. split; [reflexivity|].
  assert (A : filter is_insert
                (app (("-- Dados da tabela " ++ sanitize_name stem
                       ++ " (Planilha: " ++ sheet_name ++ "):" ++ nl) :: ins)
                     [nl]) = ins).
  { rewrite filter_app. cbn [filter].
    change (is_insert nl) with false.
    change (is_insert ("-- Dados da tabela " ++ sanitize_name stem
                       ++ " (Planilha: " ++ sheet_name ++ "):" ++ nl))
      with false.
    cbv iota. rewrite (filter_all _ _ F). apply app_nil_r. }
  rewrite A. split.
  - rewrite !filter_app.
    rewrite (filter_none is_insert (map snd _)
               (column_line_no_insert rule df df)).
    rewrite (filter_none is_insert (map (comment_line _) _)
               (comment_line_no_insert _ _)).
    cbn [filter].
    unfold is_insert at 1 2 3 4 5 6 7. unfold nl at 1 2 3 4 5 6 7 8 9 10.
    cbn [starts_with append Ascii.eqb Bool.eqb andb app].
    rewrite (filter_all _ _ F). reflexivity.
  - rewrite L. apply length_seq.
Qed.

Lemma inserts_only_emits_the_same_inserts_witness :
  exists with_data inserts_only : list string,
    XlsxToSql.excel_to_sql ByDtype "p.xlsx" "p"
      (mk_datetime 2024 1 2 3 4 5 0) [("a", Int64 [7; 8]%Z)] = Some with_data
    /\ XlsxToSql.processar_planilha_inserts ByDtype [("a", Int64 [7; 8]%Z)]
         (sanitize_name "p") "Plan1"
       = Ok (inserts_only, df_len [("a", Int64 [7; 8]%Z)])
    /\ filter is_insert inserts_only = filter is_insert with_data
    /\ length (filter is_insert inserts_only)
       = df_len [("a", Int64 [7; 8]%Z)].
Proof.
  apply (inserts_only_emits_the_same_inserts ByDtype "p.xlsx" "p" "Plan1").
  - reflexivity.
  - repeat constructor.
Defined.

(* ------------------------------------------------------------------ *)
(** ** DBF field types *)

Module DbcFacts.
Import PyStr PyVal DbcTypes Spec SanitizerFacts.

Lemma upper_app a b : upper (a ++ b) = upper a ++ upper b.
Proof.
  induction a as [|c a IH]; [reflexivity|].
  cbn [append upper]. rewrite IH. symmetry. apply EmitterFacts.append_assoc.
Qed.

Lemma upper_upper_char c : upper (upper_char c) = upper_char c.
Proof. by_char c. Qed.

Lemma upper_upper s : upper (upper s) = upper s.
Proof.
  induction s as [|c s IH]; [reflexivity|].
  cbn [upper]. rewrite upper_app, upper_upper_char, IH. reflexivity.
Qed.

Lemma upper_lower_char c : upper_char (lower_char c) = upper_char c.
Proof. by_char c. Qed.

Lemma upper_lower s : upper (lower s) = upper s.
Proof.
  induction s as [|c s IH]; [reflexivity|].
  cbn [lower upper]. rewrite upper_lower_char, IH. reflexivity.
Qed.

End DbcFacts.

Import PyStr PyVal DbcTypes Spec DbcFacts.

(** X16. The type of a DBF field is one of TEXT, INTEGER, BIGINT,
    NUMERIC, DATE, TIMESTAMP, BOOLEAN and BYTEA, or VARCHAR(length),
    given to character fields of length 1 to 255 only, or
    NUMERIC(length,decimal), given to numeric fields with decimals
    whatever their length.  The letter case of the field type code does
    not matter. *)
Theorem dbc_type_to_postgres_answers :
  forall (dbc_type : string) (length decimal : Z),
    (In (dbc_type_to_postgres dbc_type length decimal)
        ["TEXT"; "INTEGER"; "BIGINT"; "NUMERIC"; "DATE"; "TIMESTAMP";
         "BOOLEAN"; "BYTEA"]
     \/ (dbc_type_to_postgres dbc_type length decimal
         = "VARCHAR(" ++ str_of_Z length ++ ")"
         /\ (1 <= length <= 255)%Z /\ upper dbc_type = "C")
     \/ (dbc_type_to_postgres dbc_type length decimal
         = "NUMERIC(" ++ str_of_Z length ++ "," ++ str_of_Z decimal ++ ")"
         /\ (0 < decimal)%Z /\ upper dbc_type = "N"))
    /\ dbc_type_to_postgres (lower dbc_type) length decimal
       = dbc_type_to_postgres dbc_type length decimal
    /\ dbc_type_to_postgres (upper dbc_type) length decimal
       = dbc_type_to_postgres dbc_type length decimal.
Proof.
  intros t length decimal. split; [|split].
  - unfold dbc_type_to_postgres. cbv zeta.
    destruct (String.eqb_spec (upper t) "C") as [C|C].
    { destruct (Z.ltb_spec 0 length); [|left; cbn [In]; auto 12].
      destruct (Z.leb_spec length 255); [|left; cbn [In]; auto 12].
      right; left. repeat split; try lia; assumption. }
    destruct (String.eqb_spec (upper t) "N") as [N|N].
    { destruct (Z.ltb_spec 0 decimal).
      - right; right. repeat split; assumption.
      - left. destruct (0 <? length)%Z; [|cbn [In]; auto 12].
        destruct (length <=? 10)%Z; cbn [In]; auto 12. }
    left.
    destruct (upper t =? "F"); [cbn [In]; auto 12|].
    destruct (upper t =? "D"); [cbn [In]; auto 12|].
    destruct (upper t =? "T"); [cbn [In]; auto 12|].
    destruct (upper t =? "L"); [cbn [In]; auto 12|].
    destruct (upper t =? "M"); [cbn [In]; auto 12|].
    destruct (upper t =? "B"); cbn [In]; auto 12.
  - unfold dbc_type_to_postgres. rewrite upper_lower. reflexivity.
  - unfold dbc_type_to_postgres. rewrite upper_upper. reflexivity.
Qed.



(* ------------------------------------------------------------------ *)
(** ** DBF to SQL *)

Module DbcEmitterFacts.
Import PyStr PyVal Sanitizer CsvToSql DbcToSql Spec EmitterFacts LiteralFacts.


End DbcEmitterFacts.

Import Sanitizer CsvToSql DbcToSql EmitterFacts DbcEmitterFacts.


(* ------------------------------------------------------------------ *)
(** ** Schema Extractor: type names and defaults *)

Module TypeMapperFacts.
Import PyStr PyVal TypeMapper DbcFacts.

Lemma mapear_cases t :
  mapear_tipo_postgres t VNone VNone VNone = upper t
  \/ In (mapear_tipo_postgres t VNone VNone VNone)
     ["VARCHAR"; "CHAR"; "NUMERIC"; "DOUBLE PRECISION"; "REAL"; "INTEGER";
      "BIGINT"; "SMALLINT"; "BOOLEAN"; "TIMESTAMP"; "TIMESTAMPTZ"; "DATE";
      "TIME"; "TEXT"; "BYTEA"; "UUID"; "JSON"; "JSONB"].
Proof.
  unfold mapear_tipo_postgres. cbv zeta. cbn [truthy andb in_tuple existsb].
  repeat match goal with
         | |- context [String.eqb (upper t) ?c] =>
             destruct (String.eqb (upper t) c);
             cbn [orb];
             try (right; cbn [In]; auto 25; fail)
         end.
  left. reflexivity.
Qed.

Lemma mapear_known c :
  In c
     ["VARCHAR"; "CHAR"; "NUMERIC"; "DOUBLE PRECISION"; "REAL"; "INTEGER";
      "BIGINT"; "SMALLINT"; "BOOLEAN"; "TIMESTAMP"; "TIMESTAMPTZ"; "DATE";
      "TIME"; "TEXT"; "BYTEA"; "UUID"; "JSON"; "JSONB"] ->
  mapear_tipo_postgres c VNone VNone VNone = c.
Proof.
  cbn [In]. intros H.
  repeat (destruct H as [<-|H]; [vm_compute; reflexivity|]).
  destruct H.
Qed.

Lemma before_cast_app a b :
  forall_chars (fun c => negb (Ascii.eqb c ":")) a = true ->
  before_cast (a ++ "::" ++ b) = a.
Proof.
  induction a as [|c a IH].
  - intros _. cbn [append before_cast prefix].
    destruct (ascii_dec ":" ":") as [_|N]; [|contradiction].
    destruct b; reflexivity.
  - cbn [forall_chars]. intros H. apply andb_true_iff in H as [C H].
    apply negb_true_iff in C.
    cbn [append before_cast prefix].
    destruct (ascii_dec ":" c) as [E|E].
    + subst c. discriminate.
    + f_equal. apply (IH H).
Qed.

End TypeMapperFacts.

Import PyStr PyVal TypeMapper DbcFacts TypeMapperFacts.

(** X19. The type mapper ignores the letter case of the catalog type
    name, and its answers are in normal form: mapping the name it gave
    for a type (without length or precision) gives that name again.  A
    type it does not know is passed on in upper case. *)
Theorem mapear_tipo_postgres_normal_form :
  forall (data_type : string) (max_length precision scale : pyval),
    mapear_tipo_postgres (lower data_type) max_length precision scale
    = mapear_tipo_postgres data_type max_length precision scale
    /\ mapear_tipo_postgres (upper data_type) max_length precision scale
       = mapear_tipo_postgres data_type max_length precision scale
    /\ mapear_tipo_postgres
         (mapear_tipo_postgres data_type VNone VNone VNone)
         VNone VNone VNone
       = mapear_tipo_postgres data_type VNone VNone VNone
    /\ (mapear_tipo_postgres data_type VNone VNone VNone = upper data_type
        \/ In (mapear_tipo_postgres data_type VNone VNone VNone)
              ["VARCHAR"; "CHAR"; "NUMERIC"; "DOUBLE PRECISION"; "REAL";
               "INTEGER"; "BIGINT"; "SMALLINT"; "BOOLEAN"; "TIMESTAMP";
               "TIMESTAMPTZ"; "DATE"; "TIME"; "TEXT"; "BYTEA"; "UUID";
               "JSON"; "JSONB"]).
Proof.
  intros t ml p s.
  assert (U : forall x a b c,
             mapear_tipo_postgres (upper x) a b c
             = mapear_tipo_postgres x a b c).
  { intros x a b c. unfold mapear_tipo_postgres. rewrite upper_upper.
    reflexivity. }
  split; [|split; [|split]].
  - unfold mapear_tipo_postgres. rewrite upper_lower. reflexivity.
  - apply U.
  - destruct (mapear_cases t) as [E|K].
    + rewrite E at 1. apply U.
    + apply mapear_known, K.
  - apply mapear_cases.
Qed.

(** X20. The DEFAULT of a column is its catalog default cut at the
    first [::]: a default that begins with a text free of colons
    followed by a cast keeps that text only, without the white space
    around it, and loses whatever follows the cast, a closing
    parenthesis included, as in the default of a serial column. *)
Theorem default_is_cut_at_first_cast :
  (forall a b : string,
      forall_chars (fun c => negb (Ascii.eqb c ":")) a = true ->
      default_clean (VStr (a ++ "::" ++ b)) = strip_ws a)
  /\ (forall a : string,
        forall_chars (fun c => negb (Ascii.eqb c ":")) a = true ->
        default_clean (VStr a) = strip_ws a)
  /\ default_clean (VStr "nextval('t_id_seq'::regclass)")
     = "nextval('t_id_seq'"
  /\ default_clean (VStr " 'abc'::character varying") = "'abc'".
Proof.
  split; [|split; [|split]]; try reflexivity.
  - intros a b H. unfold default_clean. cbn [str].
    rewrite (before_cast_app a b H). reflexivity.
  - intros a H. unfold default_clean. cbn [str]. f_equal.
    induction a as [|c a IH]; [reflexivity|].
    cbn [forall_chars] in H. apply andb_true_iff in H as [C H].
    apply negb_true_iff in C. cbn [before_cast prefix].
    destruct (ascii_dec ":" c) as [E|E].
    + subst c. discriminate.
    + rewrite (IH H). reflexivity.
Qed.

Lemma default_is_cut_at_first_cast_witness :
  default_clean (VStr ("now() " ++ "::" ++ "timestamp")) = strip_ws "now() "
  /\ default_clean (VStr "0") = strip_ws "0".
Proof.
  destruct default_is_cut_at_first_cast as (A & B & _). split.
  - apply (A "now() " "timestamp"). reflexivity.
  - apply (B "0"). reflexivity.
Defined.

(* ------------------------------------------------------------------ *)
(** ** Schema Extractor: the table list and the CREATE TABLE text *)

Module WriterFacts.
Import PyStr PyVal SchemaExtractor SchemaWriter.

Lemma omap_length {A B : Type} (f : A -> outcome B) l : forall bs,
  omap f l = Returns bs -> length bs = length l.
Proof.
  induction l as [|a l IH]; intros bs.
  - cbn [omap]. intros E. injection E as <-. reflexivity.
  - cbn [omap]. destruct (f a) as [b|e]; [|discriminate]. cbn [obind].
    destruct (omap f l) as [r|e]; [|discriminate]. cbn [obind].
    intros E. injection E as <-. cbn [length]. rewrite (IH r eq_refl).
    reflexivity.
Qed.

Lemma col_def_catalog r :
  catalog_row r = true -> exists line, col_def r = Returns line.
Proof.
  destruct r as [|a [|b [|c [|d [|e [|f [|g [|h r]]]]]]]];
    try (intros H; discriminate H);
    destruct b; try (intros H; discriminate H).
  intros _. eexists. reflexivity.
Qed.

Lemma omap_catalog rows :
  forallb catalog_row rows = true ->
  exists lines, omap col_def rows = Returns lines.
Proof.
  induction rows as [|r rows IH]; [exists []; reflexivity|].
  cbn [forallb]. intros H. apply andb_true_iff in H as [C H].
  destruct (col_def_catalog r C) as (line & E).
  destruct (IH H) as (lines & Es).
  exists (line :: lines). cbn [omap]. rewrite E, Es. reflexivity.
Qed.

End WriterFacts.

Section WriterTheorems.
Import PyStr PyVal CsvToSql SchemaExtractor SchemaWriter WriterFacts.

Variable world : Type.
Variable conn_closed : world -> bool.
Variable conn_cursor : world -> world * result unit.
Variable cur_execute : query -> list pyval -> world -> world * result unit.
Variable cur_fetchall : world -> world * result (list row).
Variable cur_closed : world -> bool.
Variable cur_close : world -> world.
Variable cur_execute_tables : list pyval -> world -> world * result unit.
Variable key_eq : pyval -> pyval -> bool.

(** A fetched row without a value makes [row[0]] raise. *)
Lemma first_column_empty_row (rows : list row) (w : world) :
  In [] rows ->
  for_each world (first world) rows w = (w, Raise IndexError).
Proof.
  induction rows as [|r rows IH]; [intros []|].
  intros [->|I].
  - reflexivity.
  - cbn [for_each]. unfold bind at 1. destruct r as [|v r].
    + reflexivity.
    + cbn [first]. unfold ret at 1. unfold bind at 1.
      rewrite (IH I). reflexivity.
Qed.

(** X21. [obter_tabelas] catches the errors of the driver only.  It
    returns the first column of the fetched rows; when its [try] block
    raises a driver error it returns the empty list; any other
    exception leaves the function, as the IndexError of a fetched row
    without a value does.  It never raises a driver error. *)
Theorem obter_tabelas_catches_driver_errors_only :
  forall (schema : string) (w : world),
    (forall w' : world,
        obter_tabelas world conn_cursor cur_fetchall cur_close
                      cur_execute_tables schema w
        <> (w', Raise DbError))
    /\ (forall (w' : world) (tabelas : list pyval),
          tabelas_try world conn_cursor cur_fetchall cur_close
                      cur_execute_tables schema w = (w', Ok tabelas) ->
          obter_tabelas world conn_cursor cur_fetchall cur_close
                        cur_execute_tables schema w = (w', Ok tabelas))
    /\ (forall w' : world,
          tabelas_try world conn_cursor cur_fetchall cur_close
                      cur_execute_tables schema w = (w', Raise DbError) ->
          obter_tabelas world conn_cursor cur_fetchall cur_close
                        cur_execute_tables schema w = (w', Ok []))
    /\ (forall (w' : world) (e : exn),
          e <> DbError ->
          tabelas_try world conn_cursor cur_fetchall cur_close
                      cur_execute_tables schema w = (w', Raise e) ->
          obter_tabelas world conn_cursor cur_fetchall cur_close
                        cur_execute_tables schema w = (w', Raise e))
    /\ (forall (w1 w2 w3 : world) (rows : list row),
          conn_cursor w = (w1, Ok tt) ->
          cur_execute_tables [VStr schema] w1 = (w2, Ok tt) ->
          cur_fetchall w2 = (w3, Ok rows) ->
          In [] rows ->
          obter_tabelas world conn_cursor cur_fetchall cur_close
                        cur_execute_tables schema w
          = (w3, Raise IndexError)).
Proof.
  intros schema w. unfold obter_tabelas, try_catch_db.
  split; [|split; [|split; [|split]]].
  - intros w'.
    destruct (tabelas_try _ _ _ _ _ _ w) as [w1 [t|[]]];
      unfold ret; congruence.
  - intros w' t E. rewrite E. reflexivity.
  - intros w' E. rewrite E. reflexivity.
  - intros w' e N E. rewrite E. destruct e; try reflexivity. contradiction.
  - intros w1 w2 w3 rows C X F I.
    unfold tabelas_try, bind, fetch_first_column. rewrite C, X.
    unfold bind. rewrite F.
    rewrite (first_column_empty_row rows w3 I). reflexivity.
Qed.

(** X22. [gerar_create_table] generates nothing, and sends no further
    query, when the column fetch gives no row: on a connection found
    closed (no query at all), when the [try] block of the column fetch
    raises, and for a table without columns. *)
Theorem gerar_create_table_without_columns :
  forall (now : datetime) (schema tabela : string) (w : world),
    (conn_closed w = true ->
     gerar_create_table world conn_closed conn_cursor cur_execute
                        cur_fetchall cur_closed cur_close key_eq
                        now schema tabela w
     = (w, Returns None))
    /\ (forall (w' : world) (e : exn),
          colunas_try world conn_closed conn_cursor cur_execute
                      cur_fetchall cur_close schema tabela w
          = (w', Raise e) ->
          gerar_create_table world conn_closed conn_cursor cur_execute
                             cur_fetchall cur_closed cur_close key_eq
                             now schema tabela w
          = (w', Returns None))
    /\ (forall w' : world,
          colunas_try world conn_closed conn_cursor cur_execute
                      cur_fetchall cur_close schema tabela w
          = (w', Ok []) ->
          gerar_create_table world conn_closed conn_cursor cur_execute
                             cur_fetchall cur_closed cur_close key_eq
                             now schema tabela w
          = (w', Returns None)).
Proof.
  intros now schema tabela w. unfold gerar_create_table, obter_colunas,
    try_catch.
  split; [|split].
  - intros C. unfold colunas_try. rewrite C. reflexivity.
  - intros w' e E. rewrite E. reflexivity.
  - intros w' E. rewrite E. reflexivity.
Qed.

(** X23. When the columns of a table are fetched and the constraint
    and index fetches then give nothing (as they do when they fail or
    find the connection closed), [gerar_create_table] still returns the
    CREATE TABLE statement: the header, one definition per catalog row,
    separated by a comma and a line break, and the closing line, with
    no PRIMARY KEY clause and no other section.  Catalog rows (seven
    values, the type name a string) never make it raise. *)
Theorem gerar_create_table_degrades :
  (forall (now : datetime) (schema tabela : string) (w w1 w2 w3 : world)
          (colunas : list row),
      obter_colunas world conn_closed conn_cursor cur_execute cur_fetchall
                    cur_close schema tabela w = (w1, Ok colunas) ->
      colunas <> [] ->
      forallb catalog_row colunas = true ->
      obter_constraints world conn_closed conn_cursor cur_execute
                        cur_fetchall cur_close schema tabela w1
      = (w2, Ok no_constraints) ->
      obter_indices world conn_closed conn_cursor cur_execute cur_fetchall
                    cur_closed cur_close schema tabela w2 = (w3, Ok []) ->
      exists colunas_sql : list string,
        omap col_def colunas = Returns colunas_sql
        /\ length colunas_sql = length colunas
        /\ gerar_create_table world conn_closed conn_cursor cur_execute
                              cur_fetchall cur_closed cur_close key_eq
                              now schema tabela w
           = (w3, Returns
                    (Some
                       (join EmptyString
                          [ "-- Tabela: " ++ schema ++ "." ++ tabela ++ nl;
                            "-- Gerado em: " ++ strftime_ymd_hms now ++ nl
                            ++ nl;
                            "CREATE TABLE IF NOT EXISTS " ++ schema ++ "."
                            ++ tabela ++ " (" ++ nl;
                            join ("," ++ nl) colunas_sql;
                            nl ++ ");" ++ nl ++ nl ]))))
  /\ (forall (schema tabela : string) (w1 : world),
        conn_closed w1 = true ->
        obter_constraints world conn_closed conn_cursor cur_execute
                          cur_fetchall cur_close schema tabela w1
        = (w1, Ok no_constraints)
        /\ obter_indices world conn_closed conn_cursor cur_execute
                         cur_fetchall cur_closed cur_close schema tabela w1
           = (w1, Ok [])).
Proof.
  split.
  - intros now schema tabela w w1 w2 w3 colunas C N S K I.
    destruct (omap_catalog colunas S) as (defs & D).
    exists defs. split; [exact D|].
    split; [apply (omap_length _ _ _ D)|].
    unfold gerar_create_table. rewrite C.
    destruct colunas as [|r rows]; [contradiction|].
    rewrite K. unfold table_lines. rewrite D.
    cbn [obind primary_keys foreign_keys unique no_constraints app].
    rewrite I. reflexivity.
  - intros schema tabela w1 C. split.
    + unfold obter_constraints, try_catch, constraints_try. rewrite C.
      reflexivity.
    + unfold obter_indices. rewrite C. reflexivity.
Qed.

End WriterTheorems.

Import PyStr PyVal CsvToSql SchemaExtractor SchemaWriter.

Lemma obter_tabelas_catches_driver_errors_only_witness :
  obter_tabelas bool (fun w => (w, Ok tt))
                (fun w => (w, Ok [[VStr "clientes"]; []]))
                (fun w => w) (fun _ w => (w, Ok tt)) "public" false
  = (false, Raise IndexError)
  /\ obter_tabelas bool (fun w => (w, Raise DbError))
                   (fun w => (w, Ok [[VStr "clientes"]]))
                   (fun w => w) (fun _ w => (w, Ok tt)) "public" false
     = (false, Ok []).
Proof.
  split.
  - apply (proj2 (proj2 (proj2 (proj2
             (obter_tabelas_catches_driver_errors_only bool
                (fun w => (w, Ok tt))
                (fun w => (w, Ok [[VStr "clientes"]; []]))
                (fun w => w) (fun _ w => (w, Ok tt)) "public" false))))
             false false false [[VStr "clientes"]; []]);
      try reflexivity.
    right; left; reflexivity.
  - apply (proj1 (proj2 (proj2
             (obter_tabelas_catches_driver_errors_only bool
                (fun w => (w, Raise DbError))
                (fun w => (w, Ok [[VStr "clientes"]]))
                (fun w => w) (fun _ w => (w, Ok tt)) "public" false)))).
    reflexivity.
Defined.

Lemma gerar_create_table_without_columns_witness :
  gerar_create_table bool (fun w => w) (fun w => (w, Ok tt))
                     (fun _ _ w => (w, Ok tt)) (fun w => (w, Ok []))
                     (fun _ => false) (fun w => w) (fun _ _ => false)
                     (mk_datetime 2024 1 2 3 4 5 0) "public" "t" true
  = (true, Returns None)
  /\ gerar_create_table bool (fun w => w) (fun w => (w, Ok tt))
                        (fun _ _ w => (w, Raise DbError))
                        (fun w => (w, Ok [])) (fun _ => false) (fun w => w)
                        (fun _ _ => false)
                        (mk_datetime 2024 1 2 3 4 5 0) "public" "t" false
     = (false, Returns None).
Proof.
  split.
  - apply (proj1 (gerar_create_table_without_columns bool (fun w => w)
                    (fun w => (w, Ok tt)) (fun _ _ w => (w, Ok tt))
                    (fun w => (w, Ok [])) (fun _ => false) (fun w => w)
                    (fun _ _ => false)
                    (mk_datetime 2024 1 2 3 4 5 0) "public" "t" true)).
    reflexivity.
  - apply (proj1 (proj2 (gerar_create_table_without_columns bool
                    (fun w => w)
                    (fun w => (w, Ok tt)) (fun _ _ w => (w, Raise DbError))
                    (fun w => (w, Ok [])) (fun _ => false) (fun w => w)
                    (fun _ _ => false)
                    (mk_datetime 2024 1 2 3 4 5 0) "public" "t" false))
             false DbError).
    reflexivity.
Defined.

Lemma gerar_create_table_degrades_witness :
  exists colunas_sql : list string,
    omap col_def
         [[VStr "id"; VStr "integer"; VNone; VInt 32; VInt 0; VStr "NO";
           VStr "nextval('t_id_seq'::regclass)"];
          [VStr "nome"; VStr "character varying"; VInt 80; VNone; VNone;
           VStr "YES"; VNone]]
    = Returns colunas_sql
    /\ length colunas_sql = 2%nat
    /\ gerar_create_table bool (fun w => w) (fun w => (w, Ok tt))
         (fun _ _ w => (w, Ok tt))
         (fun w =>
            (true,
             Ok [[VStr "id"; VStr "integer"; VNone; VInt 32; VInt 0;
                  VStr "NO"; VStr "nextval('t_id_seq'::regclass)"];
                 [VStr "nome"; VStr "character varying"; VInt 80; VNone;
                  VNone; VStr "YES"; VNone]]))
         (fun _ => false) (fun w => w) (fun _ _ => false)
         (mk_datetime 2024 1 2 3 4 5 0) "public" "t" false
       = (true,
          Returns
            (Some
               (join EmptyString
                  [ "-- Tabela: " ++ "public" ++ "." ++ "t" ++ nl;
                    "-- Gerado em: "
                    ++ strftime_ymd_hms (mk_datetime 2024 1 2 3 4 5 0) ++ nl
                    ++ nl;
                    "CREATE TABLE IF NOT EXISTS " ++ "public" ++ "." ++ "t"
                    ++ " (" ++ nl;
                    join ("," ++ nl) colunas_sql;
                    nl ++ ");" ++ nl ++ nl ]))).
Proof.
  apply (proj1 (gerar_create_table_degrades bool (fun w => w)
                  (fun w => (w, Ok tt)) (fun _ _ w => (w, Ok tt))
                  (fun w =>
                     (true,
                      Ok [[VStr "id"; VStr "integer"; VNone; VInt 32; VInt 0;
                           VStr "NO"; VStr "nextval('t_id_seq'::regclass)"];
                          [VStr "nome"; VStr "character varying"; VInt 80;
                           VNone; VNone; VStr "YES"; VNone]]))
                  (fun _ => false) (fun w => w) (fun _ _ => false))
           (mk_datetime 2024 1 2 3 4 5 0) "public" "t" false true true true);
    try reflexivity.
  discriminate.
Defined.

(* ------------------------------------------------------------------ *)
(** ** SQL splitter *)

Module SplitterFacts.
Import PyStr PyVal Splitter.
Local Open Scope Z_scope.

Lemma escrito_writes l : forall f,
  escrito (fold_left write l f) = (escrito f ++ l)%list
  /\ nome_arquivo (fold_left write l f) = nome_arquivo f.
Proof.
  induction l as [|x l IH]; intros f; cbn [fold_left].
  - rewrite app_nil_r. split; reflexivity.
  - destruct (IH (write f x)) as [E N]. rewrite E, N. cbn [write escrito
      nome_arquivo]. rewrite <- app_assoc. split; reflexivity.
Qed.

Lemma writes_file l f :
  fold_left write l f = mk_file (nome_arquivo f) (escrito f ++ l).
Proof.
  destruct (escrito_writes l f) as [E N].
  destruct (fold_left write l f) as [n e]. cbn in *. congruence.
Qed.

Section Blocks.
Variables (nome_base nome_original : string).
Variables (L total num_blocos : Z).
Hypothesis Lpos : 0 < L.

Local Abbreviation run := (percorrer nome_base nome_original L total num_blocos).
Local Abbreviation header := (cabecalho nome_original L total num_blocos).

(** Inside a block with room for [S m] more lines. *)
Lemma dentro rest : forall m f s F b,
  Z.of_nat (S m) < L ->
  run (mk_state b (L - Z.of_nat (S m)) (Some f) F) s rest =
  if (length rest <=? m)%nat
  then Terminou (mk_state b (L - Z.of_nat (S m) + Z.of_nat (length rest))
                          (Some (fold_left write rest f)) F)
  else run (mk_state (b + 1) 0 None
                     (F ++ [fold_left write (firstn (S m) rest) f]))
           (s + Z.of_nat (S m)) (skipn (S m) rest).
Proof.
  induction rest as [|linha rest IH]; intros m f s F b B.
  - cbn [length Nat.leb percorrer]. rewrite Z.add_0_r. reflexivity.
  - cbn [percorrer]. unfold passo, abrir. cbn [linhas_no_bloco].
    replace (L - Z.of_nat (S m) =? 0) with false
      by (symmetry; apply Z.eqb_neq; lia).
    cbn [arquivo_destino linhas_no_bloco bloco_atual fechados].
    destruct m as [|m].
    + replace (L <=? L - Z.of_nat 1 + 1) with true
        by (symmetry; apply Z.leb_le; lia).
      cbn [length Nat.leb firstn skipn fold_left]. reflexivity.
    + replace (L <=? L - Z.of_nat (S (S m)) + 1) with false
        by (symmetry; apply Z.leb_gt; lia).
      replace (L - Z.of_nat (S (S m)) + 1) with (L - Z.of_nat (S m))
        by lia.
      rewrite (IH m (write f linha) (s + 1) F b) by lia.
      cbn [length Nat.leb firstn skipn fold_left].
      destruct (length rest <=? m)%nat.
      * f_equal. f_equal. lia.
      * f_equal. lia.
Qed.

Local Abbreviation blocos :=
  (Splitter.blocos nome_base nome_original L total num_blocos).

Lemma blocos_nil fuel b s : blocos fuel b s [] = [].
Proof. destruct fuel; reflexivity. Qed.

Lemma do_inicio fuel : forall rest b s F,
  (length rest <= fuel)%nat ->
  exists st,
    run (mk_state b 0 None F) s rest = Terminou st
    /\ close_open st = (F ++ blocos fuel b s rest)%list
    /\ bloco_atual st = b + Z.of_nat (length rest) / L.
Proof.
  induction fuel as [|fuel IH]; intros rest b s F Len.
  - destruct rest; [|cbn in Len; lia].
    eexists. split; [reflexivity|].
    cbn [close_open arquivo_destino fechados bloco_atual Splitter.blocos
         length].
    rewrite app_nil_r. split; [reflexivity|].
    change (Z.of_nat 0) with 0. rewrite Z.div_0_l by lia. lia.
  - destruct rest as [|linha rest].
    { eexists. split; [reflexivity|].
      cbn [close_open arquivo_destino fechados bloco_atual Splitter.blocos
         length].
      rewrite app_nil_r. split; [reflexivity|].
      change (Z.of_nat 0) with 0. rewrite Z.div_0_l by lia. lia. }
    cbn [length] in Len.
    cbn [percorrer]. unfold passo, abrir.
    cbn [linhas_no_bloco Z.eqb arquivo_destino bloco_atual fechados
         close_open].
    set (f0 := fold_left write (header b s)
                 (mk_file (nome_do_bloco nome_base b) [])).
    assert (F0 : f0 = mk_file (nome_do_bloco nome_base b) (header b s))
      by (unfold f0; rewrite writes_file; reflexivity).
    cbn [Splitter.blocos].
    destruct (Z.leb_spec L (0 + 1)) as [L1|L1].
    + (* blocks of one line *)
      assert (E : L = 1) by lia.
      assert (Len' : (length rest <= fuel)%nat) by lia.
      destruct (IH rest (b + 1) (s + 1)
                   (F ++ [write f0 linha])%list Len')
        as (st & R & C & B).
      exists st. split; [exact R|]. split.
      * rewrite C, <- app_assoc. rewrite F0, E.
        cbn [Z.to_nat Pos.to_nat Pos.iter_op Nat.add firstn skipn write
             escrito nome_arquivo app].
        reflexivity.
      * rewrite B, E, !Z.div_1_r. cbn [length]. lia.
    + (* longer blocks *)
      set (m := Z.to_nat (L - 2)).
      replace (0 + 1) with (L - Z.of_nat (S m)) by lia.
      rewrite (dentro rest m (write f0 linha) (s + 1) F b) by lia.
      replace (Z.to_nat L) with (S (S m)) by lia.
      change (firstn (S (S m)) (linha :: rest))
        with (linha :: firstn (S m) rest).
      change (skipn (S (S m)) (linha :: rest)) with (skipn (S m) rest).
      destruct (Nat.leb_spec (length rest) m) as [Sh|Lg].
      * eexists. split; [reflexivity|].
        cbn [close_open arquivo_destino fechados bloco_atual]. split.
        -- rewrite skipn_all2 by lia. rewrite blocos_nil.
           rewrite firstn_all2 by lia.
           rewrite writes_file, F0. reflexivity.
        -- rewrite Z.div_small; [lia|]. cbn [length]. lia.
      * destruct (IH (skipn (S m) rest) (b + 1) (s + 1 + Z.of_nat (S m))
                     (F ++ [fold_left write (firstn (S m) rest)
                                      (write f0 linha)])%list)
          as (st & R & C & B).
        { rewrite length_skipn. lia. }
        exists st. split; [exact R|]. split.
        -- rewrite C, <- app_assoc. rewrite writes_file, F0.
           cbn [write escrito nome_arquivo app].
           rewrite <- app_assoc. cbn [app].
           replace (s + 1 + Z.of_nat (S m)) with (s + L) by lia.
           reflexivity.
        -- rewrite B, length_skipn. cbn [length].
           replace (Z.of_nat (S (length rest)))
             with (Z.of_nat (length rest - S m) + 1 * L) by lia.
           rewrite Z.div_add by lia. lia.
Qed.

(** *** The blocks *)

Lemma corpo_block (n : string) b s rest :
  corpo (mk_file n (header b s ++ rest)) = rest.
Proof. reflexivity. Qed.

Lemma blocos_concat fuel : forall rest b s,
  (length rest <= fuel)%nat ->
  concat (map corpo (blocos fuel b s rest)) = rest.
Proof.
  induction fuel as [|fuel IH]; intros rest b s Len.
  - destruct rest; [reflexivity|cbn in Len; lia].
  - destruct rest as [|x rest]; [reflexivity|].
    cbn [blocos map concat]. rewrite corpo_block.
    rewrite IH.
    + apply firstn_skipn.
    + rewrite length_skipn. cbn [length] in *. lia.
Qed.

Lemma blocos_nth fuel : forall rest b s j f,
  (length rest <= fuel)%nat ->
  nth_error (blocos fuel b s rest) j = Some f ->
  (j * Z.to_nat L < length rest)%nat
  /\ f = mk_file (nome_do_bloco nome_base (b + Z.of_nat j))
                 (header (b + Z.of_nat j) (s + Z.of_nat j * L)
                  ++ firstn (Z.to_nat L) (skipn (j * Z.to_nat L) rest)).
Proof.
  induction fuel as [|fuel IH]; intros rest b s j f Len N.
  - destruct j; discriminate.
  - destruct rest as [|x rest]; [destruct j; discriminate|].
    cbn [Splitter.blocos] in N. destruct j as [|j].
    + cbn [nth_error] in N. injection N as <-.
      split; [cbn; lia|].
      cbn [Nat.mul skipn]. rewrite !Z.add_0_r. reflexivity.
    + cbn [nth_error] in N.
      apply IH in N; [|rewrite length_skipn; cbn [length] in *; lia].
      destruct N as [B ->]. rewrite length_skipn in B. split.
      * lia.
      * rewrite skipn_skipn.
        replace (j * Z.to_nat L + Z.to_nat L)%nat with (S j * Z.to_nat L)%nat
          by lia.
        replace (b + 1 + Z.of_nat j) with (b + Z.of_nat (S j)) by lia.
        replace (s + L + Z.of_nat j * L) with (s + Z.of_nat (S j) * L)
          by lia.
        reflexivity.
Qed.

Lemma blocos_length fuel : forall rest b s,
  (length rest <= fuel)%nat ->
  Z.of_nat (length (blocos fuel b s rest))
  = (Z.of_nat (length rest) + L - 1) / L.
Proof.
  induction fuel as [|fuel IH]; intros rest b s Len.
  - destruct rest; [|cbn in Len; lia]. cbn [blocos length].
    symmetry. apply Z.div_small. lia.
  - destruct rest as [|x rest].
    { cbn [blocos length]. symmetry. apply Z.div_small. lia. }
    cbn [Splitter.blocos].
    change (length (mk_file (nome_do_bloco nome_base b)
                            (header b s ++ firstn (Z.to_nat L) (x :: rest))
                    :: blocos fuel (b + 1) (s + L)
                              (skipn (Z.to_nat L) (x :: rest))))
      with (S (length (blocos fuel (b + 1) (s + L)
                              (skipn (Z.to_nat L) (x :: rest))))).
    rewrite Nat2Z.inj_succ, IH
      by (rewrite length_skipn; cbn [length] in *; lia).
    rewrite length_skipn.
    destruct (Nat.le_gt_cases (length (x :: rest)) (Z.to_nat L)) as [Sm|G].
    + replace (length (x :: rest) - Z.to_nat L)%nat with 0%nat by lia.
      rewrite (Z.div_small (Z.of_nat 0 + L - 1)) by lia.
      change (Z.succ 0) with 1.
      apply (Z.div_unique _ _ 1 (Z.of_nat (length (x :: rest)) - 1)).
      * left. cbn [length] in *. lia.
      * lia.
    + replace (Z.of_nat (length (x :: rest)) + L - 1)
        with (Z.of_nat (length (x :: rest) - Z.to_nat L) + L - 1 + 1 * L)
        by lia.
      rewrite Z.div_add by lia. lia.
Qed.

End Blocks.

(** What [dividir_sql] gives for a positive block size. *)
Lemma dividir_blocos nome_original nome_base linhas L :
  0 < L ->
  dividir_sql nome_original nome_base (Some linhas) L
  = Devolve (Z.of_nat (length linhas) / L + 1)
            (blocos nome_base nome_original L (Z.of_nat (length linhas))
                    ((Z.of_nat (length linhas) + L - 1) / L)
                    (length linhas) 1 1 linhas).
Proof.
  intros P. unfold dividir_sql.
  replace (L =? 0) with false by (symmetry; apply Z.eqb_neq; lia).
  cbv zeta.
  destruct (do_inicio nome_base nome_original L
              (Z.of_nat (length linhas))
              ((Z.of_nat (length linhas) + L - 1) / L) P
              (length linhas) linhas 1 1 [] (Nat.le_refl _))
    as (st & R & C & B).
  rewrite R, C, B. cbn [app]. f_equal. lia.
Qed.

End SplitterFacts.

Import PyStr PyVal Splitter SplitterFacts.
Local Open Scope Z_scope.

(** X24. For a positive block size [dividir_sql] loses, repeats and
    reorders no line: the blocks, one after the other, hold the lines of
    the source.  It creates ceil(total / size) files; file number j + 1
    is named [<base>_parte_<j+1, three digits>.sql] and holds, after its
    header of four strings ("Parte j+1 de ...", the name of the source,
    the range of line numbers, an empty line), the lines j * size + 1 to
    (j + 1) * size of the source, fewer in the last file, and never
    none. *)
Theorem dividir_sql_keeps_every_line :
  forall (nome_original nome_base : string) (linhas : list string)
         (size : Z),
    0 < size ->
    exists (n : Z) (arquivos : list out_file),
      dividir_sql nome_original nome_base (Some linhas) size
      = Devolve n arquivos
      /\ concat (map corpo arquivos) = linhas
      /\ Z.of_nat (length arquivos)
         = (Z.of_nat (length linhas) + size - 1) / size
      /\ (forall (j : nat) (f : out_file),
             nth_error arquivos j = Some f ->
             f = bloco nome_original nome_base linhas size j
             /\ corpo f
                = firstn (Z.to_nat size) (skipn (j * Z.to_nat size) linhas)
             /\ Z.of_nat (length (corpo f))
                = Z.min size (Z.of_nat (length linhas) - Z.of_nat j * size)
             /\ 1 <= Z.of_nat (length (corpo f))).
Proof.
  intros nome_original nome_base linhas L P.
  rewrite (dividir_blocos nome_original nome_base linhas L P).
  eexists. eexists. split; [reflexivity|].
  split; [apply blocos_concat; lia|].
  split; [apply blocos_length; lia|].
  intros j f N.
  apply blocos_nth in N; [|exact P|lia].
  destruct N as [B ->].
  assert (E : mk_file (nome_do_bloco nome_base (1 + Z.of_nat j))
                (cabecalho nome_original L (Z.of_nat (length linhas))
                   ((Z.of_nat (length linhas) + L - 1) / L)
                   (1 + Z.of_nat j) (1 + Z.of_nat j * L)
                 ++ firstn (Z.to_nat L) (skipn (j * Z.to_nat L) linhas))
              = bloco nome_original nome_base linhas L j).
  { unfold bloco. cbv zeta.
    replace (1 + Z.of_nat j) with (Z.of_nat j + 1) by lia.
    replace (1 + Z.of_nat j * L) with (Z.of_nat j * L + 1) by lia.
    reflexivity. }
  split; [exact E|].
  rewrite corpo_block. split; [reflexivity|].
  rewrite length_firstn, length_skipn. split; lia.
Qed.

Lemma dividir_sql_keeps_every_line_witness :
  exists (n : Z) (arquivos : list out_file),
    dividir_sql "d.sql" "d" (Some ["a"; "b"; "c"]%string) 2
    = Devolve n arquivos
    /\ concat (map corpo arquivos) = ["a"; "b"; "c"]%string
    /\ Z.of_nat (length arquivos)
       = (Z.of_nat (length ["a"; "b"; "c"]%string) + 2 - 1) / 2
    /\ (forall (j : nat) (f : out_file),
           nth_error arquivos j = Some f ->
           f = bloco "d.sql" "d" ["a"; "b"; "c"]%string 2 j
           /\ corpo f
              = firstn (Z.to_nat 2)
                       (skipn (j * Z.to_nat 2) ["a"; "b"; "c"]%string)
           /\ Z.of_nat (length (corpo f))
              = Z.min 2 (Z.of_nat (length ["a"; "b"; "c"]%string)
                         - Z.of_nat j * 2)
           /\ 1 <= Z.of_nat (length (corpo f))).
Proof.
  apply (dividir_sql_keeps_every_line "d.sql" "d" ["a"; "b"; "c"]%string 2).
  lia.
Defined.

(** X25. For a positive block size [dividir_sql] returns
    total // size + 1, the value of its block counter when the loop
    ends.  That is the number of files created when the last block is
    not full, and one more than that when the number of lines is a
    multiple of the block size; for an empty source it returns 1 and
    creates no file.  It returns 0 for a missing source; a block size
    of 0 raises ZeroDivisionError. *)
Theorem dividir_sql_return_value :
  (forall (nome_original nome_base : string) (linhas : list string)
          (size : Z),
      0 < size ->
      exists arquivos : list out_file,
        dividir_sql nome_original nome_base (Some linhas) size
        = Devolve (Z.of_nat (length linhas) / size + 1) arquivos
        /\ (Z.of_nat (length linhas) mod size = 0 ->
            Z.of_nat (length linhas) / size + 1
            = Z.of_nat (length arquivos) + 1)
        /\ (Z.of_nat (length linhas) mod size <> 0 ->
            Z.of_nat (length linhas) / size + 1
            = Z.of_nat (length arquivos)))
  /\ (forall (nome_original nome_base : string) (size : Z),
        0 < size ->
        dividir_sql nome_original nome_base (Some []) size = Devolve 1 [])
  /\ (forall (nome_original nome_base : string) (size : Z),
        dividir_sql nome_original nome_base None size = Devolve 0 [])
  /\ (forall (nome_original nome_base : string) (linhas : list string),
        dividir_sql nome_original nome_base (Some linhas) 0
        = ZeroDivisionError).
Proof.
  split; [|split; [|split]].
  - intros nome_original nome_base linhas L P.
    rewrite (dividir_blocos nome_original nome_base linhas L P).
    eexists. split; [reflexivity|].
    rewrite blocos_length by (try exact P; lia).
    set (t := Z.of_nat (length linhas)).
    pose proof (Z.div_mod t L ltac:(lia)) as D.
    pose proof (Z.mod_pos_bound t L P) as M.
    split.
    + intros Z0. f_equal.
      apply (Z.div_unique (t + L - 1) L (t / L) (L - 1)); lia.
    + intros NZ.
      apply (Z.div_unique (t + L - 1) L (t / L + 1) (t mod L - 1)); lia.
  - intros nome_original nome_base L P.
    rewrite (dividir_blocos nome_original nome_base [] L P).
    cbn [length]. change (Z.of_nat 0) with 0.
    rewrite Z.div_0_l by lia. reflexivity.
  - reflexivity.
  - reflexivity.
Qed.

Lemma dividir_sql_return_value_witness :
  (exists arquivos : list out_file,
      dividir_sql "d.sql" "d" (Some ["a"; "b"; "c"; "d"]%string) 2
      = Devolve (Z.of_nat (length ["a"; "b"; "c"; "d"]%string) / 2 + 1)
                arquivos
      /\ (Z.of_nat (length ["a"; "b"; "c"; "d"]%string) mod 2 = 0 ->
          Z.of_nat (length ["a"; "b"; "c"; "d"]%string) / 2 + 1
          = Z.of_nat (length arquivos) + 1)
      /\ (Z.of_nat (length ["a"; "b"; "c"; "d"]%string) mod 2 <> 0 ->
          Z.of_nat (length ["a"; "b"; "c"; "d"]%string) / 2 + 1
          = Z.of_nat (length arquivos)))
  /\ dividir_sql "d.sql" "d" (Some []) 50000 = Devolve 1 [].
Proof.
  destruct dividir_sql_return_value as (A & B & _). split.
  - apply (A "d.sql" "d" ["a"; "b"; "c"; "d"]%string 2). lia.
  - apply (B "d.sql" "d" 50000). lia.
Defined.
